(** * A spreadsheet with formula cells: addressing, typing, evaluation, store

    Shallow embedding of [src/utils/spreadsheet.ts], [src/types/spreadsheet.ts]
    and of the store update [handleCellValueChange] of the top-level [App]
    component; then of the handlers of [SpreadsheetGrid] and [FormulaBar],
    of the callbacks [App] gives them, and of what [AICommandBar],
    [AIChatPanel] and [AISuggestionsPanel] compute from a text.

    Conventions of the embedding
    - A JavaScript string is a [string]: a sequence of code units, here the
      code units 0..255.
    - The integers of the program (row and column indices, character codes)
      are mathematical integers [Z].  JavaScript keeps them in doubles, which
      compute exactly on integers of magnitude up to 2^53; the grid the
      program draws has 50 rows and 26 columns unless told otherwise.
    - A JavaScript number that is not an index (the operand of [isNaN], the
      result of [parseFloat]) is a binary64 value, [float].
    - A call that may raise returns a [completion].
    - The services of the language runtime the program calls ([Number],
      [parseFloat], [Function], [Date], the locale formatters) are the methods
      of the class [JsRuntime]; the program is embedded over an arbitrary
      runtime, and [Ref.runtime] implements the methods on a fragment of the
      language that is enough to run the program on concrete inputs. *)

From Stdlib Require Import ZArith Lia Bool Ascii String List.
From Stdlib Require Import PrimFloat Uint63 SpecFloat FloatOps.
From stdpp Require Import base option gmap strings.
From Equations Require Import Equations.

Local Open Scope string_scope.
Local Open Scope Z_scope.

(** ** Completions *)

(** The outcome of a call: a value, or a raised exception (with its message). *)
Inductive completion (A : Type) : Type :=
| Normal (a : A)
| Throw (message : string).
Arguments Normal {A} a.
Arguments Throw {A} message.

(** [try { body } catch { handler }] *)
Definition try_catch {A} (body : completion A) (handler : A) : A :=
  match body with
  | Normal a => a
  | Throw _ => handler
  end.

(** ** Strings and characters *)

Module Js.

Definition charCode (c : ascii) : Z := Z.of_N (N_of_ascii c).

(** [String.fromCharCode(n)], for a code unit in 0..255. *)
Definition fromCharCode (n : Z) : ascii := ascii_of_N (Z.to_N n).

Definition char_in (lo hi : Z) (c : ascii) : bool :=
  (lo <=? charCode c) && (charCode c <=? hi).

(** The character classes of the regular expressions: [[A-Z]] and [\d]. *)
Definition isUpper : ascii -> bool := char_in 65 90.
Definition isDigit : ascii -> bool := char_in 48 57.
Definition isLower : ascii -> bool := char_in 97 122.

(** White space and line terminators among the code units 0..255: TAB, LF,
    VT, FF, CR, SP and NBSP. *)
Definition isSpace (c : ascii) : bool :=
  char_in 9 13 c || (charCode c =? 32) || (charCode c =? 160).

Definition isEmpty (s : string) : bool :=
  match s with EmptyString => true | String _ _ => false end.

(** [s.startsWith(c)] for a one-character pattern. *)
Definition startsWith (c : ascii) (s : string) : bool :=
  match s with
  | String c' _ => Ascii.eqb c c'
  | EmptyString => false
  end.

(** [s.substring(1)] *)
Definition substring1 (s : string) : string :=
  match s with
  | String _ rest => rest
  | EmptyString => EmptyString
  end.

Fixpoint dropWhile (p : ascii -> bool) (s : string) : string :=
  match s with
  | String c rest => if p c then dropWhile p rest else s
  | EmptyString => EmptyString
  end.

(** The longest prefix of [s] in the class [p], and what follows it. *)
Fixpoint span (p : ascii -> bool) (s : string) : string * string :=
  match s with
  | String c rest =>
      if p c then let '(l, r) := span p rest in (String c l, r)
      else (EmptyString, s)
  | EmptyString => (EmptyString, EmptyString)
  end.

Fixpoint forallb (p : ascii -> bool) (s : string) : bool :=
  match s with
  | String c rest => p c && forallb p rest
  | EmptyString => true
  end.

Fixpoint existsb (p : ascii -> bool) (s : string) : bool :=
  match s with
  | String c rest => p c || existsb p rest
  | EmptyString => false
  end.

Definition trimStart (s : string) : string := dropWhile isSpace s.

(** [s.trim() === ''] : nothing but white space. *)
Definition isBlank (s : string) : bool := isEmpty (trimStart s).

(** The lower case of a code unit in 0..255: the capitals A-Z, and the
    accented capitals 192..222 but the multiplication sign 215. *)
Definition lowerChar (c : ascii) : ascii :=
  if isUpper c || (char_in 192 222 c && negb (charCode c =? 215))
  then fromCharCode (charCode c + 32)
  else c.

(** [s.toLowerCase()] *)
Fixpoint toLowerCase (s : string) : string :=
  match s with
  | String c rest => String (lowerChar c) (toLowerCase rest)
  | EmptyString => EmptyString
  end.

(** The decimal digit of [d], 0 <= d <= 9. *)
Definition digitChar (d : Z) : ascii := fromCharCode (48 + d).

(** Decimal digits of a non-negative integer, most significant first,
    pushed in front of [acc]. *)
Equations? toDecimal (n : Z) (acc : string) : string by wf (Z.to_nat n) lt :=
  toDecimal n acc with Z_lt_dec n 10 := {
    | left _ => String (digitChar n) acc
    | right _ => toDecimal (n / 10) (String (digitChar (n mod 10)) acc) }.
Proof.
  assert (n / 10 < n) by (apply Z.div_lt; lia). lia.
Qed.

(** [String(n)] for an integer: the conversion a template literal applies. *)
Definition integerToString (n : Z) : string :=
  if n <? 0 then String "-" (toDecimal (- n) "") else toDecimal n "".

(** [parseInt(s)] on a string that begins with a decimal digit: the value
    of its leading digits. *)
Fixpoint parseInt_from (s : string) (acc : Z) : Z :=
  match s with
  | String c rest =>
      if isDigit c then parseInt_from rest (acc * 10 + (charCode c - 48))
      else acc
  | EmptyString => acc
  end.

Definition parseInt (s : string) : Z := parseInt_from s 0.

End Js.

(** ** Cell addressing ([src/utils/spreadsheet.ts], lines 3-32) *)

(** The [while (col >= 0)] loop of [columnToLetter], [result] being the
    letters produced so far. *)
Equations? columnToLetter_loop (col : Z) (result : string) : string
  by wf (Z.to_nat (col + 1)) lt :=
  columnToLetter_loop col result with Z_le_dec 0 col := {
    | left _ =>
        columnToLetter_loop (col / 26 - 1)
          (String (Js.fromCharCode (65 + Z.rem col 26)) result)
    | right _ => result }.
Proof.
  assert (col / 26 <= col) by (apply Z.div_le_upper_bound; lia). lia.
Qed.

Definition columnToLetter (col : Z) : string := columnToLetter_loop col "".

(** The [for] loop of [letterToColumn] over the characters that remain. *)
Fixpoint letterToColumn_loop (letter : string) (result : Z) : Z :=
  match letter with
  | String c rest => letterToColumn_loop rest (result * 26 + (Js.charCode c - 64))
  | EmptyString => result
  end.

Definition letterToColumn (letter : string) : Z :=
  letterToColumn_loop letter 0 - 1.

Definition getCellId (row col : Z) : string :=
  columnToLetter col ++ Js.integerToString (row + 1).

(** The object [{ row, col }] that [parseCellId] returns. *)
Module CellPos.
Record t : Type := { row : Z; col : Z }.
End CellPos.

(** [cellId.match(/^([A-Z]+)(\d+)$/)]: the two groups, when the whole string
    matches.  The classes are disjoint, so the greedy [[A-Z]+] takes every
    leading capital and no backtracking can help. *)
Definition match_cellId (cellId : string) : option (string * string) :=
  let '(letters, rest) := Js.span Js.isUpper cellId in
  let '(digits, tail) := Js.span Js.isDigit rest in
  if negb (Js.isEmpty letters) && negb (Js.isEmpty digits) && Js.isEmpty tail
  then Some (letters, digits)
  else None.

Definition parseCellId (cellId : string) : completion CellPos.t :=
  match match_cellId cellId with
  | None => Throw ("Invalid cell ID: " ++ cellId)
  | Some (letters, digits) =>
      let col := letterToColumn letters in
      let row := Js.parseInt digits - 1 in
      Normal {| CellPos.row := row; CellPos.col := col |}
  end.

(** ** The language runtime *)

(** What the program asks of the runtime.  Numbers are binary64 values; a
    call to compiled code may raise, and so may the conversion of its result
    to a string ([undefined] has no [toString]).  The methods are functions:
    compiled text is taken to evaluate to an end, and to a result that
    depends on the text alone, as arithmetic over literals does; a body that
    loops, or that reads a clock or a random source, is outside the
    embedding. *)
Class JsRuntime : Type := {
  (** [Number(s)] *)
  js_Number : string -> float;
  (** [parseFloat(s)] *)
  js_parseFloat : string -> float;
  (** [n.toString()] of a number *)
  js_numberToString : float -> string;
  (** [n.toLocaleString()] of a number *)
  js_numberToLocaleString : float -> string;
  (** the values compiled code may return *)
  js_value : Type;
  (** a number, as such a value *)
  js_number : float -> js_value;
  (** [Function(body)()]: compile [body] as a function body and call it *)
  js_Function_call : string -> completion js_value;
  (** [v.toString()] of a returned value *)
  js_toString : js_value -> completion string;
  (** the time value of [new Date(s)]; [None] is NaN, an invalid date *)
  js_Date_parse : string -> option Z;
  (** [toLocaleDateString()] of a valid time value *)
  js_formatLocaleDate : Z -> string
}.

#[global] Instance completion_bind : MBind completion :=
  fun A B (k : A -> completion B) (c : completion A) =>
    match c with
    | Normal a => k a
    | Throw e => Throw e
    end.

(** [isNaN(n)] *)
Definition isNaN (n : float) : bool := PrimFloat.is_nan n.

(** A [Date] object is its time value.  The constructor never raises on a
    string; [toLocaleDateString] answers ["Invalid Date"] for the time value
    NaN and raises for no receiver that is a [Date]. *)
Definition DateObject : Type := option Z.

Definition new_Date `{JsRuntime} (s : string) : completion DateObject :=
  Normal (js_Date_parse s).

Definition toLocaleDateString `{JsRuntime} (d : DateObject) : completion string :=
  match d with
  | None => Normal "Invalid Date"
  | Some t => Normal (js_formatLocaleDate t)
  end.

(** ** Cells ([src/types/spreadsheet.ts]) *)

Module CellType.
Inductive t : Type := text | number | formula | date | boolean.

Definition eqb (a b : t) : bool :=
  match a, b with
  | text, text | number, number | formula, formula
  | date, date | boolean, boolean => true
  | _, _ => false
  end.
End CellType.

Module CellStyle.
Inductive weight : Type := normal | bold.
Inductive align : Type := left | center | right.
Record t : Type := {
  backgroundColor : option string;
  textColor : option string;
  fontWeight : option weight;
  textAlign : option align;
  fontSize : option Z
}.
End CellStyle.

Module Cell.
Record t : Type := {
  id : string;
  row : Z;
  col : Z;
  value : string;
  formula : option string;
  type : CellType.t;
  style : option CellStyle.t
}.
End Cell.

(** [Record<string, Cell>] *)
Abbreviation Cells := (gmap string Cell.t).

(** ** Regular expressions of [src/utils/spreadsheet.ts] *)

Module Regex.

(** A maximal run of digits whose length is between [lo] and [hi]; what
    follows it.  A quantified [\d{lo,hi}] that is followed by a character
    other than a digit, or by the end, matches exactly such a run. *)
Definition digits (lo hi : nat) (s : string) : option string :=
  let '(run, rest) := Js.span Js.isDigit s in
  if (lo <=? String.length run)%nat && (String.length run <=? hi)%nat
  then Some rest else None.

Definition char (c : ascii) (s : string) : option string :=
  match s with
  | String c' rest => if Ascii.eqb c c' then Some rest else None
  | EmptyString => None
  end.

Definition at_end (s : option string) : bool :=
  match s with
  | Some EmptyString => true
  | _ => false
  end.

(** [^\d{1,2}\/\d{1,2}\/\d{4}$]: what is left after the year. *)
Definition date_slashes (s : string) : option string :=
  r ← digits 1 2 s; r ← char "/" r;
  r ← digits 1 2 r; r ← char "/" r;
  digits 4 4 r.

(** [^\d{4}-\d{2}-\d{2}$]: what is left after the day. *)
Definition date_dashes (s : string) : option string :=
  r ← digits 4 4 s; r ← char "-" r;
  r ← digits 2 2 r; r ← char "-" r;
  digits 2 2 r.

(** [/^\d{1,2}\/\d{1,2}\/\d{4}$|^\d{4}-\d{2}-\d{2}$/.test(s)] *)
Definition dateRegex_test (s : string) : bool :=
  at_end (date_slashes s) || at_end (date_dashes s).

(** [/[A-Z]+\d+/] tried at the start of [s]: the matched text.  Capitals
    and digits are disjoint, so the match, when there is one, is the
    maximal run of capitals followed by the maximal run of digits. *)
Definition cellRef_at (s : string) : option string :=
  let '(letters, rest) := Js.span Js.isUpper s in
  let '(digits, _) := Js.span Js.isDigit rest in
  if negb (Js.isEmpty letters) && negb (Js.isEmpty digits)
  then Some (letters ++ digits)
  else None.

(** [s.replace(/[A-Z]+\d+/g, replacer)]: scan from the left; where the
    expression matches, put [replacer match] and go on after the match;
    elsewhere copy the character.  [skip] counts the characters of the last
    match that are still to be passed. *)
Fixpoint replace_cellRefs_from (replacer : string -> string) (skip : nat)
    (s : string) : string :=
  match s with
  | EmptyString => EmptyString
  | String c rest =>
      match skip with
      | S k => replace_cellRefs_from replacer k rest
      | O =>
          match cellRef_at s with
          | Some m =>
              replacer m
              ++ replace_cellRefs_from replacer (Nat.pred (String.length m)) rest
          | None => String c (replace_cellRefs_from replacer O rest)
          end
      end
  end.

Definition replace_cellRefs (replacer : string -> string) (s : string) : string :=
  replace_cellRefs_from replacer O s.

(** [s.match(/[A-Z]+\d+/g)]: the matches the scan above finds, in order;
    the addresses a formula refers to. *)
Fixpoint cellRefs_from (skip : nat) (s : string) : list string :=
  match s with
  | EmptyString => []
  | String c rest =>
      match skip with
      | S k => cellRefs_from k rest
      | O =>
          match cellRef_at s with
          | Some m => m :: cellRefs_from (Nat.pred (String.length m)) rest
          | None => cellRefs_from O rest
          end
      end
  end.

Definition cellRefs (s : string) : list string := cellRefs_from O s.

End Regex.

(** ** Type detection, formatting and evaluation
    ([src/utils/spreadsheet.ts], lines 34-101) *)

Definition dquote : ascii := "034"%char.

(** The text handed to [Function]: the directive, and the expression in
    parentheses after [return]. *)
Definition function_body (expression : string) : string :=
  String dquote "use strict" ++ String dquote "; return (" ++ expression ++ ")".

(** The state the store update touches: the cell collection and the
    notifications shown so far. *)
Module App.
Record Toast : Type := {
  title : string;
  description : string;
  duration : Z
}.
Record State : Type := {
  cells : Cells;
  toasts : list Toast
}.
End App.

(** [FormulaResult] ([src/types/spreadsheet.ts]): what the assistant hands
    over. *)
Module FormulaResult.
Record t : Type := {
  formula : string;
  explanation : string;
  confidence : Z
}.
End FormulaResult.

(** The result [handleSubmit] of the command bar falls back on when the
    request to the assistant fails. *)
Definition fallbackResult : FormulaResult.t :=
  {| FormulaResult.formula := "=SUM(A1:A10)";
     FormulaResult.explanation := "Default sum formula (AI service unavailable)";
     FormulaResult.confidence := 50 |}.

Section Spreadsheet.
Context `{rt : JsRuntime}.

Definition detectCellType (value : string) : CellType.t :=
  if Js.isEmpty value || Js.isBlank value then CellType.text
  else if Js.startsWith "=" value then CellType.formula
  else if negb (isNaN (js_Number value)) && negb (Js.isBlank value)
  then CellType.number
  else if Regex.dateRegex_test value then CellType.date
  else if String.eqb (Js.toLowerCase value) "true"
          || String.eqb (Js.toLowerCase value) "false"
  then CellType.boolean
  else CellType.text.

Definition formatCellValue (cell : Cell.t) : string :=
  if Js.isEmpty (Cell.value cell) then ""
  else
    match Cell.type cell with
    | CellType.number =>
        let num := js_parseFloat (Cell.value cell) in
        if isNaN num then Cell.value cell else js_numberToLocaleString num
    | CellType.date =>
        try_catch
          (date ← new_Date (Cell.value cell);
           toLocaleDateString date)
          (Cell.value cell)
    | CellType.boolean =>
        if String.eqb (Js.toLowerCase (Cell.value cell)) "true"
        then "TRUE" else "FALSE"
    | CellType.formula => Cell.value cell
    | CellType.text => Cell.value cell
    end.

(** The callback given to [replace]: the text that stands for the
    reference [m]. *)
Definition cellRef_value (cells : Cells) (m : string) : string :=
  match cells !! m with
  | None => "0"
  | Some cell =>
      if Js.isEmpty (Cell.value cell) then "0"
      else
        let numValue := js_parseFloat (Cell.value cell) in
        if isNaN numValue then "0" else js_numberToString numValue
  end.

(** The expression once the references are replaced. *)
Definition substituted (formula : string) (cells : Cells) : string :=
  Regex.replace_cellRefs (cellRef_value cells) (Js.substring1 formula).

Definition evaluateFormula (formula : string) (cells : Cells) : string :=
  if negb (Js.startsWith "=" formula) then formula
  else
    let expression := substituted formula cells in
    try_catch
      (result ← js_Function_call (function_body expression);
       js_toString result)
      "#ERROR".

(** ** The store update ([App], [handleCellValueChange]) *)

(** The record the update builds for [(row, col)] and the input [value],
    evaluating a formula against [cells]. *)
Definition newCell (cells : Cells) (row col : Z) (value : string) : Cell.t :=
  let cellId := getCellId row col in
  let type := detectCellType value in
  let processedValue :=
    if CellType.eqb type CellType.formula then evaluateFormula value cells
    else value in
  {| Cell.id := cellId;
     Cell.row := row;
     Cell.col := col;
     Cell.value := processedValue;
     Cell.formula :=
       if CellType.eqb type CellType.formula then Some value else None;
     Cell.type := type;
     Cell.style := None |}.

(** One call of the handler.  [cells] is the collection the callback
    captured when the component was last rendered: the formula is evaluated
    against it.  [st] is the state the updater
    [prev => ({...prev, [cellId]: newCell})] and the notification apply to. *)
Definition handleCellValueChange (cells : Cells) (row col : Z) (value : string)
    (st : App.State) : App.State :=
  let cellId := getCellId row col in
  let cell := newCell cells row col value in
  let processedValue := Cell.value cell in
  {| App.cells := <[cellId := cell]> (App.cells st);
     App.toasts :=
       App.toasts st ++
       [ {| App.title := "Cell Updated";
            App.description := cellId ++ " = " ++ processedValue;
            App.duration := 2000 |} ] |}.

(** [handleFormulaGenerated]: the formula of the assistant goes to the
    selected cell through the same handler, and is announced. *)
Definition handleFormulaGenerated (cells : Cells) (selectedCell : option CellPos.t)
    (result : FormulaResult.t) (st : App.State) : App.State :=
  match selectedCell with
  | None => st
  | Some selected =>
      let st' :=
        handleCellValueChange cells (CellPos.row selected) (CellPos.col selected)
          (FormulaResult.formula result) st in
      {| App.cells := App.cells st';
         App.toasts :=
           App.toasts st' ++
           [ {| App.title := "AI Formula Applied";
                App.description := FormulaResult.explanation result;
                App.duration := 4000 |} ] |}
  end.

(** The store update of the specification, on the cell collection alone: a
    call of the handler made when the collection [cs] has been rendered, so
    that the callback has captured it; a second call made after that one is
    rendered evaluates against its result. *)
Definition setCellValue (cs : Cells) (row col : Z) (value : string) : Cells :=
  App.cells
    (handleCellValueChange cs row col value {| App.cells := cs; App.toasts := [] |}).

End Spreadsheet.

(** ** A reference runtime for a fragment of the language

    Each service is first given as a partial function that answers [None]
    outside the fragment it covers, so that what is covered is explicit:
    - numbers written as decimal integers of magnitude at most 2^53, and the
      infinities; a number prints when it is such an integer, an infinity or
      NaN;
    - function bodies [function_body e] where [e] is built from such
      literals, [+ - * /], parentheses and spaces, with binary64 arithmetic;
      and the bodies where a colon makes [e] a syntax error;
    - dates in the form [YYYY-MM-DD], read as UTC; formatting is that of the
      en-US locale in UTC.
    [Ref.runtime] completes the partial functions with a default. *)

Module Ref.

Definition two53 : Z := 2 ^ 53.

(** The double that is the integer [z], for 0 <= z <= 2^53. *)
Definition float_of_Z (z : Z) : float := PrimFloat.of_uint63 (Uint63.of_Z z).

(** The integer that [m * 2^e] is, if it is one. *)
Definition integer_value (m : positive) (e : Z) : option Z :=
  if 0 <=? e then Some (Z.pos m * 2 ^ e)
  else if Z.pos m mod 2 ^ (- e) =? 0 then Some (Z.pos m / 2 ^ (- e))
  else None.

(** [Number::toString]: an integer below 10^21 prints as its digits. *)
Definition numberToString_opt (n : float) : option string :=
  match Prim2SF n with
  | S754_nan => Some "NaN"
  | S754_infinity s => Some (if s then "-Infinity" else "Infinity")
  | S754_zero _ => Some "0"
  | S754_finite s m e =>
      z ← integer_value m e;
      if z <=? two53
      then Some (Js.integerToString (if s then - z else z))
      else None
  end.

Fixpoint trimEnd (s : string) : string :=
  match s with
  | String c rest =>
      let r := trimEnd rest in
      if Js.isSpace c && Js.isEmpty r then EmptyString else String c r
  | EmptyString => EmptyString
  end.

Definition trim (s : string) : string := trimEnd (Js.trimStart s).

Definition split_sign (s : string) : bool * string :=
  match s with
  | String "-" rest => (true, rest)
  | String "+" rest => (false, rest)
  | _ => (false, s)
  end.

Definition signed (negative : bool) (n : float) : float :=
  if negative then PrimFloat.opp n else n.

Definition in_chars (set : string) (c : ascii) : bool :=
  Js.existsb (Ascii.eqb c) set.

(** The characters a string that converts to a number can hold: those of
    decimal, hexadecimal, octal and binary literals, of [Infinity], and
    white space. *)
Definition numeric_char (c : ascii) : bool :=
  Js.isDigit c || Js.isSpace c || in_chars "abcdefABCDEFxXoO.+-Inity" c.

Definition is_prefix (p s : string) : bool := String.prefix p s.

(** [Number(s)] *)
Definition Number_opt (s : string) : option float :=
  let t := trim s in
  let '(negative, body) := split_sign t in
  if Js.isEmpty t then Some PrimFloat.zero
  else if String.eqb body "Infinity" then Some (signed negative PrimFloat.infinity)
  else if negb (Js.isEmpty body) && Js.forallb Js.isDigit body then
    if Js.parseInt body <=? two53
    then Some (signed negative (float_of_Z (Js.parseInt body)))
    else None
  else if negb (Js.forallb numeric_char t) then Some PrimFloat.nan
  else if Js.forallb (fun c => Js.isDigit c || in_chars "+-" c) t
  then Some PrimFloat.nan
  else None.

(** [parseFloat(s)]: the longest prefix that is a decimal literal. *)
Definition parseFloat_opt (s : string) : option float :=
  let '(negative, body) := split_sign (Js.trimStart s) in
  let '(run, rest) := Js.span Js.isDigit body in
  if is_prefix "Infinity" body then Some (signed negative PrimFloat.infinity)
  else if Js.isEmpty run then
    if Js.startsWith "." body then None else Some PrimFloat.nan
  else if Js.startsWith "." rest || Js.startsWith "e" rest || Js.startsWith "E" rest
  then None
  else if Js.parseInt run <=? two53
  then Some (signed negative (float_of_Z (Js.parseInt run)))
  else None.

(** *** Arithmetic expressions *)

Inductive token : Type :=
| TNum (z : Z) | TPlus | TMinus | TStar | TSlash | TLParen | TRParen.

(** Tokens of [s]; [skip] counts the digits of the last literal still to
    be passed.  Outside the fragment: a literal with a leading zero (an
    error in strict code, left undecided here) or above 2^53, the tokens
    [++ -- ** // /*], and any other character. *)
Fixpoint lex_from (skip : nat) (s : string) : option (list token) :=
  match s with
  | EmptyString => Some []
  | String c rest =>
      match skip with
      | S k => lex_from k rest
      | O =>
          if Ascii.eqb c " " then lex_from O rest
          else if Js.isDigit c then
            let '(run, _) := Js.span Js.isDigit s in
            if Js.startsWith "0" run && (1 <? String.length run)%nat then None
            else if two53 <? Js.parseInt run then None
            else cons (TNum (Js.parseInt run))
                   <$> lex_from (Nat.pred (String.length run)) rest
          else if Ascii.eqb c "+" then
            if Js.startsWith "+" rest then None else cons TPlus <$> lex_from O rest
          else if Ascii.eqb c "-" then
            if Js.startsWith "-" rest then None else cons TMinus <$> lex_from O rest
          else if Ascii.eqb c "*" then
            if Js.startsWith "*" rest then None else cons TStar <$> lex_from O rest
          else if Ascii.eqb c "/" then
            if Js.startsWith "/" rest || Js.startsWith "*" rest then None
            else cons TSlash <$> lex_from O rest
          else if Ascii.eqb c "(" then cons TLParen <$> lex_from O rest
          else if Ascii.eqb c ")" then cons TRParen <$> lex_from O rest
          else None
      end
  end.

Inductive level : Type := Additive | Multiplicative | Unary.

(** A parse: a value and the tokens left; a program that raises (a syntax
    error, or the call of a number); or a program outside the fragment. *)
Inductive parse : Type :=
| Value (v : float) (rest : list token)
| Raises
| Outside.

(** An operand followed by [(] is a call, and the callee is a number: the
    program raises, when compiled or when run. *)
Definition operand (v : float) (rest : list token) : parse :=
  match rest with
  | TLParen :: _ => Raises
  | _ => Value v rest
  end.

Definition then_ (p : parse) (k : float -> list token -> parse) : parse :=
  match p with
  | Value v rest => k v rest
  | Raises => Raises
  | Outside => Outside
  end.

(** Evaluation by recursive descent.  [parse_level] reads an expression of
    the given level; [parse_more] reads the operators of that level that
    follow the left operand [lhs].  A [/] where an operand should start
    would open a regular expression literal. *)
Fixpoint parse_level (fuel : nat) (lvl : level) (ts : list token) : parse :=
  match fuel with
  | O => Outside
  | S fuel =>
      match lvl with
      | Additive =>
          then_ (parse_level fuel Multiplicative ts) (parse_more fuel Additive)
      | Multiplicative =>
          then_ (parse_level fuel Unary ts) (parse_more fuel Multiplicative)
      | Unary =>
          match ts with
          | TPlus :: r => parse_level fuel Unary r
          | TMinus :: r =>
              then_ (parse_level fuel Unary r)
                (fun v rest => Value (PrimFloat.opp v) rest)
          | TNum z :: r => operand (float_of_Z z) r
          | TLParen :: r =>
              then_ (parse_level fuel Additive r)
                (fun v rest =>
                   match rest with
                   | TRParen :: rest' => operand v rest'
                   | _ => Raises
                   end)
          | TSlash :: _ => Outside
          | TStar :: _ | TRParen :: _ | [] => Raises
          end
      end
  end
with parse_more (fuel : nat) (lvl : level) (lhs : float) (ts : list token) : parse :=
  match fuel with
  | O => Outside
  | S fuel =>
      match lvl, ts with
      | Additive, TPlus :: r =>
          then_ (parse_level fuel Multiplicative r)
            (fun v rest => parse_more fuel Additive (PrimFloat.add lhs v) rest)
      | Additive, TMinus :: r =>
          then_ (parse_level fuel Multiplicative r)
            (fun v rest => parse_more fuel Additive (PrimFloat.sub lhs v) rest)
      | Multiplicative, TStar :: r =>
          then_ (parse_level fuel Unary r)
            (fun v rest => parse_more fuel Multiplicative (PrimFloat.mul lhs v) rest)
      | Multiplicative, TSlash :: r =>
          then_ (parse_level fuel Unary r)
            (fun v rest => parse_more fuel Multiplicative (PrimFloat.div lhs v) rest)
      | _, _ => Value lhs ts
      end
  end.

(** The characters of an expression that has no string, template, regular
    expression, comment, conditional, block or statement separator. *)
Definition plain_char (c : ascii) : bool :=
  Js.isUpper c || Js.isLower c || Js.isDigit c || in_chars " +-*.():," c.

Definition is_colon (c : ascii) : bool := Ascii.eqb c ":".

Fixpoint strip_prefix (p s : string) : option string :=
  match p, s with
  | EmptyString, _ => Some s
  | String a p', String b s' => if Ascii.eqb a b then strip_prefix p' s' else None
  | String _ _, EmptyString => None
  end.

(** [Function(body)()] for [body = function_body e].  A colon is legal in
    a conditional, after a label or [case], in an object literal and inside
    strings, templates, regular expressions and comments; plain characters
    allow none of these after [return], so a colon among them makes the
    body a syntax error. *)
Definition Function_call_opt (body : string) : option (completion float) :=
  code ← strip_prefix (String dquote "use strict" ++ String dquote "; return ") body;
  if Js.forallb plain_char code && Js.existsb is_colon code
  then Some (Throw "SyntaxError")
  else
    ts ← lex_from O code;
    match parse_level (4 * List.length ts + 4) Additive ts with
    | Value v [] => Some (Normal v)
    | Value _ (_ :: _) => Some (Throw "SyntaxError")
    | Raises => Some (Throw "SyntaxError or TypeError")
    | Outside => None
    end.

(** *** Dates *)

Definition days_in_month (y m : Z) : Z :=
  if m =? 2 then
    if (y mod 4 =? 0) && (negb (y mod 100 =? 0) || (y mod 400 =? 0)) then 29 else 28
  else if (m =? 4) || (m =? 6) || (m =? 9) || (m =? 11) then 30
  else 31.

(** Days from 1970-01-01 to the civil date [y-m-d]. *)
Definition days_from_civil (y m d : Z) : Z :=
  let y' := if m <=? 2 then y - 1 else y in
  let era := y' / 400 in
  let yoe := y' - era * 400 in
  let doy := (153 * (if 2 <? m then m - 3 else m + 9) + 2) / 5 + d - 1 in
  let doe := yoe * 365 + yoe / 4 - yoe / 100 + doy in
  era * 146097 + doe - 719468.

(** The civil date [(y, m, d)] of a day count. *)
Definition civil_from_days (days : Z) : Z * Z * Z :=
  let z := days + 719468 in
  let era := z / 146097 in
  let doe := z - era * 146097 in
  let yoe := (doe - doe / 1460 + doe / 36524 - doe / 146096) / 365 in
  let doy := doe - (365 * yoe + yoe / 4 - yoe / 100) in
  let mp := (5 * doy + 2) / 153 in
  let d := doy - (153 * mp + 2) / 5 + 1 in
  let m := if mp <? 10 then mp + 3 else mp - 9 in
  (yoe + era * 400 + (if m <=? 2 then 1 else 0), m, d).

Definition ms_per_day : Z := 86400000.

(** [Date.parse] on the date-only form [YYYY-MM-DD].  A month outside
    1..12 or a day outside 1..31 is an illegal element value: NaN.  A day
    beyond the month's length (30 February) is left undecided. *)
Definition Date_parse_opt (s : string) : option (option Z) :=
  if Regex.at_end (Regex.date_dashes s) then
    let y := Js.parseInt (String.substring 0 4 s) in
    let m := Js.parseInt (String.substring 5 2 s) in
    let d := Js.parseInt (String.substring 8 2 s) in
    if (m <? 1) || (12 <? m) || (d <? 1) || (31 <? d) then Some None
    else if d <=? days_in_month y m
    then Some (Some (days_from_civil y m d * ms_per_day))
    else None
  else None.

(** [toLocaleDateString()] in en-US, UTC: [M/D/YYYY]. *)
Definition formatLocaleDate (t : Z) : string :=
  let '(y, m, d) := civil_from_days (t / ms_per_day) in
  Js.integerToString m ++ "/" ++ Js.integerToString d ++ "/" ++ Js.integerToString y.

(** Digits in groups of three, for a non-negative integer. *)
Equations? grouped (n : Z) (acc : string) : string by wf (Z.to_nat n) lt :=
  grouped n acc with Z_lt_dec n 1000 := {
    | left _ => Js.integerToString n ++ acc
    | right _ =>
        grouped (n / 1000)
          (String "," (Js.toDecimal (n mod 1000 / 100)
                         (Js.toDecimal (n mod 100 / 10)
                            (Js.toDecimal (n mod 10) acc)))) }.
Proof.
  assert (n / 1000 < n) by (apply Z.div_lt; lia). lia.
Qed.

(** [n.toLocaleString()] in en-US, for an integer in the fragment. *)
Definition numberToLocaleString_opt (n : float) : option string :=
  match Prim2SF n with
  | S754_zero _ => Some "0"
  | S754_finite s m e =>
      z ← integer_value m e;
      if z <=? two53
      then Some ((if s then "-" else "") ++ grouped z "")
      else None
  | _ => None
  end.

(** The runtime: the partial functions, with NaN, the text ["NaN"] and a
    raised error standing in where they are undefined. *)
#[export] Instance runtime : JsRuntime := {
  js_Number s := default PrimFloat.nan (Number_opt s);
  js_parseFloat s := default PrimFloat.nan (parseFloat_opt s);
  js_numberToString n := default "NaN" (numberToString_opt n);
  js_numberToLocaleString n := default "NaN" (numberToLocaleString_opt n);
  js_value := float;
  js_number n := n;
  js_Function_call body := default (Throw "outside the fragment") (Function_call_opt body);
  js_toString v := Normal (default "NaN" (numberToString_opt v));
  js_Date_parse s := default None (Date_parse_opt s);
  js_formatLocaleDate := formatLocaleDate
}.

End Ref.

(** What is assumed of a runtime when a statement depends on what the
    language computes: it agrees with the reference wherever the reference
    answers, a number returned by compiled code prints as that number, and
    the text of a number is made of plain characters (digits, a sign, a
    point, an exponent mark, or the letters of [Infinity] and [NaN]). *)
Record Conforms (rt : JsRuntime) : Prop := {
  conforms_Number : forall s n,
    Ref.Number_opt s = Some n -> js_Number s = n;
  conforms_parseFloat : forall s n,
    Ref.parseFloat_opt s = Some n -> js_parseFloat s = n;
  conforms_numberToString : forall n s,
    Ref.numberToString_opt n = Some s -> js_numberToString n = s;
  conforms_call_value : forall body v,
    Ref.Function_call_opt body = Some (Normal v) ->
    js_Function_call body = Normal (js_number v);
  conforms_call_raises : forall body e,
    Ref.Function_call_opt body = Some (Throw e) ->
    exists e', js_Function_call body = Throw e';
  conforms_toString : forall n,
    js_toString (js_number n) = Normal (js_numberToString n);
  conforms_Date_parse : forall s d,
    Ref.Date_parse_opt s = Some d -> js_Date_parse s = d;
  conforms_number_text : forall n,
    Js.forallb Ref.plain_char (js_numberToString n) = true
}.


(** ** Vocabulary of the statements *)


(** A cell as the store update builds it for a plain input. *)
Definition plainCell (id : string) (row col : Z) (value : string) (type : CellType.t) : Cell.t :=
  {| Cell.id := id; Cell.row := row; Cell.col := col; Cell.value := value;
     Cell.formula := None; Cell.type := type; Cell.style := None |}.

(** A cell holding an evaluated formula. *)
Definition formulaCell (id : string) (row col : Z) (formula value : string) : Cell.t :=
  {| Cell.id := id; Cell.row := row; Cell.col := col; Cell.value := value;
     Cell.formula := Some formula; Cell.type := CellType.formula; Cell.style := None |}.

(** The substitution step, in the words of the specification: scanning from
    the left, each stretch of one or more capitals followed by one or more
    digits (taken as far as the digits go) is replaced by the text [f] gives
    for it, and every other character is kept. *)
Definition StartsWithRef (s : string) : Prop :=
  exists letters digits tail,
    s = letters ++ digits ++ tail
    /\ letters <> "" /\ Js.forallb Js.isUpper letters = true
    /\ digits <> "" /\ Js.forallb Js.isDigit digits = true.

Definition no_digit_ahead (s : string) : Prop :=
  match s with
  | String c _ => Js.isDigit c = false
  | EmptyString => True
  end.

Inductive Substitution (f : string -> string) : string -> string -> Prop :=
| subst_end : Substitution f "" ""
| subst_ref (letters digits rest out : string) :
    letters <> "" -> Js.forallb Js.isUpper letters = true ->
    digits <> "" -> Js.forallb Js.isDigit digits = true ->
    no_digit_ahead rest ->
    Substitution f rest out ->
    Substitution f (letters ++ digits ++ rest) (f (letters ++ digits) ++ out)
| subst_copy (c : ascii) (rest out : string) :
    ~ StartsWithRef (String c rest) ->
    Substitution f rest out ->
    Substitution f (String c rest) (String c out).

(** What the specification requires of the record stored under [k]. *)
Definition cell_wf (k : string) (cell : Cell.t) : Prop :=
  Cell.id cell = k
  /\ Cell.id cell = getCellId (Cell.row cell) (Cell.col cell)
  /\ (Cell.type cell = CellType.formula <-> Cell.formula cell <> None)
  /\ (forall f, Cell.formula cell = Some f -> Js.startsWith "=" f = true).

Definition store_wf (cs : Cells) : Prop :=
  forall k cell, cs !! k = Some cell -> cell_wf k cell.

(** The first [k] characters of [s] lie in the class [p]. *)
Fixpoint leading (p : ascii -> bool) (k : nat) (s : string) : bool :=
  match k, s with
  | S k', String c rest => p c && leading p k' rest
  | _, _ => true
  end.

Definition ref_char (c : ascii) : bool := Js.isUpper c || Js.isDigit c.

(** ** The components: grid, formula bar, assistant panels *)

(** String methods the components call. *)
Module JsString.

(** [s.includes(t)] *)
Fixpoint includes (s t : string) : bool :=
  String.prefix t s
  || match s with
     | String _ rest => includes rest t
     | EmptyString => false
     end.

(** [s.split(sep)] for a one-character separator: the pieces between the
    separators; the empty string gives one empty piece. *)
Fixpoint split (sep : ascii) (s : string) : list string :=
  match s with
  | EmptyString => [EmptyString]
  | String c rest =>
      if Ascii.eqb c sep then EmptyString :: split sep rest
      else
        match split sep rest with
        | piece :: pieces => String c piece :: pieces
        | [] => [String c EmptyString]
        end
  end.

(** [s.trim()] *)
Definition trim (s : string) : string := Ref.trim s.

(** [a || b] on strings: the empty string is falsy. *)
Definition or_else (a b : string) : string := if Js.isEmpty a then b else a.

End JsString.

Definition newline : ascii := "010"%char.

(** *** [SpreadsheetGrid] ([src/components/SpreadsheetGrid.tsx]) *)

Module Grid.

Record KeyboardEvent : Type := {
  key : string;
  ctrlKey : bool;
  metaKey : bool
}.

(** The properties the component reads, as its interface declares them. *)
Record Props : Type := {
  cells : Cells;
  selectedCell : option CellPos.t;
  rows : Z;
  cols : Z
}.

(** The state of the component: the cell under edit and the edit buffer. *)
Record State : Type := {
  editingCell : option CellPos.t;
  editValue : string
}.

(** What a handler does, statement by statement: it sets a state variable
    of the component, calls a callback of its parent, or cancels the default
    action of the event.  A handler reads the state of the rendering it was
    created in; what it sets shows at the next rendering. *)
Inductive Effect : Type :=
| setEditingCell (v : option CellPos.t)
| setEditValue (v : string)
| onCellSelect (row col : Z)
| onCellValueChange (row col : Z) (value : string)
| onStartEdit
| onStopEdit
| preventDefault.

(** [if (v)] on an object or [null]. *)
Definition truthy {A : Type} (v : option A) : bool :=
  match v with
  | Some _ => true
  | None => false
  end.

Definition apply (st : State) (eff : Effect) : State :=
  match eff with
  | setEditingCell v => {| editingCell := v; editValue := editValue st |}
  | setEditValue v => {| editingCell := editingCell st; editValue := v |}
  | _ => st
  end.

(** The state at the next rendering. *)
Definition nextState (effects : list Effect) (st : State) : State :=
  fold_left apply effects st.

(** [cell?.formula || cell?.value || ''] *)
Definition editText (cell : option Cell.t) : string :=
  match cell with
  | None => ""
  | Some cell =>
      JsString.or_else
        (JsString.or_else (default "" (Cell.formula cell)) (Cell.value cell)) ""
  end.

Definition handleCellSubmit (st : State) : list Effect :=
  match editingCell st with
  | Some editing =>
      [ onCellValueChange (CellPos.row editing) (CellPos.col editing) (editValue st);
        setEditingCell None;
        setEditValue "";
        onStopEdit ]
  | None => []
  end.

Definition handleCellClick (st : State) (row col : Z) : list Effect :=
  (if truthy (editingCell st) then handleCellSubmit st else [])
  ++ [ onCellSelect row col ].

Definition handleCellDoubleClick (props : Props) (row col : Z) : list Effect :=
  let cellId := getCellId row col in
  let cell := cells props !! cellId in
  [ setEditingCell (Some {| CellPos.row := row; CellPos.col := col |});
    setEditValue (editText cell);
    onStartEdit ].

Definition handleKeyDown (props : Props) (st : State) (e : KeyboardEvent)
    : list Effect :=
  match selectedCell props with
  | None => []
  | Some selected =>
      let row := CellPos.row selected in
      let col := CellPos.col selected in
      if String.eqb (key e) "Enter" then
        if truthy (editingCell st) then handleCellSubmit st
        else [ onCellSelect (Z.min (row + 1) (rows props - 1)) col ]
      else if String.eqb (key e) "Tab" then
        [ preventDefault ]
        ++ (if truthy (editingCell st) then handleCellSubmit st else [])
        ++ [ onCellSelect row (Z.min (col + 1) (cols props - 1)) ]
      else if String.eqb (key e) "Escape" then
        if truthy (editingCell st) then [ setEditingCell None; setEditValue ""; onStopEdit ]
        else []
      else if String.eqb (key e) "ArrowUp" then
        if truthy (editingCell st) then []
        else [ preventDefault; onCellSelect (Z.max (row - 1) 0) col ]
      else if String.eqb (key e) "ArrowDown" then
        if truthy (editingCell st) then []
        else [ preventDefault; onCellSelect (Z.min (row + 1) (rows props - 1)) col ]
      else if String.eqb (key e) "ArrowLeft" then
        if truthy (editingCell st) then []
        else [ preventDefault; onCellSelect row (Z.max (col - 1) 0) ]
      else if String.eqb (key e) "ArrowRight" then
        if truthy (editingCell st) then []
        else [ preventDefault; onCellSelect row (Z.min (col + 1) (cols props - 1)) ]
      else if String.eqb (key e) "F2" then
        [ preventDefault ] ++ handleCellDoubleClick props row col
      else
        if negb (truthy (editingCell st))
           && (String.length (key e) =? 1)%nat
           && negb (ctrlKey e) && negb (metaKey e)
        then [ setEditingCell (Some selected); setEditValue (key e); onStartEdit ]
        else []
  end.

(** The handlers of the input drawn in the cell under edit. *)
Definition input_onChange (value : string) : list Effect :=
  [ setEditValue value ].

Definition input_onBlur (st : State) : list Effect := handleCellSubmit st.

Definition input_onKeyDown (st : State) (e : KeyboardEvent) : list Effect :=
  if String.eqb (key e) "Enter" then handleCellSubmit st
  else if String.eqb (key e) "Escape" then
    [ setEditingCell None; setEditValue ""; onStopEdit ]
  else [].

(** What [renderCell] draws in a cell. *)
Inductive Rendered : Type :=
| Input (value : string)
| Display (displayValue : string).

Definition isEditingThis (st : State) (row col : Z) : bool :=
  match editingCell st with
  | Some editing => (CellPos.row editing =? row) && (CellPos.col editing =? col)
  | None => false
  end.

Definition renderCell `{JsRuntime} (props : Props) (st : State) (row col : Z)
    : Rendered :=
  let cellId := getCellId row col in
  let cell := cells props !! cellId in
  if isEditingThis st row col then Input (editValue st)
  else
    Display
      match cell with
      | Some cell => formatCellValue cell
      | None => ""
      end.

End Grid.

(** *** [FormulaBar] ([src/components/FormulaBar.tsx]) *)

Module FormulaBar.

Inductive Effect : Type :=
| onValueChange (value : string)
| onConfirm
| onCancel.

(** The effect on [isEditing], [cellValue] and [cellFormula]: the value
    [localValue] is set to. *)
Definition localValue_effect (isEditing : bool) (cellValue : string)
    (cellFormula : option string) : string :=
  if isEditing then JsString.or_else (default "" cellFormula) cellValue
  else "".

Definition handleKeyDown (localValue : string) (key : string) : list Effect :=
  if String.eqb key "Enter" then [ onValueChange localValue; onConfirm ]
  else if String.eqb key "Escape" then [ onCancel ]
  else [].

End FormulaBar.

(** *** [AICommandBar] ([src/unnamed/part_001]) *)

Module AICommandBar.

Definition commonSuggestions : list string :=
  [ "Calculate the sum of column A";
    "Find the average of selected cells";
    "Count non-empty cells in range";
    "Create a formula to calculate percentage";
    "Generate a date formula for today";
    "Calculate compound interest";
    "Find the maximum value in range";
    "Create a conditional formula" ].

Record State : Type := {
  suggestions : list string;
  showSuggestions : bool
}.

(** The effect on [query]. *)
Definition suggestions_effect (query : string) (st : State) : State :=
  if (2 <? String.length query)%nat then
    let filtered :=
      List.filter
        (fun s => JsString.includes (Js.toLowerCase s) (Js.toLowerCase query))
        commonSuggestions in
    {| suggestions := firstn 4 filtered;
       showSuggestions := (0 <? List.length filtered)%nat |}
  else
    {| suggestions := suggestions st; showSuggestions := false |}.

(** The formula [handleSubmit] takes from an answer that is not JSON: the
    first line, among those that are not blank, that holds an equals sign,
    trimmed; the default when there is none. *)
Definition formulaFromText (text : string) : string :=
  let lines :=
    List.filter (fun line => negb (Js.isEmpty (JsString.trim line)))
      (JsString.split newline text) in
  match List.find (fun line => JsString.includes line "=") lines with
  | Some line => JsString.or_else (JsString.trim line) "=SUM(A1:A10)"
  | None => "=SUM(A1:A10)"
  end.

Definition resultFromText (text : string) : FormulaResult.t :=
  {| FormulaResult.formula := formulaFromText text;
     FormulaResult.explanation := "AI-generated formula based on your request";
     FormulaResult.confidence := 80 |}.

End AICommandBar.

(** *** [AIChatPanel] ([src/components/AIChatPanel.tsx]) *)

Module AIChatPanel.

(** The panel's own [getCellId]: one character for the column, whose code
    is [65 + col] (here for [65 + col] below 256). *)
Definition getCellId (row col : Z) : string :=
  String (Js.fromCharCode (65 + col)) (Js.integerToString (row + 1)).

(** The class [[A-Za-z0-9():,\s+\-*/]]. *)
Definition formula_char (c : ascii) : bool :=
  Js.isUpper c || Js.isLower c || Js.isDigit c
  || Ref.in_chars "():,+-*/" c || Js.isSpace c.

(** [s.match(/=[A-Za-z0-9():,\s+\-*/]+/g)], the first match: the leftmost
    equals sign that a character of the class follows, with the longest run
    of such characters. *)
Fixpoint formulaMatch (s : string) : option string :=
  match s with
  | EmptyString => None
  | String c rest =>
      let run := fst (Js.span formula_char rest) in
      if Ascii.eqb c "=" && negb (Js.isEmpty run)
      then Some (String "=" run)
      else formulaMatch rest
  end.

(** What [handleApplyFormula] hands to [onFormulaGenerated]. *)
Definition appliedResult (formula : string) : FormulaResult.t :=
  {| FormulaResult.formula := formula;
     FormulaResult.explanation := "Applied from AI chat";
     FormulaResult.confidence := 90 |}.

End AIChatPanel.

(** *** [AISuggestionsPanel] ([src/unnamed/part_002]) *)

Module AISuggestionsPanel.

(** The formulas of [quickSuggestions]. *)
Definition quickSuggestions : list string :=
  [ "=SUM(A:A)"; "=AVERAGE(A:A)"; "=COUNT(A:A)"; "=TODAY()" ].

End AISuggestionsPanel.

(** *** [App] ([src/unnamed/part_000]): the sample data and the callbacks
    given to the components *)

Definition sampleCells : Cells :=
  list_to_map
    [ ("A1", plainCell "A1" 0 0 "Product" CellType.text);
      ("B1", plainCell "B1" 0 1 "Sales Q1" CellType.text);
      ("C1", plainCell "C1" 0 2 "Sales Q2" CellType.text);
      ("A2", plainCell "A2" 1 0 "Laptops" CellType.text);
      ("B2", plainCell "B2" 1 1 "15000" CellType.number);
      ("C2", plainCell "C2" 1 2 "18000" CellType.number);
      ("A3", plainCell "A3" 2 0 "Phones" CellType.text);
      ("B3", plainCell "B3" 2 1 "25000" CellType.number);
      ("C3", plainCell "C3" 2 2 "28000" CellType.number);
      ("A4", plainCell "A4" 3 0 "Tablets" CellType.text);
      ("B4", plainCell "B4" 3 1 "8000" CellType.number);
      ("C4", plainCell "C4" 3 2 "9500" CellType.number) ].

Section Callbacks.
Context `{rt : JsRuntime}.

Definition handleSuggestionApply (cells : Cells) (selectedCell : option CellPos.t)
    (suggestion : string) (st : App.State) : App.State :=
  match selectedCell with
  | None => st
  | Some selected =>
      if Js.startsWith "=" suggestion then
        handleCellValueChange cells (CellPos.row selected) (CellPos.col selected)
          suggestion st
      else
        {| App.cells := App.cells st;
           App.toasts :=
             App.toasts st ++
             [ {| App.title := "AI Suggestion";
                  App.description := suggestion;
                  App.duration := 4000 |} ] |}
  end.

Definition getCurrentCell (cells : Cells) (selectedCell : option CellPos.t)
    : option Cell.t :=
  match selectedCell with
  | None => None
  | Some selected =>
      cells !! getCellId (CellPos.row selected) (CellPos.col selected)
  end.

(** The [onValueChange] given to the formula bar. *)
Definition formulaBar_onValueChange (cells : Cells) (selectedCell : option CellPos.t)
    (value : string) (st : App.State) : App.State :=
  match selectedCell with
  | Some selected =>
      handleCellValueChange cells (CellPos.row selected) (CellPos.col selected)
        value st
  | None => st
  end.

(** What the calls of a grid handler do to the cell collection and the
    notifications: [onCellValueChange] is [handleCellValueChange], created
    at the rendering that drew [cells]; the other callbacks set the
    selection and the editing flag, and leave both alone. *)
Definition grid_calls (cells : Cells) (effects : list Grid.Effect)
    (st : App.State) : App.State :=
  fold_left
    (fun st eff =>
       match eff with
       | Grid.onCellValueChange row col value =>
           handleCellValueChange cells row col value st
       | _ => st
       end)
    effects st.

(** The same for the formula bar. *)
Definition formulaBar_calls (cells : Cells) (selectedCell : option CellPos.t)
    (effects : list FormulaBar.Effect) (st : App.State) : App.State :=
  fold_left
    (fun st eff =>
       match eff with
       | FormulaBar.onValueChange value =>
           formulaBar_onValueChange cells selectedCell value st
       | _ => st
       end)
    effects st.

(** The cell collections the application can hold: the empty one, the
    sample, and what an update makes of one of them; the update evaluates
    against the collection of the rendering that created the callback. *)
Inductive reachable : Cells -> Prop :=
| reachable_empty : reachable ∅
| reachable_sample : reachable sampleCells
| reachable_update (rendered prev : Cells) (row col : Z) (value : string)
    (toasts : list App.Toast) :
    reachable rendered -> reachable prev ->
    reachable
      (App.cells
         (handleCellValueChange rendered row col value
            {| App.cells := prev; App.toasts := toasts |})).

End Callbacks.

(** ** Vocabulary of the statements, continued *)

(** The text a formula reads under an address: the value of the cell, the
    empty text where there is none. *)
Definition value_of (cs : Cells) (m : string) : string :=
  default "" (Cell.value <$> cs !! m).

(** The strings the date pattern describes: [D/D/DDDD] with one or two
    digits for each of the first two fields, or [DDDD-DD-DD]. *)
Definition all_digits (n : nat) (s : string) : Prop :=
  String.length s = n /\ Js.forallb Js.isDigit s = true.

Definition DatePattern (s : string) : Prop :=
  (exists a b y,
      s = a ++ "/" ++ b ++ "/" ++ y
      /\ (all_digits 1 a \/ all_digits 2 a)
      /\ (all_digits 1 b \/ all_digits 2 b)
      /\ all_digits 4 y)
  \/ (exists y m d,
        s = y ++ "-" ++ m ++ "-" ++ d
        /\ all_digits 4 y /\ all_digits 2 m /\ all_digits 2 d).

(** A record as the update writes it: what [cell_wf] says, no style, and
    for a cell without a formula the type the detector gives its value. *)
Definition cell_canonical `{JsRuntime} (k : string) (cell : Cell.t) : Prop :=
  cell_wf k cell
  /\ Cell.style cell = None
  /\ (Cell.formula cell = None -> Cell.type cell = detectCellType (Cell.value cell)).

(** A first character with which no number starts. *)
Definition starts_no_number (s : string) : bool :=
  match s with
  | String c _ =>
      negb (Js.isSpace c || Js.isDigit c || Ref.in_chars "+-.I" c)
  | EmptyString => false
  end.

(** * Properties *)

(** ** Strings *)

Section StringFacts.

Lemma app_cons (c : ascii) (s t : string) : String c s ++ t = String c (s ++ t).
Proof. reflexivity. Qed.

Lemma app_nil_l (s : string) : "" ++ s = s.
Proof. reflexivity. Qed.

Lemma app_nil_r (s : string) : s ++ "" = s.
Proof.
  induction s as [|c s IH]; [reflexivity |]. now rewrite app_cons, IH.
Qed.

Lemma app_assoc (a b c : string) : a ++ (b ++ c) = (a ++ b) ++ c.
Proof.
  induction a as [|x a IH]; [reflexivity |]. now rewrite !app_cons, IH.
Qed.

Lemma app_eq_nil (a b : string) : a ++ b = "" -> a = "" /\ b = "".
Proof.
  destruct a; [rewrite app_nil_l; intros ->; split; reflexivity |].
  rewrite app_cons. discriminate.
Qed.

Lemma forallb_app p (a b : string) :
  Js.forallb p (a ++ b) = Js.forallb p a && Js.forallb p b.
Proof.
  induction a as [|x a IH]; [reflexivity |].
  rewrite app_cons. simpl. now rewrite IH, andb_assoc.
Qed.

Lemma existsb_app p (a b : string) :
  Js.existsb p (a ++ b) = Js.existsb p a || Js.existsb p b.
Proof.
  induction a as [|x a IH]; [reflexivity |].
  rewrite app_cons. simpl. now rewrite IH, orb_assoc.
Qed.

Lemma isEmpty_true (s : string) : Js.isEmpty s = true <-> s = "".
Proof. destruct s; simpl; split; (reflexivity || discriminate). Qed.

Lemma isEmpty_false (s : string) : Js.isEmpty s = false <-> s <> "".
Proof. destruct s; simpl; split; try congruence; intros H; now contradiction H. Qed.

(** [span] splits its argument, the first part lies in the class, and the
    second does not begin in it. *)
Lemma span_spec p (s a b : string) :
  Js.span p s = (a, b) ->
  s = a ++ b /\ Js.forallb p a = true /\
  match b with String c _ => p c = false | EmptyString => True end.
Proof.
  revert a b. induction s as [|c s IH]; simpl; intros a b H.
  - inversion H; subst. repeat split.
  - destruct (p c) eqn:Hc.
    + destruct (Js.span p s) as [l r] eqn:Hs. inversion H; subst.
      destruct (IH l b eq_refl) as (-> & Hl & Hb).
      rewrite app_cons. simpl. rewrite Hc, Hl. repeat split. exact Hb.
    + inversion H; subst. simpl. repeat split. exact Hc.
Qed.

(** Conversely a split of that shape is the one [span] finds. *)
Lemma span_app p (a b : string) :
  Js.forallb p a = true ->
  match b with String c _ => p c = false | EmptyString => True end ->
  Js.span p (a ++ b) = (a, b).
Proof.
  induction a as [|x a IH]; intros Ha Hb.
  - rewrite app_nil_l. destruct b as [|c b]; simpl; [reflexivity | now rewrite Hb].
  - simpl in Ha. apply andb_prop in Ha as [Hx Ha].
    rewrite app_cons. simpl. now rewrite Hx, IH.
Qed.

Lemma charCode_range (c : ascii) : 0 <= Js.charCode c < 256.
Proof.
  unfold Js.charCode. pose proof (N_ascii_bounded c). lia.
Qed.

Lemma charCode_fromCharCode (n : Z) :
  0 <= n < 256 -> Js.charCode (Js.fromCharCode n) = n.
Proof.
  intros Hn. unfold Js.charCode, Js.fromCharCode.
  rewrite N_ascii_embedding by lia. lia.
Qed.

Lemma isUpper_not_isDigit (c : ascii) : Js.isDigit c = true -> Js.isUpper c = false.
Proof.
  unfold Js.isDigit, Js.isUpper, Js.char_in. pose proof (charCode_range c). lia.
Qed.

End StringFacts.

(** ** Addressing *)

Section Addressing.

Lemma letterToColumn_loop_app (a b : string) (acc : Z) :
  letterToColumn_loop (a ++ b) acc = letterToColumn_loop b (letterToColumn_loop a acc).
Proof.
  revert acc. induction a as [|c a IH]; intros acc; [reflexivity |].
  rewrite app_cons. simpl. apply IH.
Qed.

(** The loop of [columnToLetter] puts in front of [result] capitals whose
    value, read as [letterToColumn] reads them, is [col + 1]. *)
Lemma columnToLetter_loop_spec (col : Z) (result : string) :
  -1 <= col ->
  exists letters,
    columnToLetter_loop col result = letters ++ result
    /\ Js.forallb Js.isUpper letters = true
    /\ letterToColumn_loop letters 0 = col + 1
    /\ (0 <= col -> letters <> "").
Proof.
  funelim (columnToLetter_loop col result); intros Hcol.
  - match goal with
    | IH : _ -> ex _ |- _ => destruct IH as (ls & Hls & Hup & Hval & _)
    end.
    { assert (0 <= col / 26) by (apply Z.div_pos; lia). lia. }
    exists (ls ++ String (Js.fromCharCode (65 + Z.rem col 26)) "").
    assert (Hrem : 0 <= Z.rem col 26 < 26) by (apply Z.rem_bound_pos; lia).
    repeat split.
    + rewrite Hls, <- app_assoc. reflexivity.
    + rewrite forallb_app, Hup. simpl.
      unfold Js.isUpper, Js.char_in. rewrite charCode_fromCharCode by lia.
      lia.
    + rewrite letterToColumn_loop_app, Hval. simpl.
      rewrite charCode_fromCharCode by lia.
      rewrite Z.rem_mod_nonneg by lia.
      pose proof (Z.div_mod col 26). lia.
    + intros _ Hnil. apply app_eq_nil in Hnil as [_ Hnil]. discriminate.
  - exists "". repeat split; simpl; lia.
Qed.

Lemma columnToLetter_loop_step (col : Z) (result : string) :
  0 <= col ->
  columnToLetter_loop col result
  = columnToLetter_loop (col / 26 - 1)
      (String (Js.fromCharCode (65 + Z.rem col 26)) result).
Proof.
  funelim (columnToLetter_loop col result); intros Hcol; [reflexivity | lia].
Qed.

Lemma columnToLetter_loop_stop (col : Z) (result : string) :
  col < 0 -> columnToLetter_loop col result = result.
Proof.
  funelim (columnToLetter_loop col result); intros Hcol; [lia | reflexivity].
Qed.



Lemma parseInt_from_app (a b : string) (acc : Z) :
  Js.forallb Js.isDigit a = true ->
  Js.parseInt_from (a ++ b) acc = Js.parseInt_from b (Js.parseInt_from a acc).
Proof.
  revert acc. induction a as [|c a IH]; intros acc Ha; [reflexivity |].
  simpl in Ha. apply andb_prop in Ha as [Hc Ha].
  rewrite app_cons. simpl. rewrite Hc. now apply IH.
Qed.

(** The digits of [n] are digits, there is one at least, and read back
    they give [n]. *)
Lemma toDecimal_spec (n : Z) (acc : string) :
  0 <= n ->
  exists ds,
    Js.toDecimal n acc = ds ++ acc
    /\ Js.forallb Js.isDigit ds = true
    /\ ds <> ""
    /\ Js.parseInt_from ds 0 = n.
Proof.
  funelim (Js.toDecimal n acc); intros Hn.
  - exists (String (Js.digitChar n) ""). unfold Js.digitChar.
    repeat split; simpl; try discriminate.
    + unfold Js.isDigit, Js.char_in. rewrite charCode_fromCharCode by lia. lia.
    + unfold Js.isDigit, Js.char_in. rewrite charCode_fromCharCode by lia.
      replace ((48 <=? 48 + n) && (48 + n <=? 57)) with true by lia. lia.
  - match goal with
    | IH : _ -> ex _ |- _ => destruct IH as (ds & Htd & Hds & _ & Hval)
    end.
    { apply Z.div_pos; lia. }
    assert (Hmod : 0 <= n mod 10 < 10) by (apply Z.mod_pos_bound; lia).
    assert (Hd : Js.isDigit (Js.digitChar (n mod 10)) = true).
    { unfold Js.isDigit, Js.digitChar, Js.char_in.
      rewrite charCode_fromCharCode by lia. lia. }
    exists (ds ++ String (Js.digitChar (n mod 10)) "").
    repeat split.
    + rewrite Htd, <- app_assoc. reflexivity.
    + rewrite forallb_app, Hds. simpl. now rewrite Hd.
    + intros Hnil. apply app_eq_nil in Hnil as [_ Hnil]. discriminate.
    + rewrite parseInt_from_app, Hval by exact Hds. simpl. rewrite Hd.
      unfold Js.digitChar. rewrite charCode_fromCharCode by lia.
      pose proof (Z.div_mod n 10). lia.
Qed.

Lemma match_cellId_app (letters digits : string) :
  letters <> "" -> Js.forallb Js.isUpper letters = true ->
  digits <> "" -> Js.forallb Js.isDigit digits = true ->
  match_cellId (letters ++ digits) = Some (letters, digits).
Proof.
  intros Hl Hup Hd Hdig. unfold match_cellId.
  rewrite (span_app Js.isUpper letters digits Hup).
  - rewrite <- (app_nil_r digits) at 1.
    rewrite (span_app Js.isDigit digits "" Hdig I).
    apply isEmpty_false in Hl, Hd. now rewrite Hl, Hd.
  - destruct digits as [|d ds]; [exact I |].
    simpl in Hdig. apply andb_prop in Hdig as [Hdig _].
    now apply isUpper_not_isDigit.
Qed.



Lemma getCellId_shape (row col : Z) :
  0 <= row -> 0 <= col ->
  exists letters digits,
    getCellId row col = letters ++ digits
    /\ letters <> "" /\ Js.forallb Js.isUpper letters = true
    /\ digits <> "" /\ Js.forallb Js.isDigit digits = true
    /\ letterToColumn letters = col
    /\ Js.parseInt digits = row + 1.
Proof.
  intros Hrow Hcol. unfold getCellId, columnToLetter, Js.integerToString.
  destruct (columnToLetter_loop_spec col "") as (ls & -> & Hup & Hval & Hne); [lia |].
  destruct (toDecimal_spec (row + 1) "") as (ds & -> & Hdig & Hd & Hparse); [lia |].
  replace (row + 1 <? 0) with false by lia.
  rewrite !app_nil_r. exists ls, ds.
  unfold letterToColumn, Js.parseInt. rewrite Hval, Hparse.
  repeat split; auto; lia.
Qed.

End Addressing.





(** ** The store update *)

Section Store.
Context `{rt : JsRuntime}.

Lemma setCellValue_unfold (cs : Cells) (r c : Z) (v : string) :
  setCellValue cs r c v = <[getCellId r c := newCell cs r c v]> cs.
Proof. reflexivity. Qed.

Lemma startsWith_not_blank (v : string) :
  Js.startsWith "=" v = true -> Js.isEmpty v || Js.isBlank v = false.
Proof.
  destruct v as [|a v]; [discriminate |]. unfold Js.startsWith.
  intros H. apply Ascii.eqb_eq in H as <-. reflexivity.
Qed.

(** An input is typed as a formula exactly when it starts with [=]. *)
Lemma detectCellType_formula (v : string) :
  detectCellType v = CellType.formula <-> Js.startsWith "=" v = true.
Proof.
  unfold detectCellType. split.
  - destruct (Js.isEmpty v || Js.isBlank v); [discriminate |].
    destruct (Js.startsWith "=" v); [reflexivity |].
    repeat match goal with
           | |- context [if ?b then _ else _] => destruct b
           end; discriminate.
  - intros H. now rewrite (startsWith_not_blank v H), H.
Qed.

Lemma CellType_eqb_eq (a b : CellType.t) : CellType.eqb a b = true <-> a = b.
Proof. destruct a, b; simpl; split; (reflexivity || discriminate). Qed.

(** What [evaluateFormula] answers on a formula: the text of the value the
    compiled expression returns, or ["#ERROR"] when compiling, running or
    printing raises. *)
Lemma evaluateFormula_cases (formula : string) (cs : Cells) :
  Js.startsWith "=" formula = true ->
  (exists result text,
      js_Function_call (function_body (substituted formula cs)) = Normal result
      /\ js_toString result = Normal text
      /\ evaluateFormula formula cs = text)
  \/ (((exists e, js_Function_call (function_body (substituted formula cs)) = Throw e)
       \/ (exists result e,
             js_Function_call (function_body (substituted formula cs)) = Normal result
             /\ js_toString result = Throw e))
      /\ evaluateFormula formula cs = "#ERROR").
Proof.
  intros H. unfold evaluateFormula. rewrite H. simpl.
  destruct (js_Function_call _) as [result|e] eqn:Hcall; simpl.
  - destruct (js_toString result) as [text|e] eqn:Htext; simpl.
    + left. eauto.
    + right. split; [right; eauto | reflexivity].
  - right. split; [left; eauto | reflexivity].
Qed.

(** Two callbacks that agree on the references of [s] give the same
    replacement. *)
Lemma replace_cellRefs_from_ext (f g : string -> string) (s : string) (skip : nat) :
  (forall m, m ∈ Regex.cellRefs_from skip s -> f m = g m) ->
  Regex.replace_cellRefs_from f skip s = Regex.replace_cellRefs_from g skip s.
Proof.
  revert skip. induction s as [|c s IH]; intros skip H; [reflexivity |].
  simpl in *. destruct skip as [|k]; [| now apply IH].
  destruct (Regex.cellRef_at (String c s)) as [m|].
  - rewrite (H m) by apply list_elem_of_here.
    f_equal. apply IH. intros m' Hm'. apply H. now apply list_elem_of_further.
  - f_equal. now apply IH.
Qed.

(** A formula that does not refer to [k] evaluates alike before and after
    a change of the cell at [k]. *)
Lemma evaluateFormula_insert (formula k : string) (cell : Cell.t) (cs : Cells) :
  k ∉ Regex.cellRefs (Js.substring1 formula) ->
  evaluateFormula formula (<[k := cell]> cs) = evaluateFormula formula cs.
Proof.
  intros Hk. unfold evaluateFormula, substituted, Regex.replace_cellRefs.
  rewrite (replace_cellRefs_from_ext (cellRef_value (<[k := cell]> cs)) (cellRef_value cs));
    [reflexivity |].
  intros m Hm. unfold cellRef_value.
  rewrite lookup_insert_ne; [reflexivity |].
  intros ->. now apply Hk.
Qed.

(** Two calls made from one rendering capture the same collection; the
    second then stores the record the first stored. *)
Lemma handleCellValueChange_same_render (cs : Cells) (r c : Z) (v : string)
    (st : App.State) :
  App.cells (handleCellValueChange cs r c v (handleCellValueChange cs r c v st))
  = App.cells (handleCellValueChange cs r c v st).
Proof. unfold handleCellValueChange. simpl. apply insert_insert_eq. Qed.

End Store.

(** C8.  [setCellValue cs r c v] changes the entry at the address of
    [(r, c)] and nothing else: at every other address the collection holds
    what it held, so a formula cell that refers to [(r, c)] keeps the value
    computed when it was committed. *)
Theorem setCellValue_frame `{rt : JsRuntime} (cs : Cells) (r c : Z) (v k : string)
    (Hk : k <> getCellId r c) :
  setCellValue cs r c v !! k = cs !! k
  /\ (forall cell formula,
        cs !! k = Some cell -> Cell.formula cell = Some formula ->
        getCellId r c ∈ Regex.cellRefs (Js.substring1 formula) ->
        setCellValue cs r c v !! k = Some cell).
Proof.
  assert (H : setCellValue cs r c v !! k = cs !! k).
  { rewrite setCellValue_unfold. apply lookup_insert_ne. congruence. }
  split; [exact H |]. intros cell formula Hcell _ _. now rewrite H.
Qed.

(** C2.  The record the store update puts at the address of [(r, c)]: its
    [id] is the address of its own [row] and [col], which are [r] and [c];
    its type is [formula] exactly when it has a [formula], which is then the
    input, beginning with [=], while [value] is the text of the evaluated
    result or ["#ERROR"]; otherwise [value] is the input and there is no
    [formula], whatever record was there before.  So every collection built
    from the empty one by store updates holds well-formed records only. *)
Theorem setCellValue_record `{rt : JsRuntime} (cs : Cells) (r c : Z) (v : string) :
  exists cell,
    setCellValue cs r c v !! getCellId r c = Some cell
    /\ Cell.row cell = r /\ Cell.col cell = c
    /\ Cell.id cell = getCellId (Cell.row cell) (Cell.col cell)
    /\ (Cell.type cell = CellType.formula <-> Cell.formula cell <> None)
    /\ (Cell.type cell = CellType.formula ->
        Cell.formula cell = Some v /\ Js.startsWith "=" v = true
        /\ Cell.value cell = evaluateFormula v cs
        /\ ((exists result,
               js_Function_call (function_body (substituted v cs)) = Normal result
               /\ js_toString result = Normal (Cell.value cell))
            \/ Cell.value cell = "#ERROR"))
    /\ (Cell.type cell <> CellType.formula ->
        Cell.formula cell = None /\ Cell.value cell = v)
    /\ (forall formula0,
          detectCellType v <> CellType.formula ->
          exists cell',
            setCellValue (setCellValue cs r c formula0) r c v !! getCellId r c
            = Some cell'
            /\ Cell.formula cell' = None /\ Cell.value cell' = v)
    /\ store_wf ∅
    /\ (store_wf cs -> store_wf (setCellValue cs r c v)).
Proof.
  assert (Hplain : forall cs0, detectCellType v <> CellType.formula ->
            Cell.formula (newCell cs0 r c v) = None
            /\ Cell.value (newCell cs0 r c v) = v).
  { intros cs0 Ht. unfold newCell. simpl.
    destruct (CellType.eqb (detectCellType v) CellType.formula) eqn:E;
      [apply CellType_eqb_eq in E; contradiction | split; reflexivity]. }
  assert (Hiff : Cell.type (newCell cs r c v) = CellType.formula
                 <-> Cell.formula (newCell cs r c v) <> None).
  { unfold newCell. simpl. split.
    - intros ->. discriminate.
    - destruct (CellType.eqb (detectCellType v) CellType.formula) eqn:E;
        [intros _; now apply CellType_eqb_eq | intros H; now contradiction H]. }
  assert (Hform : Cell.type (newCell cs r c v) = CellType.formula ->
                  Cell.formula (newCell cs r c v) = Some v
                  /\ Js.startsWith "=" v = true
                  /\ Cell.value (newCell cs r c v) = evaluateFormula v cs).
  { unfold newCell. simpl. intros H. rewrite H. simpl.
    repeat split. now apply detectCellType_formula. }
  exists (newCell cs r c v). rewrite setCellValue_unfold, lookup_insert_eq.
  split; [reflexivity |]. split; [reflexivity |]. split; [reflexivity |].
  split; [reflexivity |]. split; [exact Hiff |].
  split; [| split; [| split; [| split]]].
  - intros Ht. destruct (Hform Ht) as (Hf & Hs & Hv).
    repeat split; auto. rewrite Hv.
    destruct (evaluateFormula_cases v cs Hs)
      as [(result & text & Hc & Htx & ->) | [_ ->]]; [left; eauto | now right].
  - now apply Hplain.
  - intros formula0 Ht. exists (newCell (setCellValue cs r c formula0) r c v).
    rewrite setCellValue_unfold, lookup_insert_eq.
    split; [reflexivity | now apply Hplain].
  - intros k cell H. rewrite lookup_empty in H. discriminate.
  - intros Hwf k cell.
    destruct (decide (getCellId r c = k)) as [<- | Hne].
    + rewrite lookup_insert_eq. intros H; inversion H; subst.
      repeat split; try reflexivity; try apply Hiff.
      intros f Hf.
      assert (Ht : Cell.type (newCell cs r c v) = CellType.formula)
        by (apply Hiff; rewrite Hf; discriminate).
      destruct (Hform Ht) as (Hf' & Hs & _).
      rewrite Hf in Hf'. now inversion Hf'; subst.
    + rewrite lookup_insert_ne by exact Hne. apply Hwf.
Qed.

(** C1, as the code has it.  Applying [setCellValue r c v] twice gives the
    collection that applying it once gives when [v] is not a formula, or is
    a formula none of whose references is the address of [(r, c)] (the
    value of an expression depending on its text alone). *)
Theorem setCellValue_idempotent `{rt : JsRuntime} (cs : Cells) (r c : Z) (v : string)
    (Hv : detectCellType v <> CellType.formula
          \/ getCellId r c ∉ Regex.cellRefs (Js.substring1 v)) :
  setCellValue (setCellValue cs r c v) r c v = setCellValue cs r c v.
Proof.
  rewrite !setCellValue_unfold, insert_insert_eq. f_equal.
  unfold newCell.
  destruct (CellType.eqb (detectCellType v) CellType.formula) eqn:E; [| reflexivity].
  destruct Hv as [Hv | Hv]; [apply CellType_eqb_eq in E; contradiction |].
  now rewrite evaluateFormula_insert.
Qed.

(** ** The reference runtime conforms *)

Section Reference.

Lemma forallb_impl (p q : ascii -> bool) (s : string) :
  (forall c, p c = true -> q c = true) ->
  Js.forallb p s = true -> Js.forallb q s = true.
Proof.
  intros Hpq. induction s as [|c s IH]; simpl; [reflexivity |].
  intros H. apply andb_prop in H as [Hc Hs]. now rewrite (Hpq c Hc), IH.
Qed.

Lemma isDigit_plain (c : ascii) : Js.isDigit c = true -> Ref.plain_char c = true.
Proof.
  intros H. unfold Ref.plain_char. rewrite H.
  now destruct (Js.isUpper c), (Js.isLower c).
Qed.

Lemma integerToString_plain (z : Z) :
  Js.forallb Ref.plain_char (Js.integerToString z) = true.
Proof.
  unfold Js.integerToString.
  destruct (z <? 0) eqn:Hz.
  - destruct (toDecimal_spec (- z) "") as (ds & -> & Hds & _); [lia |].
    rewrite app_nil_r. simpl. apply (forallb_impl _ _ _ isDigit_plain Hds).
  - destruct (toDecimal_spec z "") as (ds & -> & Hds & _); [lia |].
    rewrite app_nil_r. apply (forallb_impl _ _ _ isDigit_plain Hds).
Qed.

Lemma numberToString_opt_plain (n : float) (s : string) :
  Ref.numberToString_opt n = Some s -> Js.forallb Ref.plain_char s = true.
Proof.
  unfold Ref.numberToString_opt.
  destruct (Prim2SF n) as [sg|sg| |sg m e].
  - intros H; inversion H; reflexivity.
  - intros H; inversion H; now destruct sg.
  - intros H; inversion H; reflexivity.
  - destruct (Ref.integer_value m e) as [z|]; simpl; [| discriminate].
    destruct (z <=? Ref.two53); [| discriminate].
    intros H; inversion H. apply integerToString_plain.
Qed.

Lemma Ref_runtime_conforms : Conforms Ref.runtime.
Proof.
  constructor; simpl.
  - now intros s n ->.
  - now intros s n ->.
  - now intros n s ->.
  - now intros body v ->.
  - intros body e ->. simpl. eauto.
  - reflexivity.
  - now intros s d ->.
  - intros n. destruct (Ref.numberToString_opt n) as [s|] eqn:Hs; simpl.
    + now apply (numberToString_opt_plain n).
    + reflexivity.
Qed.

End Reference.

(** C8 at work: B1 holds [=A1+1], computed as ["2"] when A1 held ["1"];
    writing ["5"] to A1 leaves B1 as it was. *)
Lemma setCellValue_frame_witness :
  let cs : Cells :=
    <["B1" := formulaCell "B1" 0 1 "=A1+1" "2"]>
      (<["A1" := plainCell "A1" 0 0 "1" CellType.number]> ∅) in
  setCellValue (rt := Ref.runtime) cs 0 0 "5" !! "B1"
  = Some (formulaCell "B1" 0 1 "=A1+1" "2").
Proof.
  intros cs.
  assert (Hk : "B1" <> getCellId 0 0) by (vm_compute; discriminate).
  apply (proj2 (setCellValue_frame (rt := Ref.runtime) cs 0 0 "5" "B1" Hk)
           (formulaCell "B1" 0 1 "=A1+1" "2") "=A1+1");
    [vm_compute; reflexivity | reflexivity |].
  vm_compute. apply list_elem_of_here.
Defined.

(** C1 fails on a formula that refers to its own cell: on the empty
    collection, [=A1+1] committed to A1 gives the value ["1"]; committed a
    second time it is evaluated against that, and gives ["2"]. *)
Lemma setCellValue_twice_differs :
  let once := setCellValue (rt := Ref.runtime) ∅ 0 0 "=A1+1" in
  let twice := setCellValue (rt := Ref.runtime) once 0 0 "=A1+1" in
  once !! "A1" = Some (formulaCell "A1" 0 0 "=A1+1" "1")
  /\ twice !! "A1" = Some (formulaCell "A1" 0 0 "=A1+1" "2")
  /\ twice <> once.
Proof.
  assert (H1 : setCellValue (rt := Ref.runtime) ∅ 0 0 "=A1+1" !! "A1"
               = Some (formulaCell "A1" 0 0 "=A1+1" "1")) by (vm_compute; reflexivity).
  assert (H2 : setCellValue (rt := Ref.runtime)
                 (setCellValue (rt := Ref.runtime) ∅ 0 0 "=A1+1") 0 0 "=A1+1" !! "A1"
               = Some (formulaCell "A1" 0 0 "=A1+1" "2")) by (vm_compute; reflexivity).
  cbv zeta. split; [exact H1 | split; [exact H2 |]].
  intros Heq.
  pose proof (f_equal (fun m : Cells => m !! "A1") Heq) as H3. cbv beta in H3.
  pose proof (eq_trans (eq_sym H2) (eq_trans H3 H1)) as H4.
  apply (f_equal (fmap Cell.value)) in H4. vm_compute in H4. discriminate H4.
Qed.

(** The runtime calls of that counterexample lie in the fragment the
    reference covers. *)
Example setCellValue_twice_in_fragment :
  Ref.Function_call_opt (function_body "0+1") = Some (Normal 1%float)
  /\ Ref.numberToString_opt 1%float = Some "1"
  /\ Ref.parseFloat_opt "1" = Some 1%float
  /\ Ref.Function_call_opt (function_body "1+1") = Some (Normal 2%float)
  /\ Ref.numberToString_opt 2%float = Some "2".
Proof. repeat split; vm_compute; reflexivity. Qed.

(** C1 on a formula that refers to another cell. *)
Lemma setCellValue_idempotent_witness :
  setCellValue (rt := Ref.runtime) (setCellValue (rt := Ref.runtime) ∅ 0 0 "=B1+1") 0 0 "=B1+1"
  = setCellValue (rt := Ref.runtime) ∅ 0 0 "=B1+1".
Proof.
  apply (setCellValue_idempotent (rt := Ref.runtime) ∅ 0 0 "=B1+1").
  right. vm_compute. intros H. inversion H; subst.
  match goal with H' : _ ∈ [] |- _ => inversion H' end.
Defined.

(** ** Substitution of references *)

Section Scan.

Lemma length_app (a b : string) :
  String.length (a ++ b) = (String.length a + String.length b)%nat.
Proof.
  induction a as [|c a IH]; [reflexivity |]. rewrite app_cons. simpl. now rewrite IH.
Qed.

(** [span] on a string that begins with characters of the class. *)
Lemma span_app_class p (a b : string) :
  Js.forallb p a = true ->
  Js.span p (a ++ b) = (a ++ fst (Js.span p b), snd (Js.span p b)).
Proof.
  induction a as [|x a IH]; intros Ha.
  - rewrite !app_nil_l. now destruct (Js.span p b).
  - simpl in Ha. apply andb_prop in Ha as [Hx Ha].
    rewrite !app_cons. simpl. rewrite Hx, (IH Ha). reflexivity.
Qed.

Lemma cellRef_at_inv (s m : string) :
  Regex.cellRef_at s = Some m ->
  exists letters digits rest,
    s = letters ++ digits ++ rest /\ m = letters ++ digits
    /\ letters <> "" /\ Js.forallb Js.isUpper letters = true
    /\ digits <> "" /\ Js.forallb Js.isDigit digits = true
    /\ no_digit_ahead rest.
Proof.
  unfold Regex.cellRef_at.
  destruct (Js.span Js.isUpper s) as [l r] eqn:Hl.
  destruct (Js.span Js.isDigit r) as [d t] eqn:Hd.
  destruct (Js.isEmpty l) eqn:El; [discriminate |].
  destruct (Js.isEmpty d) eqn:Ed; [discriminate |].
  simpl. intros H; inversion H; subst.
  apply span_spec in Hl as (-> & Hup & _).
  apply span_spec in Hd as (-> & Hdig & Hrest).
  apply isEmpty_false in El, Ed.
  exists l, d, t. repeat split; auto.
Qed.

Lemma cellRef_at_None (s : string) :
  Regex.cellRef_at s = None -> ~ StartsWithRef s.
Proof.
  intros Hnone (l & d & t & -> & Hl & Hup & Hd & Hdig).
  unfold Regex.cellRef_at in Hnone.
  rewrite (span_app Js.isUpper l (d ++ t) Hup) in Hnone.
  - rewrite (span_app_class Js.isDigit d t Hdig) in Hnone.
    apply isEmpty_false in Hl. rewrite Hl in Hnone. simpl in Hnone.
    destruct d as [|x d]; [now contradiction Hd |].
    rewrite app_cons in Hnone. discriminate.
  - destruct d as [|x d]; [now contradiction Hd |].
    rewrite app_cons. simpl in Hdig. apply andb_prop in Hdig as [Hx _].
    now apply isUpper_not_isDigit.
Qed.

Lemma replace_cellRefs_from_skip f (a b : string) :
  Regex.replace_cellRefs_from f (String.length a) (a ++ b)
  = Regex.replace_cellRefs_from f O b.
Proof.
  induction a as [|c a IH]; [reflexivity |]. rewrite app_cons. simpl. exact IH.
Qed.

(** Where a reference starts, the scan puts its replacement and goes on
    after it. *)
Lemma replace_cellRefs_at_ref f (s m : string) :
  Regex.cellRef_at s = Some m ->
  exists rest,
    s = m ++ rest
    /\ Regex.replace_cellRefs_from f O s = f m ++ Regex.replace_cellRefs_from f O rest.
Proof.
  intros Hm.
  destruct (cellRef_at_inv s m Hm) as (l & d & t & Hs & -> & Hl & _).
  exists t. split; [now rewrite <- app_assoc |].
  destruct s as [|c s].
  - symmetry in Hs. apply app_eq_nil in Hs as [-> _]. now contradiction Hl.
  - simpl. rewrite Hm. f_equal.
    destruct l as [|x l]; [now contradiction Hl |].
    rewrite !app_cons in Hs. inversion Hs; subst.
    rewrite app_cons. simpl. rewrite app_assoc. apply replace_cellRefs_from_skip.
Qed.

(** The scan of the program is the substitution of the specification. *)
Lemma replace_cellRefs_Substitution f (s : string) :
  Substitution f s (Regex.replace_cellRefs f s).
Proof.
  unfold Regex.replace_cellRefs.
  remember (String.length s) as n eqn:Hn.
  assert (Hle : (String.length s <= n)%nat) by lia. clear Hn.
  revert s Hle. induction n as [|n IH]; intros s Hle.
  - destruct s; [constructor | simpl in Hle; lia].
  - destruct s as [|c s]; [constructor |].
    destruct (Regex.cellRef_at (String c s)) as [m|] eqn:Hm.
    + destruct (replace_cellRefs_at_ref f _ m Hm) as (rest & Hs & ->).
      destruct (cellRef_at_inv _ m Hm) as (l & d & t & Hs' & -> & Hl & Hup & Hd & Hdig & Ht).
      assert (rest = t) as ->.
      { rewrite Hs', app_assoc in Hs. now apply String.app_inj in Hs. }
      rewrite Hs'. apply subst_ref; auto.
      apply IH. apply (f_equal String.length) in Hs'.
      rewrite !length_app in Hs'. simpl in Hs', Hle.
      destruct l; [now contradiction Hl | simpl in Hs'; lia].
    + simpl. rewrite Hm. apply subst_copy.
      * now apply cellRef_at_None.
      * apply IH. simpl in Hle. lia.
Qed.

Lemma cellRef_at_complete (letters digits rest : string) :
  letters <> "" -> Js.forallb Js.isUpper letters = true ->
  digits <> "" -> Js.forallb Js.isDigit digits = true ->
  no_digit_ahead rest ->
  Regex.cellRef_at (letters ++ digits ++ rest) = Some (letters ++ digits).
Proof.
  intros Hl Hup Hd Hdig Hrest. unfold Regex.cellRef_at.
  rewrite (span_app Js.isUpper letters (digits ++ rest) Hup).
  - rewrite (span_app Js.isDigit digits rest Hdig).
    + apply isEmpty_false in Hl, Hd. now rewrite Hl, Hd.
    + destruct rest; [exact I | exact Hrest].
  - destruct digits as [|x d]; [now contradiction Hd |].
    rewrite app_cons. simpl in Hdig. apply andb_prop in Hdig as [Hx _].
    now apply isUpper_not_isDigit.
Qed.

(** The substitution of the specification has one result: that of the
    scan. *)
Lemma Substitution_unique f (s out : string) :
  Substitution f s out -> out = Regex.replace_cellRefs f s.
Proof.
  unfold Regex.replace_cellRefs.
  induction 1 as [| l d rest out Hl Hup Hd Hdig Hrest _ IH | c rest out Hno _ IH].
  - reflexivity.
  - pose proof (cellRef_at_complete l d rest Hl Hup Hd Hdig Hrest) as Hm.
    destruct (replace_cellRefs_at_ref f _ _ Hm) as (rest' & Hs & ->).
    rewrite app_assoc in Hs. apply String.app_inj in Hs as <-.
    now rewrite IH.
  - simpl. destruct (Regex.cellRef_at (String c rest)) as [m|] eqn:Hm.
    + contradiction Hno.
      destruct (cellRef_at_inv _ m Hm) as (l & d & t & Hs & _ & Hl & Hup & Hd & Hdig & _).
      exists l, d, t. auto.
    + now rewrite IH.
Qed.

End Scan.

(** ** Evaluation *)

Section Evaluation.
Context `{rt : JsRuntime}.

Lemma evaluateFormula_formula (formula : string) (cs : Cells) :
  Js.startsWith "=" formula = true ->
  evaluateFormula formula cs
  = try_catch
      (result ← js_Function_call (function_body (substituted formula cs));
       js_toString result)
      "#ERROR".
Proof. intros H. unfold evaluateFormula. now rewrite H. Qed.

Lemma cellRef_value_absent (cs : Cells) (m : string) :
  cs !! m = None -> cellRef_value cs m = "0".
Proof. intros H. unfold cellRef_value. now rewrite H. Qed.

Context (Hrt : Conforms rt).

(** A body the reference evaluates to a number it can print. *)
Lemma call_returns (body : string) (v : float) (text : string) :
  Ref.Function_call_opt body = Some (Normal v) ->
  Ref.numberToString_opt v = Some text ->
  try_catch (result ← js_Function_call body; js_toString result) "#ERROR" = text.
Proof.
  intros Hv Ht.
  rewrite (conforms_call_value rt Hrt body v Hv). simpl.
  rewrite (conforms_toString rt Hrt v), (conforms_numberToString rt Hrt v text Ht).
  reflexivity.
Qed.

(** A body the reference finds to raise. *)
Lemma call_raises (body e : string) :
  Ref.Function_call_opt body = Some (Throw e) ->
  try_catch (result ← js_Function_call body; js_toString result) "#ERROR" = "#ERROR".
Proof.
  intros He. destruct (conforms_call_raises rt Hrt body e He) as (e' & ->).
  reflexivity.
Qed.

(** The text that stands for a reference to a cell holding a number the
    reference reads and prints. *)
Lemma cellRef_value_number (cs : Cells) (m : string) (cell : Cell.t)
    (n : float) (text : string) :
  cs !! m = Some cell ->
  Js.isEmpty (Cell.value cell) = false ->
  Ref.parseFloat_opt (Cell.value cell) = Some n ->
  isNaN n = false ->
  Ref.numberToString_opt n = Some text ->
  cellRef_value cs m = text.
Proof.
  intros Hm He Hn Hnan Ht. unfold cellRef_value. rewrite Hm, He.
  rewrite (conforms_parseFloat rt Hrt _ n Hn), Hnan.
  apply (conforms_numberToString rt Hrt n text Ht).
Qed.

End Evaluation.

(** C4.  An input that does not start with [=] is returned as it is.
    Otherwise the text after [=] is scanned, every reference (capitals
    followed by digits) is replaced by the text of the number [parseFloat]
    reads in the value of the cell referred to, or by [0] when the cell is
    absent, its value is empty or what is read is NaN, and the result of
    evaluating the expression so obtained is returned.  With A1 holding
    ["3"] and nothing else, [=A1+Z99] evaluates to ["3"]. *)
Theorem evaluateFormula_substitution `{rt : JsRuntime} (Hrt : Conforms rt)
    (formula : string) (cs : Cells) :
  (Js.startsWith "=" formula = false -> evaluateFormula formula cs = formula)
  /\ (Js.startsWith "=" formula = true ->
      exists expression,
        Substitution (cellRef_value cs) (Js.substring1 formula) expression
        /\ (forall other,
              Substitution (cellRef_value cs) (Js.substring1 formula) other ->
              other = expression)
        /\ evaluateFormula formula cs
           = try_catch
               (result ← js_Function_call (function_body expression);
                js_toString result)
               "#ERROR")
  /\ (forall address,
        cs !! address = None -> cellRef_value cs address = "0")
  /\ (forall address cell,
        cs !! address = Some cell ->
        cellRef_value cs address
        = if Js.isEmpty (Cell.value cell) then "0"
          else if isNaN (js_parseFloat (Cell.value cell)) then "0"
          else js_numberToString (js_parseFloat (Cell.value cell)))
  /\ evaluateFormula "=A1+Z99" {["A1" := plainCell "A1" 0 0 "3" CellType.number]} = "3".
Proof.
  split; [| split; [| split; [| split]]].
  - intros H. unfold evaluateFormula. now rewrite H.
  - intros H. exists (substituted formula cs). split; [| split].
    + apply replace_cellRefs_Substitution.
    + intros other Ho. now apply Substitution_unique.
    + now apply evaluateFormula_formula.
  - apply cellRef_value_absent.
  - intros address cell H. unfold cellRef_value. now rewrite H.
  - rewrite evaluateFormula_formula by reflexivity.
    set (cs1 := {["A1" := plainCell "A1" 0 0 "3" CellType.number]} : Cells).
    assert (Hs : substituted "=A1+Z99" cs1
                 = cellRef_value cs1 "A1" ++ "+" ++ cellRef_value cs1 "Z99" ++ "")
      by reflexivity.
    rewrite Hs.
    rewrite (cellRef_value_number Hrt cs1 "A1" (plainCell "A1" 0 0 "3" CellType.number)
               3%float "3") by (vm_compute; reflexivity).
    rewrite (cellRef_value_absent cs1 "Z99") by (vm_compute; reflexivity).
    apply (call_returns Hrt _ 3%float "3"); vm_compute; reflexivity.
Qed.

(** C4 on the reference runtime. *)
Lemma evaluateFormula_substitution_witness :
  evaluateFormula (rt := Ref.runtime) "=A1+Z99"
    {["A1" := plainCell "A1" 0 0 "3" CellType.number]} = "3".
Proof.
  exact (proj2 (proj2 (proj2 (proj2
    (evaluateFormula_substitution (rt := Ref.runtime) Ref_runtime_conforms "=A1+Z99"
       {["A1" := plainCell "A1" 0 0 "3" CellType.number]}))))).
Defined.

(** C3.  On a formula, [evaluateFormula] returns the text of the value the
    expression evaluates to, whatever that value (so [1/0] gives
    ["Infinity"]), or exactly ["#ERROR"] when compiling, evaluating or
    printing raises; it raises nothing itself, so the store update that
    calls it completes.  On the empty collection [=A1+(] gives ["#ERROR"]. *)
Theorem evaluateFormula_error `{rt : JsRuntime} (Hrt : Conforms rt)
    (formula : string) (cs : Cells) (Hf : Js.startsWith "=" formula = true) :
  ((exists result text,
       js_Function_call (function_body (substituted formula cs)) = Normal result
       /\ js_toString result = Normal text
       /\ evaluateFormula formula cs = text)
   \/ (((exists e, js_Function_call (function_body (substituted formula cs)) = Throw e)
        \/ (exists result e,
              js_Function_call (function_body (substituted formula cs)) = Normal result
              /\ js_toString result = Throw e))
       /\ evaluateFormula formula cs = "#ERROR"))
  /\ (forall r c,
        setCellValue cs r c formula !! getCellId r c
        = Some (formulaCell (getCellId r c) r c formula (evaluateFormula formula cs)))
  /\ evaluateFormula "=A1+(" ∅ = "#ERROR"
  /\ evaluateFormula "=1/0" ∅ = "Infinity"
  /\ evaluateFormula "=0/0" ∅ = "NaN".
Proof.
  split; [| split; [| split; [| split]]].
  - now apply evaluateFormula_cases.
  - intros r c. rewrite setCellValue_unfold, lookup_insert_eq. f_equal.
    unfold newCell, formulaCell.
    apply detectCellType_formula in Hf. now rewrite Hf.
  - rewrite evaluateFormula_formula by reflexivity.
    assert (Hs : substituted "=A1+(" ∅ = cellRef_value ∅ "A1" ++ "+(") by reflexivity.
    rewrite Hs, (cellRef_value_absent ∅ "A1") by (vm_compute; reflexivity).
    apply (call_raises Hrt _ "SyntaxError or TypeError"). vm_compute. reflexivity.
  - rewrite evaluateFormula_formula by reflexivity.
    assert (Hs : substituted "=1/0" ∅ = "1/0") by reflexivity.
    rewrite Hs.
    apply (call_returns Hrt _ infinity "Infinity"); vm_compute; reflexivity.
  - rewrite evaluateFormula_formula by reflexivity.
    assert (Hs : substituted "=0/0" ∅ = "0/0") by reflexivity.
    rewrite Hs.
    apply (call_returns Hrt _ nan "NaN"); vm_compute; reflexivity.
Qed.

(** C3 on the reference runtime. *)
Lemma evaluateFormula_error_witness :
  evaluateFormula (rt := Ref.runtime) "=A1+(" ∅ = "#ERROR"
  /\ evaluateFormula (rt := Ref.runtime) "=1/0" ∅ = "Infinity"
  /\ evaluateFormula (rt := Ref.runtime) "=0/0" ∅ = "NaN".
Proof.
  assert (Hf : Js.startsWith "=" "=A1+(" = true) by reflexivity.
  exact (proj2 (proj2
    (evaluateFormula_error (rt := Ref.runtime) Ref_runtime_conforms "=A1+(" ∅ Hf))).
Defined.

(** ** Formulas with a colon *)

Section Colon.

Lemma leading_app p (a b : string) :
  Js.forallb p a = true -> leading p (String.length a) (a ++ b) = true.
Proof.
  induction a as [|c a IH]; intros Ha; [reflexivity |].
  simpl in Ha. apply andb_prop in Ha as [Hc Ha].
  rewrite app_cons. simpl. now rewrite Hc, IH.
Qed.

Lemma ref_char_not_colon (c : ascii) : ref_char c = true -> Ref.is_colon c = false.
Proof.
  unfold ref_char, Ref.is_colon, Js.isUpper, Js.isDigit, Js.char_in.
  intros H. apply Ascii.eqb_neq. intros ->. vm_compute in H. discriminate.
Qed.

Lemma cellRef_at_leading (s m : string) :
  Regex.cellRef_at s = Some m -> leading ref_char (String.length m) s = true.
Proof.
  intros Hm.
  destruct (cellRef_at_inv s m Hm) as (l & d & t & -> & -> & _ & Hup & _ & Hdig & _).
  rewrite app_assoc. apply leading_app. rewrite forallb_app.
  apply andb_true_intro. split.
  - apply (forallb_impl Js.isUpper); [| exact Hup].
    intros c Hc. unfold ref_char. now rewrite Hc.
  - apply (forallb_impl Js.isDigit); [| exact Hdig].
    intros c Hc. unfold ref_char. rewrite Hc. now destruct (Js.isUpper c).
Qed.

(** A colon is in no reference, so the scan keeps it. *)
Lemma replace_keeps_colon f (s : string) (k : nat) :
  leading ref_char k s = true ->
  Js.existsb Ref.is_colon s = true ->
  Js.existsb Ref.is_colon (Regex.replace_cellRefs_from f k s) = true.
Proof.
  revert k. induction s as [|c s IH]; intros k Hk Hs; [discriminate |].
  simpl in Hs. destruct k as [|k]; simpl.
  - destruct (Regex.cellRef_at (String c s)) as [m|] eqn:Hm.
    + rewrite existsb_app. apply orb_true_intro. right.
      pose proof (cellRef_at_leading _ m Hm) as Hlead.
      destruct m as [|x m].
      { destruct (cellRef_at_inv _ _ Hm) as (l & d & t & _ & Hm' & Hl & _).
        symmetry in Hm'. apply app_eq_nil in Hm' as [-> _]. now contradiction Hl. }
      simpl in Hlead. apply andb_prop in Hlead as [Hc Hlead].
      rewrite (ref_char_not_colon c Hc) in Hs. simpl in Hs.
      now apply IH.
    + simpl. destruct (Ref.is_colon c); [reflexivity |]. simpl in *. now apply IH.
  - simpl in Hk. apply andb_prop in Hk as [Hc Hk].
    rewrite (ref_char_not_colon c Hc) in Hs. simpl in Hs. now apply IH.
Qed.

(** Plain characters stay plain when the replacements are. *)
Lemma replace_keeps_plain f (s : string) (k : nat) :
  (forall m, Js.forallb Ref.plain_char (f m) = true) ->
  Js.forallb Ref.plain_char s = true ->
  Js.forallb Ref.plain_char (Regex.replace_cellRefs_from f k s) = true.
Proof.
  intros Hf. revert k. induction s as [|c s IH]; intros k Hs; [reflexivity |].
  simpl in Hs. apply andb_prop in Hs as [Hc Hs]. destruct k as [|k]; simpl.
  - destruct (Regex.cellRef_at (String c s)) as [m|].
    + rewrite forallb_app, Hf. now apply IH.
    + simpl. rewrite Hc. now apply IH.
  - now apply IH.
Qed.

Lemma Function_call_opt_colon (e : string) :
  Js.forallb Ref.plain_char e = true ->
  Js.existsb Ref.is_colon e = true ->
  Ref.Function_call_opt (function_body e) = Some (Throw "SyntaxError").
Proof.
  intros Hp Hc. unfold Ref.Function_call_opt.
  change (Ref.strip_prefix _ (function_body e)) with (Some (String "(" (e ++ ")"))).
  simpl. rewrite forallb_app, existsb_app, Hp, Hc. reflexivity.
Qed.

Lemma cellRef_value_plain `{rt : JsRuntime} (Hrt : Conforms rt) (cs : Cells) (m : string) :
  Js.forallb Ref.plain_char (cellRef_value cs m) = true.
Proof.
  unfold cellRef_value.
  destruct (cs !! m) as [cell|]; [| reflexivity].
  destruct (Js.isEmpty (Cell.value cell)); [reflexivity |].
  destruct (isNaN _); [reflexivity |].
  apply (conforms_number_text rt Hrt).
Qed.

End Colon.

(** C10.  A formula with a colon in it, all of whose characters are plain
    (letters, digits, spaces and [+ - * . ( ) : ,]) evaluates to ["#ERROR"]
    whatever the cells hold: the references are replaced by numbers, the
    name and the colon stay, and what is left does not compile.  So it is
    for a function applied to a range, and for [=SUM(A1:A10)], the formula
    the assistant falls back on: committing such a formula, or applying the
    fallback to the selected cell, stores ["#ERROR"]. *)
Theorem evaluateFormula_range `{rt : JsRuntime} (Hrt : Conforms rt) (cs : Cells)
    (e : string)
    (Hplain : Js.forallb Ref.plain_char e = true)
    (Hcolon : Js.existsb Ref.is_colon e = true) :
  evaluateFormula (String "=" e) cs = "#ERROR"
  /\ (forall name from to,
        Js.forallb (fun c => Js.isUpper c || Js.isLower c) name = true ->
        Js.forallb ref_char from = true -> Js.forallb ref_char to = true ->
        evaluateFormula ("=" ++ name ++ "(" ++ from ++ ":" ++ to ++ ")") cs = "#ERROR")
  /\ evaluateFormula "=SUM(A1:A10)" cs = "#ERROR"
  /\ (forall r c,
        setCellValue cs r c (String "=" e) !! getCellId r c
        = Some (formulaCell (getCellId r c) r c (String "=" e) "#ERROR"))
  /\ (forall selected toasts,
        App.cells
          (handleFormulaGenerated cs (Some selected) fallbackResult
             {| App.cells := cs; App.toasts := toasts |})
        !! getCellId (CellPos.row selected) (CellPos.col selected)
        = Some (formulaCell (getCellId (CellPos.row selected) (CellPos.col selected))
                  (CellPos.row selected) (CellPos.col selected)
                  "=SUM(A1:A10)" "#ERROR")).
Proof.
  assert (Hgen : forall e0,
            Js.forallb Ref.plain_char e0 = true ->
            Js.existsb Ref.is_colon e0 = true ->
            evaluateFormula (String "=" e0) cs = "#ERROR").
  { intros e0 Hp Hc. rewrite evaluateFormula_formula by reflexivity.
    apply (call_raises Hrt _ "SyntaxError").
    apply Function_call_opt_colon.
    - apply replace_keeps_plain; [apply (cellRef_value_plain Hrt) | exact Hp].
    - now apply replace_keeps_colon. }
  assert (Hsum : evaluateFormula "=SUM(A1:A10)" cs = "#ERROR")
    by (apply (Hgen "SUM(A1:A10)"); reflexivity).
  assert (Hnew : forall e0 r c,
            evaluateFormula (String "=" e0) cs = "#ERROR" ->
            newCell cs r c (String "=" e0)
            = formulaCell (getCellId r c) r c (String "=" e0) "#ERROR").
  { intros e0 r c He. unfold newCell, formulaCell.
    assert (Ht : detectCellType (String "=" e0) = CellType.formula)
      by now apply detectCellType_formula.
    rewrite Ht. simpl. now rewrite He. }
  split; [now apply Hgen | split; [| split; [exact Hsum | split]]].
  - intros name from to Hn Hfrom Hto.
    assert (Hrc : forall c, ref_char c = true -> Ref.plain_char c = true).
    { intros c. unfold ref_char, Ref.plain_char.
      destruct (Js.isUpper c), (Js.isDigit c), (Js.isLower c); simpl; congruence. }
    assert (Hlc : forall c, Js.isUpper c || Js.isLower c = true -> Ref.plain_char c = true).
    { intros c. unfold Ref.plain_char.
      destruct (Js.isUpper c), (Js.isLower c); simpl; congruence. }
    rewrite app_cons, app_nil_l. apply Hgen.
    + rewrite !forallb_app.
      rewrite (forallb_impl _ _ name Hlc Hn), (forallb_impl _ _ from Hrc Hfrom),
        (forallb_impl _ _ to Hrc Hto). reflexivity.
    + rewrite !existsb_app. simpl. now rewrite !orb_true_r.
  - intros r c. rewrite setCellValue_unfold, lookup_insert_eq. f_equal.
    apply Hnew. now apply Hgen.
  - intros selected toasts. unfold handleFormulaGenerated, handleCellValueChange.
    simpl. rewrite lookup_insert_eq. f_equal. now apply (Hnew "SUM(A1:A10)").
Qed.

(** C10 on the reference runtime, A1 holding ["3"]. *)
Lemma evaluateFormula_range_witness :
  evaluateFormula (rt := Ref.runtime) "=SUM(A1:A10)"
    {["A1" := plainCell "A1" 0 0 "3" CellType.number]} = "#ERROR".
Proof.
  assert (Hp : Js.forallb Ref.plain_char "SUM(A1:A10)" = true) by reflexivity.
  assert (Hc : Js.existsb Ref.is_colon "SUM(A1:A10)" = true) by reflexivity.
  exact (proj1 (evaluateFormula_range (rt := Ref.runtime) Ref_runtime_conforms
                  {["A1" := plainCell "A1" 0 0 "3" CellType.number]}
                  "SUM(A1:A10)" Hp Hc)).
Defined.

(** ** Type detection *)

Section Detection.
Context `{rt : JsRuntime}.

Lemma isEmpty_isBlank (v : string) : Js.isEmpty v || Js.isBlank v = Js.isBlank v.
Proof. now destruct v. Qed.

(** The checks of [detectCellType] in their order, each under the failure
    of those before it. *)
Lemma detectCellType_number_iff (v : string) :
  detectCellType v = CellType.number
  <-> Js.isBlank v = false /\ Js.startsWith "=" v = false
      /\ isNaN (js_Number v) = false.
Proof.
  unfold detectCellType. rewrite isEmpty_isBlank.
  destruct (Js.isBlank v); simpl.
  - split; [discriminate | intros (H & _); discriminate].
  - destruct (Js.startsWith "=" v).
    + split; [discriminate | intros (_ & H & _); discriminate].
    + destruct (isNaN (js_Number v)); simpl.
      * split; [| intros (_ & _ & H); discriminate].
        repeat match goal with
               | |- context [if ?b then _ else _] => destruct b
               end; discriminate.
      * split; auto.
Qed.

End Detection.

(** C5 fails on the infinities: ["Infinity"] converts to a number that is
    not NaN and is typed [number], though it is not finite. *)
Lemma detectCellType_Infinity :
  Ref.Number_opt "Infinity" = Some infinity
  /\ PrimFloat.is_finite (js_Number (JsRuntime := Ref.runtime) "Infinity") = false
  /\ Js.isBlank "Infinity" = false
  /\ detectCellType (rt := Ref.runtime) "Infinity" = CellType.number.
Proof. repeat split; vm_compute; reflexivity. Qed.

(** C5, as the code has it.  An input is typed [number] exactly when it is
    not blank, does not start with [=] and [Number] of the whole input is
    not NaN, which holds of the infinities too.  Such an input is never
    typed [text]; the empty input is typed [text], never [number]. *)
Theorem detectCellType_number `{rt : JsRuntime} (Hrt : Conforms rt) (v : string) :
  (detectCellType v = CellType.number
   <-> Js.isBlank v = false /\ Js.startsWith "=" v = false
       /\ isNaN (js_Number v) = false)
  /\ (Js.isBlank v = false -> Js.startsWith "=" v = false ->
      isNaN (js_Number v) = false -> detectCellType v <> CellType.text)
  /\ detectCellType "" = CellType.text
  /\ detectCellType "42" = CellType.number
  /\ detectCellType "Infinity" = CellType.number
  /\ detectCellType "-Infinity" = CellType.number.
Proof.
  pose proof (detectCellType_number_iff v) as Hiff.
  assert (Hnum : forall s n, Ref.Number_opt s = Some n -> isNaN n = false ->
            Js.isBlank s = false -> Js.startsWith "=" s = false ->
            detectCellType s = CellType.number).
  { intros s n Hs Hn Hb He. apply detectCellType_number_iff.
    now rewrite (conforms_Number rt Hrt s n Hs). }
  split; [exact Hiff | split; [| split; [reflexivity | repeat split]]].
  - intros Hb He Hn Ht.
    assert (Hv : detectCellType v = CellType.number) by now apply Hiff.
    rewrite Hv in Ht. discriminate.
  - apply (Hnum "42" 42%float); vm_compute; reflexivity.
  - apply (Hnum "Infinity" infinity); vm_compute; reflexivity.
  - apply (Hnum "-Infinity" neg_infinity); vm_compute; reflexivity.
Qed.

(** C5 on the reference runtime. *)
Lemma detectCellType_number_witness :
  detectCellType (rt := Ref.runtime) "42" = CellType.number.
Proof.
  exact (proj1 (proj2 (proj2 (proj2
    (detectCellType_number (rt := Ref.runtime) Ref_runtime_conforms "42"))))).
Defined.

(** ** Formatting *)

(** C9, what the code does.  For a cell of type [date] with a value that is
    not empty, the formatter answers the locale's short date when the value
    is read as a date, and the text ["Invalid Date"] when it is not: the
    constructor does not raise, so the handler that would give back the
    stored value never runs.  The input ["2024-13-45"] is typed [date], and
    is shown as ["Invalid Date"]. *)
Theorem formatCellValue_date `{rt : JsRuntime} (Hrt : Conforms rt) (cell : Cell.t)
    (Htype : Cell.type cell = CellType.date) (Hvalue : Cell.value cell <> "") :
  formatCellValue cell
  = match js_Date_parse (Cell.value cell) with
    | Some t => js_formatLocaleDate t
    | None => "Invalid Date"
    end
  /\ detectCellType "2024-13-45" = CellType.date
  /\ formatCellValue (plainCell "A1" 0 0 "2024-13-45" CellType.date) = "Invalid Date".
Proof.
  assert (Hgen : forall c, Cell.type c = CellType.date -> Cell.value c <> "" ->
            formatCellValue c
            = match js_Date_parse (Cell.value c) with
              | Some t => js_formatLocaleDate t
              | None => "Invalid Date"
              end).
  { intros c Ht Hv. unfold formatCellValue. rewrite Ht.
    apply isEmpty_false in Hv. rewrite Hv. unfold new_Date. simpl.
    now destruct (js_Date_parse (Cell.value c)). }
  split; [now apply Hgen | split].
  - unfold detectCellType.
    rewrite (conforms_Number rt Hrt "2024-13-45" nan) by (vm_compute; reflexivity).
    reflexivity.
  - rewrite Hgen by (reflexivity || discriminate). simpl.
    now rewrite (conforms_Date_parse rt Hrt "2024-13-45" None) by (vm_compute; reflexivity).
Qed.

(** C9 on the reference runtime. *)
Lemma formatCellValue_date_witness :
  formatCellValue (rt := Ref.runtime) (plainCell "A1" 0 0 "2024-13-45" CellType.date)
  = "Invalid Date".
Proof.
  assert (Hv : Cell.value (plainCell "A1" 0 0 "2024-13-45" CellType.date) <> "")
    by discriminate.
  exact (proj2 (proj2
    (formatCellValue_date (rt := Ref.runtime) Ref_runtime_conforms
       (plainCell "A1" 0 0 "2024-13-45" CellType.date) eq_refl Hv))).
Defined.

(** ** The examples of the specification *)

Section Examples.
Context `{rt : JsRuntime} (Hrt : Conforms rt).

Example getCellId_B3 : getCellId 2 1 = "B3".
Proof. reflexivity. Qed.

Example parseCellId_AB12 :
  parseCellId "AB12" = Normal {| CellPos.row := 11; CellPos.col := 27 |}.
Proof. reflexivity. Qed.

Example parseCellId_lower_case : parseCellId "a1" = Throw "Invalid cell ID: a1".
Proof. reflexivity. Qed.

Example detectCellType_examples :
  detectCellType "" = CellType.text
  /\ detectCellType "42" = CellType.number
  /\ detectCellType "=A1+B1" = CellType.formula
  /\ detectCellType "2024-01-15" = CellType.date
  /\ detectCellType "TRUE" = CellType.boolean
  /\ detectCellType "hello" = CellType.text.
Proof.
  assert (Hn : forall s n, Ref.Number_opt s = Some n -> js_Number s = n)
    by apply (conforms_Number rt Hrt).
  unfold detectCellType.
  rewrite (Hn "42" 42%float), (Hn "2024-01-15" nan), (Hn "TRUE" nan), (Hn "hello" nan)
    by (vm_compute; reflexivity).
  repeat split.
Qed.

Example evaluateFormula_sum :
  evaluateFormula "=A1+B1"
    (<["B1" := plainCell "B1" 0 1 "5" CellType.number]>
       {["A1" := plainCell "A1" 0 0 "10" CellType.number]})
  = "15".
Proof.
  rewrite evaluateFormula_formula by reflexivity.
  set (cs := <["B1" := plainCell "B1" 0 1 "5" CellType.number]>
               {["A1" := plainCell "A1" 0 0 "10" CellType.number]} : Cells).
  assert (Hs : substituted "=A1+B1" cs
               = cellRef_value cs "A1" ++ "+" ++ cellRef_value cs "B1" ++ "")
    by reflexivity.
  rewrite Hs.
  rewrite (cellRef_value_number Hrt cs "A1" (plainCell "A1" 0 0 "10" CellType.number)
             10%float "10") by (vm_compute; reflexivity).
  rewrite (cellRef_value_number Hrt cs "B1" (plainCell "B1" 0 1 "5" CellType.number)
             5%float "5") by (vm_compute; reflexivity).
  apply (call_returns Hrt _ 15%float "15"); vm_compute; reflexivity.
Qed.

End Examples.

(** The reference on inputs whose results are known. *)
Example Ref_arithmetic :
  Ref.Function_call_opt (function_body "(1+2)*3-4/2") = Some (Normal 7%float)
  /\ Ref.Function_call_opt (function_body "2*-3") = Some (Normal (-6)%float)
  /\ Ref.Function_call_opt (function_body "1)+(2") = Some (Normal 3%float)
  /\ Ref.Function_call_opt (function_body "(1)(2)")
     = Some (Throw "SyntaxError or TypeError")
  /\ Ref.Function_call_opt (function_body "1 2")
     = Some (Throw "SyntaxError or TypeError")
  /\ Ref.Function_call_opt (function_body "1+/2/") = None
  /\ Ref.Function_call_opt (function_body "1.5") = None.
Proof. repeat split; vm_compute; reflexivity. Qed.

Example Ref_dates :
  Ref.Date_parse_opt "2024-01-15" = Some (Some 1705276800000)
  /\ Ref.formatLocaleDate 1705276800000 = "1/15/2024"
  /\ Ref.Date_parse_opt "1970-01-01" = Some (Some 0)
  /\ Ref.Date_parse_opt "2024-13-45" = Some None
  /\ Ref.Date_parse_opt "2024-02-30" = None.
Proof. repeat split; vm_compute; reflexivity. Qed.

(** * Further properties

    Of the code the statements above do not reach: the remaining behaviour
    of addressing, evaluation and the store, the handlers of the grid and of
    the formula bar, and what the assistant panels hand over. *)

(** ** Addresses, continued *)

Section Addresses.

Lemma getCellId_inj (r c r' c' : Z) :
  0 <= r -> 0 <= c -> 0 <= r' -> 0 <= c' ->
  getCellId r c = getCellId r' c' -> r = r' /\ c = c'.
Proof.
  intros Hr Hc Hr' Hc' Heq.
  destruct (getCellId_shape r c Hr Hc)
    as (l & d & E & Hl & Hlu & Hd & Hdd & Hcol & Hrow).
  destruct (getCellId_shape r' c' Hr' Hc')
    as (l' & d' & E' & Hl' & Hlu' & Hd' & Hdd' & Hcol' & Hrow').
  pose proof (match_cellId_app l d Hl Hlu Hd Hdd) as M.
  pose proof (match_cellId_app l' d' Hl' Hlu' Hd' Hdd') as M'.
  rewrite <- E in M. rewrite <- E' in M'. rewrite Heq in M.
  rewrite M in M'. injection M' as -> ->. lia.
Qed.


End Addresses.





(** ** What a formula reads *)

Section Reads.
Context `{rt : JsRuntime}.

Lemma cellRef_value_value_of (cs : Cells) (m : string) :
  cellRef_value cs m
  = if Js.isEmpty (value_of cs m) then "0"
    else if isNaN (js_parseFloat (value_of cs m)) then "0"
    else js_numberToString (js_parseFloat (value_of cs m)).
Proof.
  unfold cellRef_value, value_of.
  destruct (cs !! m) as [cell|]; reflexivity.
Qed.

Lemma evaluateFormula_ext (formula : string) (cs cs' : Cells) :
  (forall m, m ∈ Regex.cellRefs (Js.substring1 formula) ->
             value_of cs m = value_of cs' m) ->
  evaluateFormula formula cs = evaluateFormula formula cs'.
Proof.
  intros H. unfold evaluateFormula, substituted, Regex.replace_cellRefs.
  rewrite (replace_cellRefs_from_ext (cellRef_value cs) (cellRef_value cs')); [reflexivity|].
  intros m Hm. rewrite !cellRef_value_value_of, (H m Hm). reflexivity.
Qed.

Lemma cellRef_at_no_upper (c : ascii) (s : string) :
  Js.isUpper c = false -> Regex.cellRef_at (String c s) = None.
Proof.
  intros Hc. unfold Regex.cellRef_at. cbn [Js.span]. rewrite Hc.
  destruct (Js.span Js.isDigit (String c s)). reflexivity.
Qed.

Lemma cellRefs_from_no_upper (s : string) (k : nat) :
  Js.existsb Js.isUpper s = false -> Regex.cellRefs_from k s = [].
Proof.
  revert k. induction s as [|c s IH]; intros k H; [reflexivity|].
  cbn [Js.existsb] in H. apply orb_false_iff in H as [Hc Hs].
  cbn [Regex.cellRefs_from]. destruct k as [|k]; [|apply IH, Hs].
  rewrite (cellRef_at_no_upper c s Hc). apply IH, Hs.
Qed.

Lemma newCell_ext (cs cs' : Cells) (r c : Z) (v : string) :
  (detectCellType v = CellType.formula ->
   forall m, m ∈ Regex.cellRefs (Js.substring1 v) -> value_of cs m = value_of cs' m) ->
  newCell cs r c v = newCell cs' r c v.
Proof.
  intros H. unfold newCell.
  destruct (CellType.eqb (detectCellType v) CellType.formula) eqn:E; [|reflexivity].
  apply CellType_eqb_eq in E. rewrite (evaluateFormula_ext v cs cs' (H E)). reflexivity.
Qed.

Lemma value_of_insert_ne (cs : Cells) (k m : string) (cell : Cell.t) :
  m <> k -> value_of (<[k := cell]> cs) m = value_of cs m.
Proof. intros H. unfold value_of. rewrite lookup_insert_ne by congruence. reflexivity. Qed.

Lemma newCell_insert (cs : Cells) (k : string) (cell : Cell.t) (r c : Z) (v : string) :
  detectCellType v <> CellType.formula \/ k ∉ Regex.cellRefs (Js.substring1 v) ->
  newCell (<[k := cell]> cs) r c v = newCell cs r c v.
Proof.
  intros H. apply newCell_ext. intros Hf m Hm.
  destruct H as [H|H]; [contradiction|].
  apply value_of_insert_ne. intros ->. contradiction.
Qed.

End Reads.

(** X3.  A formula reads nothing of the store but the value texts of the
    cells it refers to: two stores that hold the same text under every
    address the formula names (an absent cell counting as an empty one) give
    the same result.  A formula without a capital letter names no cell, and
    gives the same result on every store. *)
Theorem evaluateFormula_reads_values `{rt : JsRuntime} (formula : string)
    (cs cs' : Cells)
    (Hsame : forall m, m ∈ Regex.cellRefs (Js.substring1 formula) ->
                       value_of cs m = value_of cs' m) :
  evaluateFormula formula cs = evaluateFormula formula cs'
  /\ (forall r c, Cell.value (newCell cs r c formula)
                  = Cell.value (newCell cs' r c formula))
  /\ (forall e, Js.existsb Js.isUpper e = false ->
        forall cs1 cs2, evaluateFormula (String "=" e) cs1
                        = evaluateFormula (String "=" e) cs2).
Proof.
  split; [apply evaluateFormula_ext, Hsame|].
  split.
  - intros r c. rewrite (newCell_ext cs cs' r c formula); [reflexivity|].
    intros _. exact Hsame.
  - intros e He cs1 cs2. apply evaluateFormula_ext.
    cbn [Js.substring1]. unfold Regex.cellRefs.
    rewrite (cellRefs_from_no_upper e O He). intros m Hm.
    apply elem_of_nil in Hm. contradiction.
Qed.

Lemma evaluateFormula_reads_values_witness :
  evaluateFormula (rt := Ref.runtime) "=A1+1"
    {["A1" := plainCell "A1" 0 0 "3" CellType.number]}
  = evaluateFormula (rt := Ref.runtime) "=A1+1"
      {["A1" := formulaCell "A1" 0 0 "=1+2" "3"]}.
Proof.
  refine (proj1 (evaluateFormula_reads_values (rt := Ref.runtime) "=A1+1" _ _ _)).
  intros m Hm. vm_compute in Hm.
  apply list_elem_of_singleton in Hm. subst m. reflexivity.
Defined.

(** ** Sequences of updates *)

(** X4.  The store never loses an entry: after an update its addresses are
    those it had and the one written, and committing the empty text leaves
    a text cell with an empty value rather than removing the entry. *)
Theorem setCellValue_dom `{rt : JsRuntime} (cs : Cells) (r c : Z) (v : string) :
  dom (setCellValue cs r c v) = {[ getCellId r c ]} ∪ dom cs
  /\ (forall k, is_Some (cs !! k) -> is_Some (setCellValue cs r c v !! k))
  /\ setCellValue cs r c "" !! getCellId r c
     = Some (plainCell (getCellId r c) r c "" CellType.text).
Proof.
  rewrite !setCellValue_unfold. split; [apply dom_insert_L|]. split.
  - intros k Hk. destruct (decide (k = getCellId r c)) as [->|Hne].
    + rewrite lookup_insert_eq. eauto.
    + rewrite lookup_insert_ne by congruence. exact Hk.
  - rewrite lookup_insert_eq. reflexivity.
Qed.

(** X5.  Updates of two different cells commute when neither input is a
    formula that refers to the other cell: the store is the same whichever
    is committed first. *)
Theorem setCellValue_commute `{rt : JsRuntime} (cs : Cells)
    (r1 c1 r2 c2 : Z) (v1 v2 : string)
    (Hne : getCellId r1 c1 <> getCellId r2 c2)
    (H1 : detectCellType v1 <> CellType.formula
          \/ getCellId r2 c2 ∉ Regex.cellRefs (Js.substring1 v1))
    (H2 : detectCellType v2 <> CellType.formula
          \/ getCellId r1 c1 ∉ Regex.cellRefs (Js.substring1 v2)) :
  setCellValue (setCellValue cs r1 c1 v1) r2 c2 v2
  = setCellValue (setCellValue cs r2 c2 v2) r1 c1 v1.
Proof.
  rewrite !setCellValue_unfold.
  rewrite (newCell_insert cs _ _ r2 c2 v2 H2), (newCell_insert cs _ _ r1 c1 v1 H1).
  apply insert_insert_ne. congruence.
Qed.

Lemma setCellValue_commute_witness :
  setCellValue (rt := Ref.runtime)
    (setCellValue (rt := Ref.runtime) ∅ 0 0 "=C1+1") 0 1 "7"
  = setCellValue (rt := Ref.runtime)
      (setCellValue (rt := Ref.runtime) ∅ 0 1 "7") 0 0 "=C1+1".
Proof.
  apply (setCellValue_commute (rt := Ref.runtime) ∅ 0 0 0 1 "=C1+1" "7").
  - vm_compute. discriminate.
  - right. vm_compute. intros H. apply list_elem_of_singleton in H. discriminate.
  - left. vm_compute. discriminate.
Defined.

(** X6.  An update replaces the record of its cell whatever an earlier
    update stored there: committing [v1] and then [v2] to one cell leaves
    the store that committing [v2] alone leaves, unless [v2] is a formula
    that refers to the cell itself. *)
Theorem setCellValue_overwrite `{rt : JsRuntime} (cs : Cells) (r c : Z)
    (v1 v2 : string)
    (H2 : detectCellType v2 <> CellType.formula
          \/ getCellId r c ∉ Regex.cellRefs (Js.substring1 v2)) :
  setCellValue (setCellValue cs r c v1) r c v2 = setCellValue cs r c v2.
Proof.
  rewrite !setCellValue_unfold.
  rewrite (newCell_insert cs _ _ r c v2 H2).
  apply insert_insert_eq.
Qed.

Lemma setCellValue_overwrite_witness :
  setCellValue (rt := Ref.runtime)
    (setCellValue (rt := Ref.runtime) ∅ 0 0 "=1+(") 0 0 "hello"
  = setCellValue (rt := Ref.runtime) ∅ 0 0 "hello".
Proof.
  apply (setCellValue_overwrite (rt := Ref.runtime) ∅ 0 0 "=1+(" "hello").
  left. vm_compute. discriminate.
Defined.

(** ** Cells that hold no number *)

Section NoNumber.

Lemma parseFloat_opt_no_number (s : string) :
  starts_no_number s = true -> Ref.parseFloat_opt s = Some PrimFloat.nan.
Proof.
  destruct s as [|c rest]; [discriminate|].
  destruct c as [[] [] [] [] [] [] [] []]; intros H;
    try discriminate H; reflexivity.
Qed.

Lemma starts_no_number_not_empty (s : string) :
  starts_no_number s = true -> Js.isEmpty s = false.
Proof. destruct s; [discriminate | reflexivity]. Qed.

Lemma cellRef_value_no_number `{rt : JsRuntime} (Hrt : Conforms rt)
    (cs : Cells) (m : string) (cell : Cell.t) :
  cs !! m = Some cell ->
  starts_no_number (Cell.value cell) = true ->
  cellRef_value cs m = "0".
Proof.
  intros Hm Hs. unfold cellRef_value. rewrite Hm.
  rewrite (starts_no_number_not_empty _ Hs).
  rewrite (conforms_parseFloat rt Hrt _ _ (parseFloat_opt_no_number _ Hs)).
  reflexivity.
Qed.

Lemma newCell_formula `{rt : JsRuntime} (cs : Cells) (r c : Z) (f : string) :
  Js.startsWith "=" f = true ->
  newCell cs r c f = formulaCell (getCellId r c) r c f (evaluateFormula f cs).
Proof.
  intros Hf. unfold newCell. apply detectCellType_formula in Hf. rewrite Hf.
  reflexivity.
Qed.

Lemma newCell_plain `{rt : JsRuntime} (cs : Cells) (r c : Z) (v : string) :
  detectCellType v <> CellType.formula ->
  newCell cs r c v = plainCell (getCellId r c) r c v (detectCellType v).
Proof.
  intros Hv. unfold newCell.
  destruct (CellType.eqb (detectCellType v) CellType.formula) eqn:E.
  - apply CellType_eqb_eq in E. contradiction.
  - reflexivity.
Qed.

End NoNumber.

(** X7.  Errors and texts do not spread through references: a reference to
    a cell whose value starts with a character no number starts with (a
    letter other than I, [#], ...) is replaced by 0.  So a cell whose
    formula failed, holding [#ERROR], counts as 0 in the formulas that
    refer to it, and those do not fail for it. *)
Theorem cellRef_value_text `{rt : JsRuntime} (Hrt : Conforms rt)
    (cs : Cells) (m : string) (cell : Cell.t)
    (Hm : cs !! m = Some cell)
    (Hs : starts_no_number (Cell.value cell) = true) :
  cellRef_value cs m = "0"
  /\ (forall r c f,
        Js.startsWith "=" f = true -> evaluateFormula f cs = "#ERROR" ->
        cellRef_value (setCellValue cs r c f) (getCellId r c) = "0")
  /\ evaluateFormula "=A1+1" (setCellValue ∅ 0 0 "=1+(") = "1"
  /\ evaluateFormula "=A1+B1" (setCellValue (setCellValue ∅ 0 0 "Product") 0 1 "2")
     = "2".
Proof.
  split; [exact (cellRef_value_no_number Hrt cs m cell Hm Hs)|].
  split.
  - intros r c f Hf He.
    apply (cellRef_value_no_number Hrt _ _ (newCell cs r c f)).
    + rewrite setCellValue_unfold. apply lookup_insert_eq.
    + rewrite (newCell_formula cs r c f Hf). cbn [formulaCell Cell.value].
      rewrite He. reflexivity.
  - assert (Hn : forall s n, Ref.Number_opt s = Some n -> js_Number s = n)
      by apply (conforms_Number rt Hrt).
    split.
    + rewrite evaluateFormula_formula by reflexivity.
      set (cs1 := setCellValue ∅ 0 0 "=1+(").
      assert (E : substituted "=A1+1" cs1 = cellRef_value cs1 "A1" ++ "+1")
        by reflexivity.
      rewrite E.
      assert (Her : evaluateFormula "=1+(" ∅ = "#ERROR").
      { rewrite evaluateFormula_formula by reflexivity.
        apply (call_raises Hrt _ "SyntaxError or TypeError"). vm_compute. reflexivity. }
      rewrite (cellRef_value_no_number Hrt cs1 "A1" (newCell ∅ 0 0 "=1+(")).
      * apply (call_returns Hrt _ 1%float "1"); vm_compute; reflexivity.
      * unfold cs1. rewrite setCellValue_unfold. apply lookup_insert_eq.
      * rewrite (newCell_formula ∅ 0 0 "=1+(" eq_refl). cbn [formulaCell Cell.value].
        rewrite Her. reflexivity.
    + rewrite evaluateFormula_formula by reflexivity.
      set (cs1 := setCellValue (setCellValue ∅ 0 0 "Product") 0 1 "2").
      assert (E : substituted "=A1+B1" cs1
                  = cellRef_value cs1 "A1" ++ "+" ++ cellRef_value cs1 "B1" ++ "")
        by reflexivity.
      rewrite E.
      assert (HA : cs1 !! "A1" = Some (newCell ∅ 0 0 "Product")).
      { unfold cs1. rewrite !setCellValue_unfold.
        rewrite lookup_insert_ne by discriminate. apply lookup_insert_eq. }
      assert (HB : cs1 !! "B1" = Some (newCell (setCellValue ∅ 0 0 "Product") 0 1 "2")).
      { unfold cs1. rewrite (setCellValue_unfold _ 0 1). apply lookup_insert_eq. }
      assert (TA : detectCellType "Product" = CellType.text).
      { unfold detectCellType. rewrite (Hn "Product" nan) by (vm_compute; reflexivity).
        reflexivity. }
      assert (TB : detectCellType "2" = CellType.number).
      { unfold detectCellType. rewrite (Hn "2" 2%float) by (vm_compute; reflexivity).
        reflexivity. }
      rewrite newCell_plain, TA in HA by (rewrite TA; discriminate).
      rewrite newCell_plain, TB in HB by (rewrite TB; discriminate).
      rewrite (cellRef_value_no_number Hrt cs1 "A1" _ HA) by reflexivity.
      rewrite (cellRef_value_number Hrt cs1 "B1" _ 2%float "2" HB)
        by (vm_compute; reflexivity).
      apply (call_returns Hrt _ 2%float "2"); vm_compute; reflexivity.
Qed.

Lemma cellRef_value_text_witness :
  cellRef_value (rt := Ref.runtime)
    {["A1" := formulaCell "A1" 0 0 "=1+(" "#ERROR"]} "A1" = "0".
Proof.
  exact (proj1 (cellRef_value_text (rt := Ref.runtime) Ref_runtime_conforms
                  {["A1" := formulaCell "A1" 0 0 "=1+(" "#ERROR"]} "A1"
                  (formulaCell "A1" 0 0 "=1+(" "#ERROR") eq_refl eq_refl)).
Defined.

(** ** The stores the application can hold *)

Section Reachable.
Context `{rt : JsRuntime}.

Lemma newCell_canonical (cs : Cells) (r c : Z) (v : string) :
  cell_canonical (getCellId r c) (newCell cs r c v).
Proof.
  destruct (CellType.eqb (detectCellType v) CellType.formula) eqn:E;
    [ apply CellType_eqb_eq in E as Hf
    | assert (Hf : detectCellType v <> CellType.formula)
        by (intros Hf; apply CellType_eqb_eq in Hf; congruence) ].
  - pose proof (proj1 (detectCellType_formula v) Hf) as Hs.
    rewrite (newCell_formula cs r c v Hs).
    unfold cell_canonical, cell_wf, formulaCell; cbn.
    repeat split; try congruence; try (intros f [= <-]; exact Hs).
  - rewrite (newCell_plain cs r c v Hf).
    unfold cell_canonical, cell_wf, plainCell; cbn.
    repeat split; try congruence; try (intros f [=]).
Qed.

Lemma sampleCells_canonical (Hrt : Conforms rt) (k : string) (cell : Cell.t) :
  sampleCells !! k = Some cell -> cell_canonical k cell.
Proof.
  assert (Hn : forall s n, Ref.Number_opt s = Some n -> js_Number s = n)
    by apply (conforms_Number rt Hrt).
  intros Hk. apply elem_of_list_to_map_2 in Hk.
  assert (Ht : forall v, Ref.Number_opt v = Some PrimFloat.nan ->
                 Js.isEmpty v || Js.isBlank v = false ->
                 Js.startsWith "=" v = false ->
                 Regex.dateRegex_test v = false ->
                 String.eqb (Js.toLowerCase v) "true"
                 || String.eqb (Js.toLowerCase v) "false" = false ->
                 CellType.text = detectCellType v).
  { intros v H1 H2 H3 H4 H5. unfold detectCellType.
    rewrite H2, H3, (Hn v _ H1), H4, H5. reflexivity. }
  assert (Hnum : forall v n, Ref.Number_opt v = Some n -> isNaN n = false ->
                 Js.isEmpty v || Js.isBlank v = false ->
                 Js.startsWith "=" v = false ->
                 Js.isBlank v = false ->
                 CellType.number = detectCellType v).
  { intros v n H1 H2 H3 H4 H5. unfold detectCellType.
    rewrite H3, H4, (Hn v _ H1), H2, H5. reflexivity. }
  repeat (apply elem_of_cons in Hk as [Hk|Hk];
          [ injection Hk as -> ->;
            unfold cell_canonical, cell_wf, plainCell; cbn;
            repeat split; try congruence; try discriminate;
            intros _;
            first [ apply Ht; vm_compute; reflexivity
                  | eapply Hnum; vm_compute; reflexivity ]
          | ]).
  apply elem_of_nil in Hk. contradiction.
Qed.

Lemma reachable_canonical (Hrt : Conforms rt) (cs : Cells) :
  reachable cs -> forall k cell, cs !! k = Some cell -> cell_canonical k cell.
Proof.
  induction 1 as [| |rendered prev r c v toasts _ _ _ IH]; intros k cell Hk.
  - rewrite lookup_empty in Hk. discriminate.
  - apply (sampleCells_canonical Hrt), Hk.
  - cbn in Hk. destruct (decide (k = getCellId r c)) as [->|Hne].
    + rewrite lookup_insert_eq in Hk. injection Hk as <-. apply newCell_canonical.
    + rewrite lookup_insert_ne in Hk by congruence. apply (IH k cell Hk).
Qed.

Lemma editText_canonical (k : string) (cell : Cell.t) :
  cell_canonical k cell ->
  Grid.editText (Some cell) = default (Cell.value cell) (Cell.formula cell).
Proof.
  intros ((_ & _ & _ & Hf) & _ & _). unfold Grid.editText, JsString.or_else.
  destruct (Cell.formula cell) as [f|] eqn:E; cbn.
  - specialize (Hf f eq_refl). destruct f; [discriminate | reflexivity].
  - destruct (Cell.value cell); reflexivity.
Qed.

Lemma recommit_plain (cs : Cells) (k : string) (cell : Cell.t) :
  cs !! k = Some cell -> cell_canonical k cell ->
  Cell.formula cell = None ->
  setCellValue cs (Cell.row cell) (Cell.col cell) (Grid.editText (Some cell)) = cs.
Proof.
  intros Hk Hc Hnone. rewrite (editText_canonical k cell Hc), Hnone.
  change (default (Cell.value cell) None) with (Cell.value cell).
  destruct Hc as ((Hid & Hpos & Hty & _) & Hstyle & Hdet).
  rewrite setCellValue_unfold.
  assert (Hnf : detectCellType (Cell.value cell) <> CellType.formula).
  { rewrite <- (Hdet Hnone). intros Hf. apply Hty in Hf. contradiction. }
  rewrite (newCell_plain cs _ _ _ Hnf), <- (Hdet Hnone), <- Hpos, Hid.
  apply insert_id. rewrite Hk. f_equal.
  destruct cell as [id row col value formula type style]; cbn in *.
  subst. reflexivity.
Qed.

Lemma recommit_formula (cs : Cells) (k : string) (cell : Cell.t) (f : string) :
  cs !! k = Some cell -> cell_canonical k cell ->
  Cell.formula cell = Some f ->
  setCellValue cs (Cell.row cell) (Cell.col cell) (Grid.editText (Some cell))
  = <[k := formulaCell k (Cell.row cell) (Cell.col cell) f (evaluateFormula f cs)]> cs.
Proof.
  intros Hk Hc Hsome. rewrite (editText_canonical k cell Hc), Hsome.
  change (default (Cell.value cell) (Some f)) with f.
  destruct Hc as ((Hid & Hpos & _ & Hf) & _ & _).
  rewrite setCellValue_unfold, (newCell_formula cs _ _ f (Hf f Hsome)).
  rewrite <- Hpos, Hid. reflexivity.
Qed.

End Reachable.

(** X8.  In every store the application can hold (the empty one, the sample
    data, and whatever updates make of them) each record sits under the
    address of its row and column, has a formula exactly when its type is
    formula, and otherwise has the type the detector gives its value.
    Opening such a cell for edit and confirming without a change leaves the
    store as it was when the cell has no formula, and recomputes the value
    from the current store when it has one. *)
Theorem reachable_recommit `{rt : JsRuntime} (Hrt : Conforms rt) (cs : Cells)
    (k : string) (cell : Cell.t)
    (Hcs : reachable cs) (Hk : cs !! k = Some cell) :
  cell_wf k cell
  /\ (Cell.formula cell = None ->
      Cell.type cell = detectCellType (Cell.value cell)
      /\ setCellValue cs (Cell.row cell) (Cell.col cell) (Grid.editText (Some cell))
         = cs)
  /\ (forall f, Cell.formula cell = Some f ->
      setCellValue cs (Cell.row cell) (Cell.col cell) (Grid.editText (Some cell))
      = <[k := formulaCell k (Cell.row cell) (Cell.col cell) f
                 (evaluateFormula f cs)]> cs).
Proof.
  pose proof (reachable_canonical Hrt cs Hcs k cell Hk) as Hc.
  split; [exact (proj1 Hc)|]. split.
  - intros Hnone. split; [exact (proj2 (proj2 Hc) Hnone)|].
    exact (recommit_plain cs k cell Hk Hc Hnone).
  - intros f Hsome. exact (recommit_formula cs k cell f Hk Hc Hsome).
Qed.

Lemma reachable_recommit_witness :
  cell_wf "B2" (plainCell "B2" 1 1 "15000" CellType.number).
Proof.
  exact (proj1 (reachable_recommit (rt := Ref.runtime) Ref_runtime_conforms
                  sampleCells "B2" (plainCell "B2" 1 1 "15000" CellType.number)
                  reachable_sample eq_refl)).
Defined.

(** ** The grid *)

Section GridFacts.
Context `{rt : JsRuntime}.

Lemma grid_calls_app (cs : Cells) (a b : list Grid.Effect) (st : App.State) :
  grid_calls cs (a ++ b) st = grid_calls cs b (grid_calls cs a st).
Proof. unfold grid_calls. apply fold_left_app. Qed.

Lemma nextState_app (a b : list Grid.Effect) (st : Grid.State) :
  Grid.nextState (a ++ b) st = Grid.nextState b (Grid.nextState a st).
Proof. unfold Grid.nextState. apply fold_left_app. Qed.

Lemma handleCellSubmit_editing (st : Grid.State) (p : CellPos.t) :
  Grid.editingCell st = Some p ->
  Grid.handleCellSubmit st
  = [ Grid.onCellValueChange (CellPos.row p) (CellPos.col p) (Grid.editValue st);
      Grid.setEditingCell None; Grid.setEditValue ""; Grid.onStopEdit ].
Proof. intros H. unfold Grid.handleCellSubmit. rewrite H. reflexivity. Qed.

Lemma editText_newCell (cs : Cells) (r c : Z) (v : string) :
  Grid.editText (Some (newCell cs r c v)) = v.
Proof.
  rewrite (editText_canonical _ _ (newCell_canonical cs r c v)).
  unfold newCell. cbn [Cell.formula Cell.value].
  destruct (CellType.eqb (detectCellType v) CellType.formula); reflexivity.
Qed.

Lemma formulaBar_loads_editText (cell : option Cell.t) :
  FormulaBar.localValue_effect true (default "" (Cell.value <$> cell))
    (cell ≫= Cell.formula)
  = Grid.editText cell.
Proof.
  destruct cell as [cell|]; [|reflexivity].
  unfold FormulaBar.localValue_effect, Grid.editText, JsString.or_else. cbn.
  destruct (Cell.formula cell) as [[|]|]; destruct (Cell.value cell); reflexivity.
Qed.

End GridFacts.

(** The keys [handleKeyDown] names. *)
Ltac key_cases e :=
  destruct (String.eqb (Grid.key e) "Enter") eqn:?;
  [| destruct (String.eqb (Grid.key e) "Tab") eqn:?;
  [| destruct (String.eqb (Grid.key e) "Escape") eqn:?;
  [| destruct (String.eqb (Grid.key e) "ArrowUp") eqn:?;
  [| destruct (String.eqb (Grid.key e) "ArrowDown") eqn:?;
  [| destruct (String.eqb (Grid.key e) "ArrowLeft") eqn:?;
  [| destruct (String.eqb (Grid.key e) "ArrowRight") eqn:?;
  [| destruct (String.eqb (Grid.key e) "F2") eqn:? ]]]]]]].

Ltac in_list H :=
  repeat (apply elem_of_cons in H as [H|H]; [try discriminate H|]);
  try (apply elem_of_nil in H; contradiction).

(** X9.  The keyboard never moves the selection off the grid, and by one
    cell at most: with the selected cell inside a grid of at least one row
    and one column, every cell [handleKeyDown] asks to select is inside the
    grid, at distance 0 or 1 from the selected one, whatever the key and
    whether a cell is under edit or not. *)
Theorem handleKeyDown_in_grid (props : Grid.Props) (st : Grid.State)
    (e : Grid.KeyboardEvent) (selected : CellPos.t)
    (Hsel : Grid.selectedCell props = Some selected)
    (Hrows : 0 <= CellPos.row selected < Grid.rows props)
    (Hcols : 0 <= CellPos.col selected < Grid.cols props) :
  forall r c, Grid.onCellSelect r c ∈ Grid.handleKeyDown props st e ->
    0 <= r < Grid.rows props /\ 0 <= c < Grid.cols props
    /\ Z.abs (r - CellPos.row selected) + Z.abs (c - CellPos.col selected) <= 1.
Proof.
  intros r c H. unfold Grid.handleKeyDown in H. rewrite Hsel in H.
  unfold Grid.handleCellSubmit, Grid.handleCellDoubleClick in H.
  key_cases e; destruct (Grid.editingCell st) as [p|]; cbn in H;
    try (destruct (_ && _) in H);
    in_list H; injection H as -> ->; lia.
Qed.

Lemma handleKeyDown_in_grid_witness :
  0 <= 49 < 50 /\ 0 <= 25 < 26 /\ Z.abs (49 - 49) + Z.abs (25 - 25) <= 1.
Proof.
  apply (handleKeyDown_in_grid
           {| Grid.cells := ∅;
              Grid.selectedCell := Some {| CellPos.row := 49; CellPos.col := 25 |};
              Grid.rows := 50; Grid.cols := 26 |}
           {| Grid.editingCell := None; Grid.editValue := "" |}
           {| Grid.key := "ArrowDown"; Grid.ctrlKey := false; Grid.metaKey := false |}
           {| CellPos.row := 49; CellPos.col := 25 |} eq_refl);
    [cbn; lia | cbn; lia |].
  apply list_elem_of_further, list_elem_of_here.
Defined.

(** X10.  A key changes the store only by committing the edit buffer:
    [handleKeyDown] calls [onCellValueChange] for no cell but the one under
    edit, with no text but the buffer, and on Enter and Tab only.  With no
    cell under edit, and on every other key (Escape, the arrows, F2, a
    character), the cell collection and the notifications stay as they
    are; Escape closes the edit and empties the buffer. *)
Theorem handleKeyDown_commits `{rt : JsRuntime} (props : Grid.Props)
    (st : Grid.State) (e : Grid.KeyboardEvent) :
  (forall r c v,
      Grid.onCellValueChange r c v ∈ Grid.handleKeyDown props st e ->
      Grid.editingCell st = Some {| CellPos.row := r; CellPos.col := c |}
      /\ v = Grid.editValue st
      /\ (Grid.key e = "Enter" \/ Grid.key e = "Tab")
      /\ Grid.nextState (Grid.handleKeyDown props st e) st
         = {| Grid.editingCell := None; Grid.editValue := "" |})
  /\ (forall cs appst,
        Grid.editingCell st = None \/ (Grid.key e <> "Enter" /\ Grid.key e <> "Tab") ->
        grid_calls cs (Grid.handleKeyDown props st e) appst = appst)
  /\ (forall cs appst p,
        Grid.selectedCell props <> None ->
        Grid.editingCell st = Some p ->
        Grid.key e = "Enter" \/ Grid.key e = "Tab" ->
        grid_calls cs (Grid.handleKeyDown props st e) appst
        = handleCellValueChange cs (CellPos.row p) (CellPos.col p)
            (Grid.editValue st) appst)
  /\ (Grid.selectedCell props <> None ->
      Grid.editingCell st <> None ->
      Grid.key e = "Escape" ->
      Grid.nextState (Grid.handleKeyDown props st e) st
      = {| Grid.editingCell := None; Grid.editValue := "" |}).
Proof.
  unfold Grid.handleKeyDown.
  destruct (Grid.selectedCell props) as [selected|].
  2: { split; [|split; [|split]].
       - intros r c v H. apply elem_of_nil in H. contradiction.
       - intros; reflexivity.
       - intros cs appst p Hc. contradiction.
       - intros Hc. contradiction. }
  unfold Grid.handleCellSubmit, Grid.handleCellDoubleClick.
  split; [|split; [|split]].
  - intros r c v H.
    key_cases e; destruct (Grid.editingCell st) as [[pr pc]|] eqn:Hed; cbn in H;
      try (destruct (_ && _) in H);
      in_list H; injection H as -> -> ->;
      repeat match goal with
             | E : String.eqb _ _ = true |- _ => apply String.eqb_eq in E
             end;
      repeat split; auto.
  - intros cs appst [Hnone | [HE HT]].
    + rewrite Hnone.
      key_cases e; cbn; try reflexivity.
      destruct (_ && _); reflexivity.
    + key_cases e;
        repeat match goal with
               | E : String.eqb _ _ = true |- _ => apply String.eqb_eq in E
               end; try contradiction;
        destruct (Grid.editingCell st); cbn; try reflexivity;
        destruct (_ && _); reflexivity.
  - intros cs appst p _ Hed [HE | HT]; rewrite Hed.
    + rewrite HE. reflexivity.
    + rewrite HT. reflexivity.
  - intros _ Hed HK. rewrite HK.
    destruct (Grid.editingCell st); [reflexivity | contradiction].
Qed.

(** X11.  What is committed to a cell is what the editors load from it:
    after the edit buffer [v] is committed to [(r, c)], a double click on
    the cell, F2 with the cell selected, and the formula bar all load the
    text [v] again, for every [v], formula or not. *)
Theorem edit_round_trip `{rt : JsRuntime} (cs : Cells) (toasts : list App.Toast)
    (r c : Z) (v : string) (n m : Z) (st' : Grid.State) :
  let committed :=
    grid_calls cs
      (Grid.handleCellSubmit
         {| Grid.editingCell := Some {| CellPos.row := r; CellPos.col := c |};
            Grid.editValue := v |})
      {| App.cells := cs; App.toasts := toasts |} in
  let selected := Some {| CellPos.row := r; CellPos.col := c |} in
  let props' :=
    {| Grid.cells := App.cells committed; Grid.selectedCell := selected;
       Grid.rows := n; Grid.cols := m |} in
  let opened :=
    {| Grid.editingCell := selected; Grid.editValue := v |} in
  Grid.nextState (Grid.handleCellDoubleClick props' r c) st' = opened
  /\ Grid.nextState
       (Grid.handleKeyDown props' st'
          {| Grid.key := "F2"; Grid.ctrlKey := false; Grid.metaKey := false |}) st'
     = opened
  /\ FormulaBar.localValue_effect true
       (default "" (Cell.value <$> getCurrentCell (App.cells committed) selected))
       (getCurrentCell (App.cells committed) selected ≫= Cell.formula)
     = v.
Proof.
  intros committed selected props' opened.
  assert (Hcell : App.cells committed !! getCellId r c = Some (newCell cs r c v)).
  { unfold committed. cbn. apply lookup_insert_eq. }
  assert (Hopen : Grid.nextState (Grid.handleCellDoubleClick props' r c) st' = opened).
  { unfold Grid.handleCellDoubleClick. cbn [Grid.cells props'].
    rewrite Hcell, editText_newCell. reflexivity. }
  split; [exact Hopen|]. split.
  - exact Hopen.
  - rewrite formulaBar_loads_editText.
    unfold getCurrentCell, selected. cbn [CellPos.row CellPos.col].
    rewrite Hcell. apply editText_newCell.
Qed.

(** X12.  Typing into a selected cell: a one-character key, pressed with no
    cell under edit and without Ctrl or Meta, opens the selected cell with
    that character as the buffer; whatever the input then sets the buffer
    to, Enter commits it to the selected cell through
    [handleCellValueChange] and closes the edit, the selection staying
    where it is. *)
Theorem type_then_enter `{rt : JsRuntime} (props : Grid.Props) (st : Grid.State)
    (ch : ascii) (selected : CellPos.t)
    (Hsel : Grid.selectedCell props = Some selected)
    (Hed : Grid.editingCell st = None) :
  let typed :=
    Grid.nextState
      (Grid.handleKeyDown props st
         {| Grid.key := String ch ""; Grid.ctrlKey := false; Grid.metaKey := false |})
      st in
  let enter := {| Grid.key := "Enter"; Grid.ctrlKey := false; Grid.metaKey := false |} in
  typed = {| Grid.editingCell := Some selected; Grid.editValue := String ch "" |}
  /\ forall v appst,
       let edited := Grid.nextState (Grid.input_onChange v) typed in
       grid_calls (Grid.cells props) (Grid.handleKeyDown props edited enter) appst
       = handleCellValueChange (Grid.cells props)
           (CellPos.row selected) (CellPos.col selected) v appst
       /\ Grid.nextState (Grid.handleKeyDown props edited enter) edited
          = {| Grid.editingCell := None; Grid.editValue := "" |}
       /\ (forall r c, Grid.onCellSelect r c ∉ Grid.handleKeyDown props edited enter).
Proof.
  intros typed enter.
  assert (Ht : typed
               = {| Grid.editingCell := Some selected; Grid.editValue := String ch "" |}).
  { unfold typed, Grid.handleKeyDown. rewrite Hsel, Hed.
    destruct ch as [[] [] [] [] [] [] [] []]; reflexivity. }
  split; [exact Ht|]. intros v appst edited.
  unfold edited. rewrite Ht. unfold Grid.handleKeyDown. rewrite Hsel. cbn.
  repeat split. intros r c H. in_list H.
Qed.

Lemma type_then_enter_witness :
  Grid.nextState
    (Grid.handleKeyDown
       {| Grid.cells := ∅;
          Grid.selectedCell := Some {| CellPos.row := 0; CellPos.col := 0 |};
          Grid.rows := 50; Grid.cols := 26 |}
       {| Grid.editingCell := None; Grid.editValue := "" |}
       {| Grid.key := "7"; Grid.ctrlKey := false; Grid.metaKey := false |})
    {| Grid.editingCell := None; Grid.editValue := "" |}
  = {| Grid.editingCell := Some {| CellPos.row := 0; CellPos.col := 0 |};
       Grid.editValue := "7" |}.
Proof.
  exact (proj1 (type_then_enter (rt := Ref.runtime)
                  {| Grid.cells := ∅;
                     Grid.selectedCell := Some {| CellPos.row := 0; CellPos.col := 0 |};
                     Grid.rows := 50; Grid.cols := 26 |}
                  {| Grid.editingCell := None; Grid.editValue := "" |}
                  "7"%char {| CellPos.row := 0; CellPos.col := 0 |} eq_refl eq_refl)).
Defined.

(** X13.  Enter pressed in the input of the cell under edit reaches two
    handlers created at the same rendering, that of the input and, the grid
    being around the input, [handleKeyDown] when a cell is selected: the
    buffer is committed twice.  The store is the one a single commit
    leaves, and two notifications are raised. *)
Theorem enter_in_input `{rt : JsRuntime} (props : Grid.Props) (st : Grid.State)
    (p selected : CellPos.t) (appst : App.State)
    (Hed : Grid.editingCell st = Some p)
    (Hsel : Grid.selectedCell props = Some selected) :
  let enter := {| Grid.key := "Enter"; Grid.ctrlKey := false; Grid.metaKey := false |} in
  let effects :=
    (Grid.input_onKeyDown st enter ++ Grid.handleKeyDown props st enter)%list in
  let once :=
    handleCellValueChange (Grid.cells props) (CellPos.row p) (CellPos.col p)
      (Grid.editValue st) appst in
  App.cells (grid_calls (Grid.cells props) effects appst) = App.cells once
  /\ (exists toast : App.Toast,
        App.toasts once = (App.toasts appst ++ [toast])%list
        /\ App.toasts (grid_calls (Grid.cells props) effects appst)
           = (App.toasts appst ++ [toast; toast])%list)
  /\ Grid.nextState effects st = {| Grid.editingCell := None; Grid.editValue := "" |}.
Proof.
  intros enter effects once.
  assert (E : effects = (Grid.handleCellSubmit st ++ Grid.handleCellSubmit st)%list).
  { unfold effects, Grid.handleKeyDown, Grid.input_onKeyDown. rewrite Hsel, Hed.
    reflexivity. }
  rewrite E, (handleCellSubmit_editing st p Hed). cbn.
  split; [|split].
  - apply insert_insert_eq.
  - eexists. split; [reflexivity|]. rewrite <- List.app_assoc. reflexivity.
  - reflexivity.
Qed.

Lemma enter_in_input_witness :
  App.cells
    (grid_calls (rt := Ref.runtime) ∅
       (Grid.input_onKeyDown
          {| Grid.editingCell := Some {| CellPos.row := 0; CellPos.col := 0 |};
             Grid.editValue := "7" |}
          {| Grid.key := "Enter"; Grid.ctrlKey := false; Grid.metaKey := false |}
        ++ Grid.handleKeyDown
             {| Grid.cells := ∅;
                Grid.selectedCell := Some {| CellPos.row := 1; CellPos.col := 0 |};
                Grid.rows := 50; Grid.cols := 26 |}
             {| Grid.editingCell := Some {| CellPos.row := 0; CellPos.col := 0 |};
                Grid.editValue := "7" |}
             {| Grid.key := "Enter"; Grid.ctrlKey := false; Grid.metaKey := false |})%list
       {| App.cells := ∅; App.toasts := [] |})
  = App.cells
      (handleCellValueChange (rt := Ref.runtime) ∅ 0 0 "7"
         {| App.cells := ∅; App.toasts := [] |}).
Proof.
  exact (proj1 (enter_in_input (rt := Ref.runtime)
                  {| Grid.cells := ∅;
                     Grid.selectedCell := Some {| CellPos.row := 1; CellPos.col := 0 |};
                     Grid.rows := 50; Grid.cols := 26 |}
                  {| Grid.editingCell := Some {| CellPos.row := 0; CellPos.col := 0 |};
                     Grid.editValue := "7" |}
                  {| CellPos.row := 0; CellPos.col := 0 |}
                  {| CellPos.row := 1; CellPos.col := 0 |}
                  {| App.cells := ∅; App.toasts := [] |} eq_refl eq_refl)).
Defined.

(** ** The date pattern *)

Section Dates.

Lemma digits_inv (lo hi : nat) (s rest : string) :
  Regex.digits lo hi s = Some rest ->
  exists run,
    s = run ++ rest /\ Js.forallb Js.isDigit run = true
    /\ (lo <= String.length run <= hi)%nat.
Proof.
  unfold Regex.digits. destruct (Js.span Js.isDigit s) as [run rest'] eqn:E.
  destruct (_ && _) eqn:B; [|discriminate]. intros [= <-].
  apply span_spec in E as (-> & Hd & _).
  apply andb_true_iff in B as [B1 B2].
  apply Nat.leb_le in B1, B2. eauto.
Qed.

Lemma digits_app (lo hi : nat) (run rest : string) :
  Js.forallb Js.isDigit run = true ->
  (lo <= String.length run <= hi)%nat ->
  no_digit_ahead rest ->
  Regex.digits lo hi (run ++ rest) = Some rest.
Proof.
  intros Hd [H1 H2] Hr. unfold Regex.digits.
  rewrite (span_app Js.isDigit run rest Hd).
  - apply Nat.leb_le in H1, H2. rewrite H1, H2. reflexivity.
  - destruct rest; [exact I | exact Hr].
Qed.

Lemma char_inv (c : ascii) (s rest : string) :
  Regex.char c s = Some rest -> s = String c rest.
Proof.
  destruct s as [|c' s]; [discriminate|]. cbn.
  destruct (Ascii.eqb c c') eqn:E; [|discriminate].
  apply Ascii.eqb_eq in E as ->. intros [= ->]. reflexivity.
Qed.

Lemma char_cons (c : ascii) (rest : string) :
  Regex.char c (String c rest) = Some rest.
Proof. cbn. rewrite Ascii.eqb_refl. reflexivity. Qed.

Lemma at_end_inv (r : option string) : Regex.at_end r = true -> r = Some "".
Proof. destruct r as [[|]|]; (discriminate || reflexivity). Qed.

Lemma one_or_two (s : string) :
  Js.forallb Js.isDigit s = true ->
  (1 <= String.length s <= 2)%nat <-> all_digits 1 s \/ all_digits 2 s.
Proof. unfold all_digits. intros H. split; [intros ? | intros [[? _]|[? _]]]; try lia.
  destruct (Nat.eq_dec (String.length s) 1%nat); [left | right]; split; auto; lia.
Qed.

Lemma date_slashes_spec (s : string) :
  Regex.at_end (Regex.date_slashes s) = true <->
  exists a b y,
    s = a ++ "/" ++ b ++ "/" ++ y
    /\ (all_digits 1 a \/ all_digits 2 a)
    /\ (all_digits 1 b \/ all_digits 2 b)
    /\ all_digits 4 y.
Proof.
  split.
  - intros H. apply at_end_inv in H. unfold Regex.date_slashes in H.
    destruct (Regex.digits 1 2 s) as [r1|] eqn:E1; [|discriminate]. cbn in H.
    destruct (Regex.char "/" r1) as [r2|] eqn:E2; [|discriminate]. cbn in H.
    destruct (Regex.digits 1 2 r2) as [r3|] eqn:E3; [|discriminate]. cbn in H.
    destruct (Regex.char "/" r3) as [r4|] eqn:E4; [|discriminate]. cbn in H.
    apply digits_inv in E1 as (a & -> & Ha & La).
    apply char_inv in E2 as ->.
    apply digits_inv in E3 as (b & -> & Hb & Lb).
    apply char_inv in E4 as ->.
    apply digits_inv in H as (y & -> & Hy & Ly).
    exists a, b, y. rewrite app_nil_r.
    split; [reflexivity|].
    split; [apply one_or_two; assumption|].
    split; [apply one_or_two; assumption|].
    split; [lia | assumption].
  - intros (a & b & y & -> & Ha & Hb & [Ly Hy]).
    assert (Da : Js.forallb Js.isDigit a = true) by (destruct Ha as [[_ ?]|[_ ?]]; assumption).
    assert (Db : Js.forallb Js.isDigit b = true) by (destruct Hb as [[_ ?]|[_ ?]]; assumption).
    apply one_or_two in Ha, Hb; try assumption.
    unfold Regex.date_slashes.
    change (a ++ "/" ++ b ++ "/" ++ y) with (a ++ String "/" (b ++ String "/" y)).
    rewrite (digits_app 1 2 a _ Da Ha) by reflexivity. cbn [mbind option_bind].
    rewrite char_cons. cbn [mbind option_bind].
    rewrite (digits_app 1 2 b _ Db Hb) by reflexivity. cbn [mbind option_bind].
    rewrite char_cons. cbn [mbind option_bind].
    rewrite <- (app_nil_r y) at 1.
    rewrite (digits_app 4 4 y "" Hy) by (try exact I; lia). reflexivity.
Qed.

Lemma date_dashes_spec (s : string) :
  Regex.at_end (Regex.date_dashes s) = true <->
  exists y m d,
    s = y ++ "-" ++ m ++ "-" ++ d
    /\ all_digits 4 y /\ all_digits 2 m /\ all_digits 2 d.
Proof.
  split.
  - intros H. apply at_end_inv in H. unfold Regex.date_dashes in H.
    destruct (Regex.digits 4 4 s) as [r1|] eqn:E1; [|discriminate]. cbn in H.
    destruct (Regex.char "-" r1) as [r2|] eqn:E2; [|discriminate]. cbn in H.
    destruct (Regex.digits 2 2 r2) as [r3|] eqn:E3; [|discriminate]. cbn in H.
    destruct (Regex.char "-" r3) as [r4|] eqn:E4; [|discriminate]. cbn in H.
    apply digits_inv in E1 as (y & -> & Hy & Ly).
    apply char_inv in E2 as ->.
    apply digits_inv in E3 as (m & -> & Hm & Lm).
    apply char_inv in E4 as ->.
    apply digits_inv in H as (d & -> & Hd & Ld).
    exists y, m, d. rewrite app_nil_r. unfold all_digits.
    repeat split; first [reflexivity | assumption | lia].
  - intros (y & m & d & -> & [Ly Hy] & [Lm Hm] & [Ld Hd]).
    unfold Regex.date_dashes.
    change (y ++ "-" ++ m ++ "-" ++ d) with (y ++ String "-" (m ++ String "-" d)).
    rewrite (digits_app 4 4 y _ Hy) by (try reflexivity; lia). cbn [mbind option_bind].
    rewrite char_cons. cbn [mbind option_bind].
    rewrite (digits_app 2 2 m _ Hm) by (try reflexivity; lia). cbn [mbind option_bind].
    rewrite char_cons. cbn [mbind option_bind].
    rewrite <- (app_nil_r d) at 1.
    rewrite (digits_app 2 2 d "" Hd) by (try exact I; lia). reflexivity.
Qed.

Lemma dateRegex_test_pattern (s : string) :
  Regex.dateRegex_test s = true <-> DatePattern s.
Proof.
  unfold Regex.dateRegex_test, DatePattern.
  rewrite orb_true_iff, date_slashes_spec, date_dashes_spec. reflexivity.
Qed.

End Dates.

(** X14.  The date pattern accepts exactly the strings made of one or two
    digits, a slash, one or two digits, a slash and four digits, or of four
    digits, a dash, two digits, a dash and two digits.  It checks no
    calendar: [99/99/0000] is accepted; and a month of one digit is not, in
    the form with dashes. *)
Theorem dateRegex_test_spec (s : string) :
  (Regex.dateRegex_test s = true <-> DatePattern s)
  /\ Regex.dateRegex_test "99/99/0000" = true
  /\ Regex.dateRegex_test "2024-1-15" = false.
Proof.
  split; [apply dateRegex_test_pattern|]. split; reflexivity.
Qed.

(** ** What the grid shows *)

Section Display.
Context `{rt : JsRuntime}.

Lemma detectCellType_not_empty (v : string) :
  detectCellType v <> CellType.text -> Js.isEmpty v = false.
Proof.
  intros H. destruct v; [|reflexivity]. exfalso. apply H. reflexivity.
Qed.

Lemma detectCellType_date (v : string) :
  detectCellType v = CellType.date -> Regex.dateRegex_test v = true.
Proof.
  unfold detectCellType.
  destruct (Js.isEmpty v || Js.isBlank v); [discriminate|].
  destruct (Js.startsWith "=" v); [discriminate|].
  destruct (negb (isNaN (js_Number v)) && negb (Js.isBlank v)); [discriminate|].
  destruct (Regex.dateRegex_test v); [reflexivity|].
  destruct (_ || _); discriminate.
Qed.

Lemma detectCellType_boolean (v : string) :
  detectCellType v = CellType.boolean ->
  Js.toLowerCase v = "true" \/ Js.toLowerCase v = "false".
Proof.
  unfold detectCellType.
  destruct (Js.isEmpty v || Js.isBlank v); [discriminate|].
  destruct (Js.startsWith "=" v); [discriminate|].
  destruct (negb (isNaN (js_Number v)) && negb (Js.isBlank v)); [discriminate|].
  destruct (Regex.dateRegex_test v); [discriminate|].
  destruct (String.eqb (Js.toLowerCase v) "true") eqn:E1.
  - apply String.eqb_eq in E1. auto.
  - destruct (String.eqb (Js.toLowerCase v) "false") eqn:E2; [|discriminate].
    apply String.eqb_eq in E2. auto.
Qed.

Lemma renderCell_display (props : Grid.Props) (st : Grid.State) (r c : Z)
    (cell : Cell.t) :
  Grid.isEditingThis st r c = false ->
  Grid.cells props !! getCellId r c = Some cell ->
  Grid.renderCell props st r c = Grid.Display (formatCellValue cell).
Proof. intros He Hc. unfold Grid.renderCell. rewrite He, Hc. reflexivity. Qed.

End Display.

(** X15.  What the grid shows in a cell after a commit, when the cell is
    not under edit: for a formula the computed value, never the formula
    text; for an input typed as text the input itself; for an input typed
    as boolean [TRUE] or [FALSE], as the input reads when case is ignored.
    A position with no record shows the empty text, and the cell under edit
    shows the edit buffer. *)
Theorem renderCell_after_commit `{rt : JsRuntime} (cs : Cells) (r c : Z)
    (v : string) (sel : option CellPos.t) (n m : Z) (st : Grid.State)
    (Hst : Grid.isEditingThis st r c = false) :
  let props' :=
    {| Grid.cells := setCellValue cs r c v; Grid.selectedCell := sel;
       Grid.rows := n; Grid.cols := m |} in
  Grid.renderCell props' st r c = Grid.Display (formatCellValue (newCell cs r c v))
  /\ (detectCellType v = CellType.formula ->
      Grid.renderCell props' st r c = Grid.Display (evaluateFormula v cs))
  /\ (detectCellType v = CellType.text ->
      Grid.renderCell props' st r c = Grid.Display v)
  /\ (detectCellType v = CellType.boolean ->
      (Js.toLowerCase v = "true"
       /\ Grid.renderCell props' st r c = Grid.Display "TRUE")
      \/ (Js.toLowerCase v = "false"
          /\ Grid.renderCell props' st r c = Grid.Display "FALSE"))
  /\ (cs !! getCellId r c = None ->
      Grid.renderCell
        {| Grid.cells := cs; Grid.selectedCell := sel; Grid.rows := n; Grid.cols := m |}
        st r c
      = Grid.Display "")
  /\ (forall buffer,
        Grid.renderCell props'
          {| Grid.editingCell := Some {| CellPos.row := r; CellPos.col := c |};
             Grid.editValue := buffer |} r c
        = Grid.Input buffer).
Proof.
  intros props'.
  assert (Hr : Grid.renderCell props' st r c
               = Grid.Display (formatCellValue (newCell cs r c v))).
  { apply renderCell_display; [exact Hst|].
    cbn [Grid.cells props']. rewrite setCellValue_unfold. apply lookup_insert_eq. }
  rewrite Hr. split; [reflexivity|]. split; [|split; [|split; [|split]]].
  - intros Hf. rewrite (newCell_formula cs r c v (proj1 (detectCellType_formula v) Hf)).
    unfold formatCellValue, formulaCell. cbn.
    destruct (Js.isEmpty (evaluateFormula v cs)) eqn:E; [|reflexivity].
    apply isEmpty_true in E. rewrite E. reflexivity.
  - intros Ht. rewrite (newCell_plain cs r c v) by (rewrite Ht; discriminate).
    unfold formatCellValue, plainCell. cbn. rewrite Ht.
    destruct v; reflexivity.
  - intros Hb. rewrite (newCell_plain cs r c v) by (rewrite Hb; discriminate).
    unfold formatCellValue, plainCell. cbn. rewrite Hb.
    rewrite (detectCellType_not_empty v) by (rewrite Hb; discriminate).
    destruct (detectCellType_boolean v Hb) as [E|E]; rewrite E; [left | right];
      split; reflexivity.
  - intros Hnone. unfold Grid.renderCell. cbn [Grid.cells].
    rewrite Hst, Hnone. reflexivity.
  - intros buffer. unfold Grid.renderCell, Grid.isEditingThis. cbn.
    rewrite !Z.eqb_refl. reflexivity.
Qed.

Lemma renderCell_after_commit_witness :
  Grid.renderCell (H := Ref.runtime)
    {| Grid.cells := setCellValue (rt := Ref.runtime) ∅ 0 0 "=1+2";
       Grid.selectedCell := None; Grid.rows := 50; Grid.cols := 26 |}
    {| Grid.editingCell := None; Grid.editValue := "" |} 0 0
  = Grid.Display (formatCellValue (rt := Ref.runtime)
                    (newCell (rt := Ref.runtime) ∅ 0 0 "=1+2")).
Proof.
  exact (proj1 (renderCell_after_commit (rt := Ref.runtime) ∅ 0 0 "=1+2" None 50 26
                  {| Grid.editingCell := None; Grid.editValue := "" |} eq_refl)).
Defined.

(** ** The assistant panels *)

Section Panels.

Lemma columnToLetter_one_letter (col : Z) :
  0 <= col <= 25 -> columnToLetter col = String (Js.fromCharCode (65 + col)) "".
Proof.
  intros H. unfold columnToLetter.
  rewrite columnToLetter_loop_step by lia.
  rewrite Z.div_small, Z.rem_small by lia.
  apply columnToLetter_loop_stop. lia.
Qed.

Lemma match_cellId_no_capital (c : ascii) (s : string) :
  Js.isUpper c = false -> match_cellId (String c s) = None.
Proof.
  intros H. unfold match_cellId. cbn [Js.span]. rewrite H.
  destruct (Js.span Js.isDigit (String c s)). reflexivity.
Qed.

Lemma span_head (p : ascii -> bool) (s : string) :
  Js.isEmpty (fst (Js.span p s))
  = match s with
    | String c _ => negb (p c)
    | EmptyString => true
    end.
Proof.
  destruct s as [|c s]; [reflexivity|]. cbn [Js.span].
  destruct (p c); [|reflexivity]. destruct (Js.span p s). reflexivity.
Qed.

Lemma formulaMatch_app (pre rest : string) :
  AIChatPanel.formulaMatch pre = None ->
  Js.startsWith "=" rest = true ->
  AIChatPanel.formulaMatch (pre ++ rest) = AIChatPanel.formulaMatch rest.
Proof.
  induction pre as [|c pre IH]; intros Hnone Hrest; [reflexivity|].
  rewrite app_cons. cbn [AIChatPanel.formulaMatch] in *.
  rewrite span_head in *.
  assert (Hhead : match pre ++ rest with
                  | String c0 _ => negb (AIChatPanel.formula_char c0)
                  | EmptyString => true
                  end
                  = match pre with
                    | String c0 _ => negb (AIChatPanel.formula_char c0)
                    | EmptyString => true
                    end).
  { destruct pre as [|c0 pre]; [|reflexivity]. rewrite app_nil_l.
    destruct rest as [|c1 rest]; [reflexivity|].
    unfold Js.startsWith in Hrest. apply Ascii.eqb_eq in Hrest. subst c1.
    reflexivity. }
  rewrite Hhead.
  destruct (Ascii.eqb c "=" && negb _); [discriminate|].
  apply IH; assumption.
Qed.

Lemma formulaMatch_here (run post : string) :
  run <> "" -> Js.forallb AIChatPanel.formula_char run = true ->
  match post with
  | String c _ => AIChatPanel.formula_char c = false
  | EmptyString => True
  end ->
  AIChatPanel.formulaMatch (String "=" (run ++ post)) = Some (String "=" run).
Proof.
  intros Hne Hrun Hpost. cbn [AIChatPanel.formulaMatch].
  rewrite (span_app _ run post Hrun Hpost). cbn [fst].
  destruct run; [contradiction | reflexivity].
Qed.

Lemma formulaMatch_inv (s f : string) :
  AIChatPanel.formulaMatch s = Some f ->
  exists pre run post,
    s = pre ++ String "=" (run ++ post) /\ f = String "=" run
    /\ run <> "" /\ Js.forallb AIChatPanel.formula_char run = true
    /\ match post with
       | String c _ => AIChatPanel.formula_char c = false
       | EmptyString => True
       end
    /\ AIChatPanel.formulaMatch pre = None.
Proof.
  induction s as [|c s IH]; [discriminate|].
  cbn [AIChatPanel.formulaMatch].
  destruct (Ascii.eqb c "=" && _) eqn:E.
  - intros [= <-]. apply andb_true_iff in E as [Ec Er].
    apply Ascii.eqb_eq in Ec as ->.
    destruct (Js.span AIChatPanel.formula_char s) as [run post] eqn:Es.
    apply span_spec in Es as (-> & Hrun & Hpost). cbn [fst] in *.
    exists "", run, post. rewrite app_nil_l.
    repeat split; try assumption.
    intros ->. discriminate.
  - intros H. destruct (IH H) as (pre & run & post & -> & -> & Hne & Hrun & Hpost & Hpre).
    exists (String c pre), run, post. rewrite app_cons.
    repeat split; try assumption.
    cbn [AIChatPanel.formulaMatch]. rewrite span_head in *.
    assert (Hhead : match pre ++ String "=" (run ++ post) with
                    | String c0 _ => negb (AIChatPanel.formula_char c0)
                    | EmptyString => true
                    end
                    = match pre with
                      | String c0 _ => negb (AIChatPanel.formula_char c0)
                      | EmptyString => true
                      end).
    { destruct pre; reflexivity. }
    rewrite Hhead in E. rewrite E. exact Hpre.
Qed.

Lemma existsb_dropWhile (p q : ascii -> bool) (s : string) :
  (forall c, p c = true -> q c = false) ->
  Js.existsb p (Js.dropWhile q s) = Js.existsb p s.
Proof.
  intros H. induction s as [|c s IH]; [reflexivity|]. cbn.
  destruct (q c) eqn:Q; [|reflexivity].
  rewrite IH. destruct (p c) eqn:P; [|reflexivity].
  rewrite (H c P) in Q. discriminate.
Qed.

Lemma existsb_trimEnd (p : ascii -> bool) (s : string) :
  (forall c, p c = true -> Js.isSpace c = false) ->
  Js.existsb p (Ref.trimEnd s) = Js.existsb p s.
Proof.
  intros H. induction s as [|c s IH]; [reflexivity|]. cbn [Ref.trimEnd Js.existsb].
  destruct (Js.isSpace c && Js.isEmpty (Ref.trimEnd s)) eqn:E.
  - apply andb_true_iff in E as [Ec Es]. apply isEmpty_true in Es.
    rewrite Es in IH. cbn in IH. rewrite <- IH.
    destruct (p c) eqn:P; [|reflexivity]. rewrite (H c P) in Ec. discriminate.
  - cbn [Js.existsb]. rewrite IH. reflexivity.
Qed.

Lemma existsb_trim (p : ascii -> bool) (s : string) :
  (forall c, p c = true -> Js.isSpace c = false) ->
  Js.existsb p (JsString.trim s) = Js.existsb p s.
Proof.
  intros H. unfold JsString.trim, Ref.trim, Js.trimStart.
  rewrite (existsb_trimEnd p _ H). apply existsb_dropWhile, H.
Qed.

Lemma includes_equals (s : string) :
  JsString.includes s "=" = Js.existsb (Ascii.eqb "=") s.
Proof.
  induction s as [|c s IH]; [reflexivity|].
  cbn [JsString.includes Js.existsb String.prefix]. rewrite IH.
  destruct (ascii_dec "=" c) as [<-|Hne].
  - destruct s; reflexivity.
  - apply Ascii.eqb_neq in Hne. rewrite Hne. reflexivity.
Qed.

Lemma equals_not_space (c : ascii) : Ascii.eqb "=" c = true -> Js.isSpace c = false.
Proof. intros H. apply Ascii.eqb_eq in H. subst c. reflexivity. Qed.

Lemma evaluateFormula_colon `{rt : JsRuntime} (Hrt : Conforms rt) (cs : Cells)
    (e : string) :
  Js.forallb Ref.plain_char e = true ->
  Js.existsb Ref.is_colon e = true ->
  evaluateFormula (String "=" e) cs = "#ERROR".
Proof.
  intros Hp Hc. rewrite evaluateFormula_formula by reflexivity.
  apply (call_raises Hrt _ "SyntaxError").
  apply Function_call_opt_colon.
  - apply replace_keeps_plain; [apply (cellRef_value_plain Hrt) | exact Hp].
  - now apply replace_keeps_colon.
Qed.

End Panels.

(** X16.  The chat panel names cells with a function of its own, which
    takes one character for the column.  It agrees with [getCellId] on the
    columns 0 to 25, the grid the application draws; from column 26 on
    (while [65 + col] is a code unit below 256) it gives a text that is not
    an address: it differs from that of [getCellId], and [parseCellId]
    rejects it. *)
Theorem AIChatPanel_getCellId (row col : Z) :
  (0 <= col <= 25 -> AIChatPanel.getCellId row col = getCellId row col)
  /\ (26 <= col <= 190 ->
      parseCellId (AIChatPanel.getCellId row col)
      = Throw ("Invalid cell ID: " ++ AIChatPanel.getCellId row col)
      /\ (0 <= row -> AIChatPanel.getCellId row col <> getCellId row col))
  /\ AIChatPanel.getCellId 0 26 = "[1" /\ getCellId 0 26 = "AA1".
Proof.
  split; [|split; [|split; reflexivity]].
  - intros H. unfold AIChatPanel.getCellId, getCellId.
    rewrite (columnToLetter_one_letter col H). reflexivity.
  - intros H.
    assert (Hm : match_cellId (AIChatPanel.getCellId row col) = None).
    { apply match_cellId_no_capital. unfold Js.isUpper, Js.char_in.
      rewrite charCode_fromCharCode by lia.
      apply andb_false_iff. right. apply Z.leb_gt. lia. }
    split.
    + unfold parseCellId. rewrite Hm. reflexivity.
    + intros Hrow E. rewrite E in Hm.
      destruct (getCellId_shape row col Hrow ltac:(lia))
        as (l & d & E' & Hl & Hlu & Hd & Hdd & _).
      rewrite E', (match_cellId_app l d Hl Hlu Hd Hdd) in Hm. discriminate.
Qed.

(** X17.  The formula the chat panel takes from an answer is the leftmost
    equals sign followed by a character of the class (letters, digits,
    [( ) : , + - * /] and white space), with the longest run of such
    characters: prose that follows the formula is taken with it.  What is
    taken starts with [=], so applying it stores a formula cell whose value
    is the result of evaluating it. *)
Theorem formulaMatch_spec `{rt : JsRuntime} (s f : string) :
  (AIChatPanel.formulaMatch s = Some f <->
   exists pre run post,
     s = pre ++ String "=" (run ++ post) /\ f = String "=" run
     /\ run <> "" /\ Js.forallb AIChatPanel.formula_char run = true
     /\ match post with
        | String c _ => AIChatPanel.formula_char c = false
        | EmptyString => True
        end
     /\ AIChatPanel.formulaMatch pre = None)
  /\ (AIChatPanel.formulaMatch s = Some f ->
      forall cs selected st,
        App.cells
          (handleFormulaGenerated cs (Some selected) (AIChatPanel.appliedResult f) st)
        !! getCellId (CellPos.row selected) (CellPos.col selected)
        = Some (formulaCell (getCellId (CellPos.row selected) (CellPos.col selected))
                  (CellPos.row selected) (CellPos.col selected)
                  f (evaluateFormula f cs)))
  /\ AIChatPanel.formulaMatch "Use =SUM(B2:B4) to add them." = Some "=SUM(B2:B4) to add them"
  /\ AIChatPanel.formulaMatch "a == b" = Some "= b".
Proof.
  split; [|split; [|split; reflexivity]].
  - split; [apply formulaMatch_inv|].
    intros (pre & run & post & -> & -> & Hne & Hrun & Hpost & Hpre).
    rewrite (formulaMatch_app pre _ Hpre) by reflexivity.
    apply formulaMatch_here; assumption.
  - intros H cs selected st.
    apply formulaMatch_inv in H as (pre & run & post & _ & -> & _).
    unfold handleFormulaGenerated, handleCellValueChange. cbn.
    rewrite lookup_insert_eq. reflexivity.
Qed.

(** X18.  The formula the command bar takes from an answer that is not
    JSON always holds an equals sign: it is a line of the answer that holds
    one, trimmed, or the default [=SUM(A1:A10)] when no line that is not
    blank holds one.  The sign need not come first: a line of prose around
    a formula is handed over whole, and is then stored as it is, not as a
    formula. *)
Theorem formulaFromText_spec (text : string) :
  Js.existsb (Ascii.eqb "=") (AICommandBar.formulaFromText text) = true
  /\ (AICommandBar.formulaFromText text = "=SUM(A1:A10)"
      \/ exists line,
           In line (JsString.split newline text)
           /\ JsString.includes line "=" = true
           /\ AICommandBar.formulaFromText text = JsString.trim line)
  /\ ((forall line, In line (JsString.split newline text) ->
                    JsString.includes line "=" = false) ->
      AICommandBar.formulaFromText text = "=SUM(A1:A10)")
  /\ AICommandBar.formulaFromText "The formula is =A1+B1" = "The formula is =A1+B1"
  /\ (forall `{rt : JsRuntime} cs selected st,
        Js.startsWith "=" (AICommandBar.formulaFromText text) = false ->
        exists cell,
          App.cells
            (handleFormulaGenerated cs (Some selected)
               (AICommandBar.resultFromText text) st)
          !! getCellId (CellPos.row selected) (CellPos.col selected) = Some cell
          /\ Cell.formula cell = None
          /\ Cell.value cell = AICommandBar.formulaFromText text).
Proof.
  assert (Hstored : forall `{rt : JsRuntime} cs selected st,
            Js.startsWith "=" (AICommandBar.formulaFromText text) = false ->
            exists cell,
              App.cells
                (handleFormulaGenerated cs (Some selected)
                   (AICommandBar.resultFromText text) st)
              !! getCellId (CellPos.row selected) (CellPos.col selected) = Some cell
              /\ Cell.formula cell = None
              /\ Cell.value cell = AICommandBar.formulaFromText text).
  { intros rt cs selected st Hs.
    exists (plainCell (getCellId (CellPos.row selected) (CellPos.col selected))
              (CellPos.row selected) (CellPos.col selected)
              (AICommandBar.formulaFromText text)
              (detectCellType (AICommandBar.formulaFromText text))).
    split; [|split; reflexivity].
    unfold handleFormulaGenerated, handleCellValueChange.
    cbn [App.cells AICommandBar.resultFromText FormulaResult.formula].
    rewrite lookup_insert_eq. f_equal. apply newCell_plain.
    intros Hf. apply detectCellType_formula in Hf. congruence. }
  repeat (split; [|try exact Hstored]); try reflexivity; clear Hstored;
    unfold AICommandBar.formulaFromText;
    set (lines := List.filter _ _);
    destruct (find (fun line => JsString.includes line "=") lines) as [line|] eqn:F;
    try reflexivity; try (left; reflexivity);
    apply find_some in F as [Hin Hinc];
    apply filter_In in Hin as [Hin _];
    assert (Hor : JsString.or_else (JsString.trim line) "=SUM(A1:A10)"
                  = JsString.trim line)
      by (unfold JsString.or_else;
          assert (He : Js.existsb (Ascii.eqb "=") (JsString.trim line) = true)
            by (rewrite (existsb_trim _ _ equals_not_space), <- includes_equals;
                exact Hinc);
          destruct (JsString.trim line); [discriminate He | reflexivity]);
    rewrite Hor.
  - rewrite (existsb_trim _ _ equals_not_space), <- includes_equals. exact Hinc.
  - right. eauto.
  - intros Hall. rewrite (Hall line Hin) in Hinc. discriminate.
Qed.

(** X19.  The suggestions under the command bar: they show for a query of
    three characters or more that some common suggestion contains, case
    ignored; then they are at most four, each one a common suggestion that
    contains the query.  A shorter query hides them. *)
Theorem suggestions_effect_spec (query : string) (st : AICommandBar.State) :
  let st' := AICommandBar.suggestions_effect query st in
  (AICommandBar.showSuggestions st' = true ->
   (3 <= String.length query)%nat
   /\ AICommandBar.suggestions st' <> []
   /\ (List.length (AICommandBar.suggestions st') <= 4)%nat
   /\ forall s, In s (AICommandBar.suggestions st') ->
        In s AICommandBar.commonSuggestions
        /\ JsString.includes (Js.toLowerCase s) (Js.toLowerCase query) = true)
  /\ ((String.length query <= 2)%nat ->
      AICommandBar.showSuggestions st' = false
      /\ AICommandBar.suggestions st' = AICommandBar.suggestions st).
Proof.
  intros st'. unfold st', AICommandBar.suggestions_effect.
  destruct (2 <? String.length query)%nat eqn:E.
  - apply Nat.ltb_lt in E. cbn [AICommandBar.showSuggestions AICommandBar.suggestions].
    set (filtered := List.filter _ _).
    split; [|lia]. intros Hshow. apply Nat.ltb_lt in Hshow.
    split; [lia|]. split; [|split].
    + destruct filtered; [cbn in Hshow; lia | discriminate].
    + apply firstn_le_length.
    + intros s Hs.
      assert (Hin : In s filtered).
      { rewrite <- (firstn_skipn 4 filtered). apply in_or_app. left. exact Hs. }
      apply filter_In in Hin. exact Hin.
  - apply Nat.ltb_ge in E. cbn. split; [discriminate|]. auto.
Qed.

(** X20.  Applying a suggestion of the panel: with no cell selected nothing
    happens; a suggestion that does not start with [=] raises a
    notification and leaves every cell as it is; one that starts with [=]
    is committed to the selected cell as a formula.  The quick formulas over
    a column, [=SUM(A:A)], [=AVERAGE(A:A)] and [=COUNT(A:A)], hold a colon
    and store [#ERROR] whatever the cells hold. *)
Theorem handleSuggestionApply_spec `{rt : JsRuntime} (Hrt : Conforms rt)
    (cs : Cells) (suggestion : string) (st : App.State) :
  handleSuggestionApply cs None suggestion st = st
  /\ (forall selected,
        Js.startsWith "=" suggestion = false ->
        App.cells (handleSuggestionApply cs (Some selected) suggestion st)
        = App.cells st)
  /\ (forall selected,
        Js.startsWith "=" suggestion = true ->
        App.cells (handleSuggestionApply cs (Some selected) suggestion st)
        = <[getCellId (CellPos.row selected) (CellPos.col selected) :=
              formulaCell (getCellId (CellPos.row selected) (CellPos.col selected))
                (CellPos.row selected) (CellPos.col selected)
                suggestion (evaluateFormula suggestion cs)]> (App.cells st))
  /\ (forall quick,
        In quick AISuggestionsPanel.quickSuggestions -> quick <> "=TODAY()" ->
        evaluateFormula quick cs = "#ERROR").
Proof.
  split; [reflexivity|]. split; [|split].
  - intros selected Hs. unfold handleSuggestionApply. rewrite Hs. reflexivity.
  - intros selected Hs. unfold handleSuggestionApply, handleCellValueChange.
    rewrite Hs. cbn. rewrite (newCell_formula cs _ _ suggestion Hs). reflexivity.
  - intros quick Hin Hne. cbn in Hin.
    destruct Hin as [<-|[<-|[<-|[<-|[]]]]]; try contradiction;
      apply (evaluateFormula_colon Hrt); reflexivity.
Qed.

Lemma handleSuggestionApply_spec_witness :
  evaluateFormula (rt := Ref.runtime) "=SUM(A:A)" ∅ = "#ERROR".
Proof.
  refine (proj2 (proj2 (proj2
            (handleSuggestionApply_spec (rt := Ref.runtime) Ref_runtime_conforms
               ∅ "=SUM(A:A)" {| App.cells := ∅; App.toasts := [] |})))
            "=SUM(A:A)" _ _).
  - left. reflexivity.
  - discriminate.
Defined.

(** ** The editors and the store *)

(** X21.  The formula bar commits through the same update as the grid.  On
    a store the application can hold, with a cell that has a record
    selected: the bar loads the record; Enter commits the text of the bar to
    the selected cell, so that confirming what was loaded leaves the store as
    it was when the cell has no formula; Escape commits nothing; and with
    no cell selected no key of the bar changes the state. *)
Theorem formulaBar_confirm `{rt : JsRuntime} (Hrt : Conforms rt) (cs : Cells)
    (k : string) (cell : Cell.t) (toasts : list App.Toast)
    (Hcs : reachable cs) (Hk : cs !! k = Some cell) :
  let selected :=
    Some {| CellPos.row := Cell.row cell; CellPos.col := Cell.col cell |} in
  let current := getCurrentCell cs selected in
  let localValue :=
    FormulaBar.localValue_effect true (default "" (Cell.value <$> current))
      (current ≫= Cell.formula) in
  let st := {| App.cells := cs; App.toasts := toasts |} in
  current = Some cell
  /\ (forall v,
        formulaBar_calls cs selected (FormulaBar.handleKeyDown v "Enter") st
        = handleCellValueChange cs (Cell.row cell) (Cell.col cell) v st)
  /\ (Cell.formula cell = None ->
      App.cells
        (formulaBar_calls cs selected (FormulaBar.handleKeyDown localValue "Enter") st)
      = cs)
  /\ (forall v, formulaBar_calls cs selected (FormulaBar.handleKeyDown v "Escape") st = st)
  /\ (forall v key, formulaBar_calls cs None (FormulaBar.handleKeyDown v key) st = st).
Proof.
  intros selected current localValue st.
  pose proof (reachable_canonical Hrt cs Hcs k cell Hk) as Hc.
  assert (Hcur : current = Some cell).
  { unfold current, getCurrentCell, selected. cbn [CellPos.row CellPos.col].
    destruct Hc as ((Hid & Hpos & _) & _). rewrite <- Hpos, Hid. exact Hk. }
  split; [exact Hcur|]. split; [reflexivity|]. split; [|split].
  - intros Hnone. unfold localValue. rewrite formulaBar_loads_editText, Hcur.
    change (App.cells (formulaBar_calls cs selected
                         (FormulaBar.handleKeyDown (Grid.editText (Some cell)) "Enter") st))
      with (setCellValue cs (Cell.row cell) (Cell.col cell) (Grid.editText (Some cell))).
    exact (recommit_plain cs k cell Hk Hc Hnone).
  - reflexivity.
  - intros v key. unfold FormulaBar.handleKeyDown.
    destruct (String.eqb key "Enter"); [reflexivity|].
    destruct (String.eqb key "Escape"); reflexivity.
Qed.

Lemma formulaBar_confirm_witness :
  getCurrentCell sampleCells (Some {| CellPos.row := 1; CellPos.col := 1 |})
  = Some (plainCell "B2" 1 1 "15000" CellType.number).
Proof.
  exact (proj1 (formulaBar_confirm (rt := Ref.runtime) Ref_runtime_conforms
                  sampleCells "B2" (plainCell "B2" 1 1 "15000" CellType.number) []
                  reachable_sample eq_refl)).
Defined.

(** X22.  Leaving a cell under edit by a click on another cell loses
    nothing and touches nothing else: the buffer is committed to the cell
    that was under edit, the record of the clicked cell stays as it was, the
    edit is closed, and the clicked cell is the one the grid asks to
    select.  The input losing the focus commits in the same way. *)
Theorem handleCellClick_commits `{rt : JsRuntime} (cs : Cells) (st : Grid.State)
    (p : CellPos.t) (r c : Z) (appst : App.State)
    (Hed : Grid.editingCell st = Some p)
    (Hp : 0 <= CellPos.row p /\ 0 <= CellPos.col p)
    (Hrc : 0 <= r /\ 0 <= c)
    (Hne : (r, c) <> (CellPos.row p, CellPos.col p)) :
  let effects := Grid.handleCellClick st r c in
  let appst' := grid_calls cs effects appst in
  App.cells appst' !! getCellId (CellPos.row p) (CellPos.col p)
  = Some (newCell cs (CellPos.row p) (CellPos.col p) (Grid.editValue st))
  /\ App.cells appst' !! getCellId r c = App.cells appst !! getCellId r c
  /\ Grid.nextState effects st = {| Grid.editingCell := None; Grid.editValue := "" |}
  /\ (forall r' c', Grid.onCellSelect r' c' ∈ effects <-> r' = r /\ c' = c)
  /\ grid_calls cs (Grid.input_onBlur st) appst
     = handleCellValueChange cs (CellPos.row p) (CellPos.col p) (Grid.editValue st) appst.
Proof.
  intros effects appst'.
  assert (E : effects
              = [ Grid.onCellValueChange (CellPos.row p) (CellPos.col p) (Grid.editValue st);
                  Grid.setEditingCell None; Grid.setEditValue ""; Grid.onStopEdit;
                  Grid.onCellSelect r c ]).
  { unfold effects, Grid.handleCellClick. rewrite Hed. cbn [Grid.truthy].
    rewrite (handleCellSubmit_editing st p Hed). reflexivity. }
  unfold appst'. rewrite E. cbn [grid_calls fold_left Grid.nextState Grid.apply].
  unfold handleCellValueChange. cbn [App.cells].
  split; [apply lookup_insert_eq|]. split; [|split; [reflexivity|split]].
  - apply lookup_insert_ne. intros Heq.
    apply getCellId_inj in Heq; try tauto.
    destruct Heq as [<- <-]. apply Hne. reflexivity.
  - intros r' c'. split.
    + intros H. in_list H. injection H as -> ->. auto.
    + intros [-> ->]. do 4 apply list_elem_of_further. apply list_elem_of_here.
  - unfold Grid.input_onBlur. rewrite (handleCellSubmit_editing st p Hed). reflexivity.
Qed.

Lemma handleCellClick_commits_witness :
  App.cells
    (grid_calls (rt := Ref.runtime) ∅
       (Grid.handleCellClick
          {| Grid.editingCell := Some {| CellPos.row := 0; CellPos.col := 0 |};
             Grid.editValue := "7" |} 2 1)
       {| App.cells := ∅; App.toasts := [] |})
  !! getCellId 0 0
  = Some (newCell (rt := Ref.runtime) ∅ 0 0 "7").
Proof.
  refine (proj1 (handleCellClick_commits (rt := Ref.runtime) ∅
                  {| Grid.editingCell := Some {| CellPos.row := 0; CellPos.col := 0 |};
                     Grid.editValue := "7" |}
                  {| CellPos.row := 0; CellPos.col := 0 |} 2 1
                  {| App.cells := ∅; App.toasts := [] |} eq_refl _ _ _)).
  - cbn. lia.
  - lia.
  - discriminate.
Defined.

(** ** Numbers and truth values *)

Section Literals.

Lemma lowerChar_letter (c x : ascii) :
  Js.isLower x = true -> Js.lowerChar c = x ->
  c = x \/ c = Js.fromCharCode (Js.charCode x - 32).
Proof.
  intros Hx Hc. unfold Js.lowerChar in Hc.
  destruct (Js.isUpper c || _) eqn:E; [|left; exact Hc].
  right. subst x.
  assert (Hr := charCode_range c).
  assert (Hcode : Js.charCode (Js.fromCharCode (Js.charCode c + 32)) = Js.charCode c + 32).
  { apply charCode_fromCharCode.
    unfold Js.isUpper, Js.char_in in E.
    destruct (65 <=? Js.charCode c) eqn:E1, (Js.charCode c <=? 90) eqn:E2,
      (192 <=? Js.charCode c) eqn:E3, (Js.charCode c <=? 222) eqn:E4;
      cbn in E; try discriminate; lia. }
  rewrite Hcode. replace (Js.charCode c + 32 - 32) with (Js.charCode c) by lia.
  unfold Js.fromCharCode, Js.charCode. rewrite N2Z.id. symmetry. apply ascii_N_embedding.
Qed.

Lemma trimEnd_no_space (s : string) :
  Js.existsb Js.isSpace s = false -> Ref.trimEnd s = s.
Proof.
  induction s as [|c s IH]; [reflexivity|]. cbn [Js.existsb Ref.trimEnd].
  intros H. apply orb_false_iff in H as [Hc Hs]. rewrite Hc, (IH Hs). reflexivity.
Qed.

Lemma trim_no_space (s : string) :
  Js.existsb Js.isSpace s = false -> Ref.trim s = s.
Proof.
  intros H. unfold Ref.trim, Js.trimStart.
  assert (Hd : Js.dropWhile Js.isSpace s = s).
  { destruct s as [|c s]; [reflexivity|]. cbn in *.
    apply orb_false_iff in H as [-> _]. reflexivity. }
  rewrite Hd. apply trimEnd_no_space, H.
Qed.

Lemma existsb_forallb (p q : ascii -> bool) (s : string) :
  (forall c, q c = true -> p c = false) ->
  Js.forallb q s = true -> Js.existsb p s = false.
Proof.
  intros H. induction s as [|c s IH]; [reflexivity|]. cbn.
  intros Hq. apply andb_true_iff in Hq as [Hc Hs].
  rewrite (H c Hc), (IH Hs). reflexivity.
Qed.

Lemma isDigit_not_space (c : ascii) : Js.isDigit c = true -> Js.isSpace c = false.
Proof.
  unfold Js.isDigit, Js.isSpace, Js.char_in. intros H.
  apply andb_true_iff in H as [H1 H2]. apply Z.leb_le in H1, H2.
  repeat rewrite orb_false_iff. repeat split.
  - apply andb_false_iff. right. apply Z.leb_gt. lia.
  - apply Z.eqb_neq. lia.
  - apply Z.eqb_neq. lia.
Qed.

(** A string of digits and separators, not all digits, that begins with a
    digit: [Number] gives NaN. *)
Lemma Number_opt_date (sep : ascii) (a rest : string) :
  sep = "/"%char \/ sep = "-"%char ->
  a <> "" -> Js.forallb Js.isDigit a = true ->
  Js.forallb (fun c => Js.isDigit c || Ascii.eqb c sep) rest = true ->
  Ref.Number_opt (a ++ String sep rest) = Some PrimFloat.nan.
Proof.
  intros Hsep Ha Hda Hrest.
  set (s := a ++ String sep rest).
  assert (Hall : Js.forallb (fun c => Js.isDigit c || Ascii.eqb c sep) s = true).
  { unfold s. rewrite forallb_app. cbn [Js.forallb].
    rewrite Ascii.eqb_refl, orb_true_r, Hrest.
    rewrite (forallb_impl Js.isDigit (fun c => Js.isDigit c || Ascii.eqb c sep) a);
      [reflexivity | | exact Hda].
    intros c ->. reflexivity. }
  assert (Hns : Js.existsb Js.isSpace s = false).
  { apply (existsb_forallb Js.isSpace (fun c => Js.isDigit c || Ascii.eqb c sep) s);
      [|exact Hall].
    intros c Hc. apply orb_true_iff in Hc as [Hc|Hc].
    - apply isDigit_not_space, Hc.
    - apply Ascii.eqb_eq in Hc. subst c. destruct Hsep as [-> | ->]; reflexivity. }
  assert (Hnd : Js.forallb Js.isDigit s = false).
  { unfold s. rewrite forallb_app. cbn [Js.forallb].
    assert (Hs : Js.isDigit sep = false) by (destruct Hsep as [-> | ->]; reflexivity).
    rewrite Hs, andb_false_r. reflexivity. }
  destruct a as [|d a]; [contradiction|].
  cbn [Js.forallb] in Hda. apply andb_true_iff in Hda as [Hd Hda].
  unfold Ref.Number_opt. rewrite (trim_no_space s Hns).
  assert (Hsplit : Ref.split_sign s = (false, s)).
  { unfold s. rewrite app_cons.
    destruct d as [[] [] [] [] [] [] [] []]; try discriminate Hd; reflexivity. }
  rewrite Hsplit.
  assert (Hinf : String.eqb s "Infinity" = false).
  { unfold s. rewrite app_cons.
    destruct d as [[] [] [] [] [] [] [] []]; try discriminate Hd; reflexivity. }
  rewrite Hinf, Hnd, andb_false_r.
  change (Js.isEmpty s) with false. cbn [negb].
  destruct Hsep as [-> | ->].
  - assert (Hnum : Js.forallb Ref.numeric_char s = false).
    { unfold s. rewrite forallb_app. cbn [Js.forallb].
      change (Ref.numeric_char "/") with false. rewrite andb_false_r. reflexivity. }
    rewrite Hnum. reflexivity.
  - assert (Hpm : Js.forallb (fun c => Js.isDigit c || Ref.in_chars "+-" c) s = true).
    { apply (forallb_impl (fun c => Js.isDigit c || Ascii.eqb c "-") _ s); [|exact Hall].
      intros c Hc. apply orb_true_iff in Hc as [-> | Hc]; [reflexivity|].
      apply Ascii.eqb_eq in Hc. subst c. reflexivity. }
    rewrite Hpm. destruct (Js.forallb Ref.numeric_char s); reflexivity.
Qed.

End Literals.

Section Detector.
Context `{rt : JsRuntime} (Hrt : Conforms rt).

Lemma detectCellType_date_shape (v : string) :
  DatePattern v -> detectCellType v = CellType.date.
Proof.
  intros Hp.
  assert (Htest : Regex.dateRegex_test v = true).
  { unfold Regex.dateRegex_test. apply orb_true_iff.
    destruct Hp as [Hp|Hp]; [left; apply date_slashes_spec | right; apply date_dashes_spec];
      exact Hp. }
  assert (Hdig : forall sep s, Js.forallb Js.isDigit s = true ->
            Js.forallb (fun c => Js.isDigit c || Ascii.eqb c sep) s = true).
  { intros sep s. apply forallb_impl. intros c ->. reflexivity. }
  assert (Hfirst : exists d rest, v = String d rest /\ Js.isDigit d = true
                                  /\ Ref.Number_opt v = Some PrimFloat.nan).
  { destruct Hp as [(a & b & y & -> & Ha & Hb & [_ Hy])|(y & m & d & -> & [Ly Hy] & [_ Hm] & [_ Hd])].
    - assert (Da : Js.forallb Js.isDigit a = true /\ a <> "").
      { destruct Ha as [[L D]|[L D]]; (split; [exact D|]); intros ->; discriminate. }
      assert (Db : Js.forallb Js.isDigit b = true) by (destruct Hb as [[_ ?]|[_ ?]]; assumption).
      destruct Da as [Da Na]. destruct a as [|d a]; [contradiction|].
      exists d, (a ++ "/" ++ b ++ "/" ++ y). split; [reflexivity|].
      split; [cbn in Da; apply andb_true_iff in Da; tauto|].
      apply (Number_opt_date "/" (String d a) (b ++ String "/" y));
        [left; reflexivity | discriminate | exact Da |].
      rewrite forallb_app. cbn [Js.forallb].
      rewrite (Hdig "/"%char b Db), (Hdig "/"%char y Hy). reflexivity.
    - destruct y as [|d0 y]; [discriminate|].
      exists d0, (y ++ "-" ++ m ++ "-" ++ d). split; [reflexivity|].
      split; [cbn in Hy; apply andb_true_iff in Hy; tauto|].
      apply (Number_opt_date "-" (String d0 y) (m ++ String "-" d));
        [right; reflexivity | discriminate | exact Hy |].
      rewrite forallb_app. cbn [Js.forallb].
      rewrite (Hdig "-"%char m Hm), (Hdig "-"%char d Hd). reflexivity. }
  destruct Hfirst as (d & rest & -> & Hd & Hnan).
  unfold detectCellType.
  rewrite (conforms_Number rt Hrt _ _ Hnan), Htest.
  assert (Hb : Js.isBlank (String d rest) = false).
  { unfold Js.isBlank, Js.trimStart. cbn. rewrite (isDigit_not_space d Hd). reflexivity. }
  rewrite Hb.
  destruct d as [[] [] [] [] [] [] [] []]; try discriminate Hd; reflexivity.
Qed.

Lemma detectCellType_boolean_word (v : string) :
  Js.toLowerCase v = "true" \/ Js.toLowerCase v = "false" ->
  detectCellType v = CellType.boolean.
Proof.
  assert (Hn : forall s n, Ref.Number_opt s = Some n -> js_Number s = n)
    by apply (conforms_Number rt Hrt).
  intros [H|H].
  - destruct v as [|c1 [|c2 [|c3 [|c4 [|c5 v]]]]]; try discriminate H.
    cbn in H. injection H as H1 H2 H3 H4.
    apply lowerChar_letter in H1, H2, H3, H4; try reflexivity.
    destruct H1 as [-> | ->], H2 as [-> | ->], H3 as [-> | ->], H4 as [-> | ->];
      unfold detectCellType;
      match goal with
      | |- context [js_Number ?s] =>
          rewrite (Hn s PrimFloat.nan) by (vm_compute; reflexivity)
      end; reflexivity.
  - destruct v as [|c1 [|c2 [|c3 [|c4 [|c5 [|c6 v]]]]]]; try discriminate H.
    cbn in H. injection H as H1 H2 H3 H4 H5.
    apply lowerChar_letter in H1, H2, H3, H4, H5; try reflexivity.
    destruct H1 as [-> | ->], H2 as [-> | ->], H3 as [-> | ->], H4 as [-> | ->],
      H5 as [-> | ->];
      unfold detectCellType;
      match goal with
      | |- context [js_Number ?s] =>
          rewrite (Hn s PrimFloat.nan) by (vm_compute; reflexivity)
      end; reflexivity.
Qed.

End Detector.

(** X23.  Dates and truth values are detected by their text alone: an input
    is typed as a date exactly when it has the shape of the date pattern,
    and as a boolean exactly when it reads [true] or [false] once case is
    ignored.  Nothing is trimmed for these two: with a space in front the
    same texts are typed as text, whereas a number with spaces around it is
    still a number. *)
Theorem detectCellType_date_boolean `{rt : JsRuntime} (Hrt : Conforms rt)
    (v : string) :
  (detectCellType v = CellType.date <-> DatePattern v)
  /\ (detectCellType v = CellType.boolean <->
      Js.toLowerCase v = "true" \/ Js.toLowerCase v = "false")
  /\ detectCellType " true" = CellType.text
  /\ detectCellType " 2024-01-15" = CellType.text
  /\ detectCellType " 42 " = CellType.number.
Proof.
  split; [|split].
  - split; [|apply (detectCellType_date_shape Hrt)].
    intros Hd. apply dateRegex_test_pattern, detectCellType_date, Hd.
  - split; [apply detectCellType_boolean | apply (detectCellType_boolean_word Hrt)].
  - assert (Hn : forall s n, Ref.Number_opt s = Some n -> js_Number s = n)
      by apply (conforms_Number rt Hrt).
    unfold detectCellType.
    rewrite (Hn " true" nan), (Hn " 2024-01-15" nan), (Hn " 42 " 42%float)
      by (vm_compute; reflexivity).
    repeat split.
Qed.

Lemma detectCellType_date_boolean_witness :
  detectCellType (rt := Ref.runtime) "TRUE" = CellType.boolean <->
  Js.toLowerCase "TRUE" = "true" \/ Js.toLowerCase "TRUE" = "false".
Proof.
  exact (proj1 (proj2 (detectCellType_date_boolean (rt := Ref.runtime)
                         Ref_runtime_conforms "TRUE"))).
Defined.

(** X24.  A number cell shows, and a formula reads, the longest decimal
    prefix of its value, not the number the detector saw: a value written
    as a hexadecimal, binary or octal literal ([0x1F], [0b11], [0o17]) is
    shown as the text the locale gives for 0, and counts as 0 in the
    formulas that refer to the cell. *)
Theorem formatCellValue_radix_literal `{rt : JsRuntime} (Hrt : Conforms rt)
    (id : string) (r c : Z) (mark : ascii) (rest : string)
    (Hmark : Ref.in_chars "xXbBoO" mark = true) :
  let cell := plainCell id r c (String "0" (String mark rest)) CellType.number in
  formatCellValue cell = js_numberToLocaleString 0%float
  /\ (forall cs m, cs !! m = Some cell -> cellRef_value cs m = "0").
Proof.
  intros cell.
  assert (Hp : Ref.parseFloat_opt (String "0" (String mark rest)) = Some 0%float).
  { destruct mark as [[] [] [] [] [] [] [] []]; try discriminate Hmark; reflexivity. }
  split.
  - unfold formatCellValue, cell, plainCell. cbn.
    rewrite (conforms_parseFloat rt Hrt _ _ Hp). reflexivity.
  - intros cs m Hm.
    apply (cellRef_value_number Hrt cs m cell 0%float "0" Hm); try reflexivity.
    exact Hp.
Qed.

Lemma formatCellValue_radix_literal_witness :
  formatCellValue (rt := Ref.runtime) (plainCell "A1" 0 0 "0x1F" CellType.number)
  = js_numberToLocaleString (JsRuntime := Ref.runtime) 0%float.
Proof.
  exact (proj1 (formatCellValue_radix_literal (rt := Ref.runtime) Ref_runtime_conforms
                  "A1" 0 0 "x"%char "1F" eq_refl)).
Defined.

(** ** Addresses that are not canonical *)

Section Aliases.










End Aliases.


